(** * Publication scheduler of the kanban / content-plan application

    A shallow embedding of [schedulePublication] (the server API module) and
    of the parts of the Prisma task store and of the JavaScript [Date] object
    it relies on, followed by the properties of the scheduler.

    Modelling conventions.
    - A [Date] is its ECMAScript time value: milliseconds since the epoch,
      an integer ([Z]).  Local time is UTC plus a fixed offset [LocalTZA];
      zones whose offset changes during the 30-day horizon are not modelled.
    - The store is healthy: every query reaches the database and no query
      raises a connection error.
    - [await] is sequencing; a call runs alone against the store.
    - Rows carry their scalar columns; relations loaded with [include]
      (the column, the assignee) are not part of the returned value.
    - [getAuth] is an input of the call: the user id, or nothing when the
      caller is not authenticated, in which case [createUserIfNotExists]
      throws before the task store is reached.

    Beside the scheduler the development covers the database health
    monitor ([checkDatabaseHealth], [safeDatabaseOperation],
    [getDatabaseHealth]; there the store may be unreachable and the guard
    is explicit), the content-plan listing, the manager-only board
    operations, the deletion of tasks and attachments, the validation of
    [getTaskAttachments], the card title of the Telegram webhook, and the
    week grid of the content-plan page of the client. *)

From Stdlib Require Import ZArith List String Bool Lia Permutation Sorted.
From Stdlib Require Import DecimalString SpecFloat.
Import ListNotations.
Local Open Scope Z_scope.

(* ------------------------------------------------------------------ *)
(** ** JavaScript dates *)

Module JsDate.

Definition msPerDay : Z := 86400000.
Definition msPerHour : Z := 3600000.
Definition msPerMinute : Z := 60000.
Definition msPerSecond : Z := 1000.

(** ECMAScript abstract operations on time values. *)
Definition Day (t : Z) : Z := t / msPerDay.
Definition TimeWithinDay (t : Z) : Z := t mod msPerDay.
Definition WeekDay (t : Z) : Z := (Day t + 4) mod 7.
Definition HourFromTime (t : Z) : Z := (t / msPerHour) mod 24.
Definition MinFromTime (t : Z) : Z := (t / msPerMinute) mod 60.
Definition SecFromTime (t : Z) : Z := (t / msPerSecond) mod 60.
Definition msFromTime (t : Z) : Z := t mod msPerSecond.

Definition MakeTime (hour min sec ms : Z) : Z :=
  hour * msPerHour + min * msPerMinute + sec * msPerSecond + ms.
Definition MakeDate (day time : Z) : Z := day * msPerDay + time.

(** Day of the month (1..31) of a day number, proleptic Gregorian
    calendar, day 0 being 1970-01-01. *)
Definition DateFromDay (d : Z) : Z :=
  let z := d + 719468 in
  let era := z / 146097 in
  let doe := z - era * 146097 in
  let yoe := (doe - doe / 1460 + doe / 36524 - doe / 146096) / 365 in
  let doy := doe - (365 * yoe + yoe / 4 - yoe / 100) in
  let mp := (5 * doy + 2) / 153 in
  doy - (153 * mp + 2) / 5 + 1.
Definition DateFromTime (t : Z) : Z := DateFromDay (Day t).

(** [MakeDay (YearFromTime t) (MonthFromTime t) dt]: the day number of the
    first day of the month of [t], plus [dt - 1].  Values of [dt] outside
    the month carry over into the neighbouring months. *)
Definition MakeDayInMonthOf (t dt : Z) : Z :=
  (Day t - (DateFromTime t - 1)) + (dt - 1).

Section Zone.
(** Offset of local time from UTC, in milliseconds. *)
Variable LocalTZA : Z.

Definition LocalTime (t : Z) : Z := t + LocalTZA.
Definition UTC (t : Z) : Z := t - LocalTZA.

Definition getDay (t : Z) : Z := WeekDay (LocalTime t).
Definition getDate (t : Z) : Z := DateFromTime (LocalTime t).
Definition getHours (t : Z) : Z := HourFromTime (LocalTime t).
Definition getMinutes (t : Z) : Z := MinFromTime (LocalTime t).
Definition getSeconds (t : Z) : Z := SecFromTime (LocalTime t).
Definition getMilliseconds (t : Z) : Z := msFromTime (LocalTime t).

(** [d.setHours(hour, min, sec, ms)] *)
Definition setHours (t hour min sec ms : Z) : Z :=
  UTC (MakeDate (Day (LocalTime t)) (MakeTime hour min sec ms)).

(** [d.setDate(dt)] *)
Definition setDate (t dt : Z) : Z :=
  let lt := LocalTime t in
  UTC (MakeDate (MakeDayInMonthOf lt dt) (TimeWithinDay lt)).
End Zone.

End JsDate.

(* ------------------------------------------------------------------ *)
(** ** Rows of the relational store (schema.prisma) *)

Module User.
Record t : Type := mk {
  id : string;
  name : option string;
  email : option string;
  phone : option string;
  role : string;
  createdAt : Z;
  updatedAt : Z
}.
End User.

Module Task.
Record t : Type := mk {
  id : string;
  title : string;
  description : option string;
  assigneeId : option string;
  columnId : option string;
  createdAt : Z;
  updatedAt : Z;
  publishAt : option Z;
  publishTelegram : bool;
  publishVkOk : bool;
  publishWebsite : bool;
  priority : string;
  source : option string;
  sourceUser : option string
}.

(** The [data] argument of [db.task.update]: for each of the two fields
    the scheduler writes, [None] when the field is absent from [data] and
    [Some v] when it is assigned [v] ([v = None] being SQL null). *)
Record data : Type := mkData {
  setPublishAt : option (option Z);
  setColumnId : option (option string)
}.

Definition assign {A} (new : option A) (old : A) : A :=
  match new with Some v => v | None => old end.

(** The row after an update stamped at [stamp]; [updatedAt] carries the
    [@updatedAt] attribute. *)
Definition apply (stamp : Z) (d : data) (x : t) : t :=
  mk (id x) (title x) (description x) (assigneeId x)
     (assign (setColumnId d) (columnId x))
     (createdAt x) stamp
     (assign (setPublishAt d) (publishAt x))
     (publishTelegram x) (publishVkOk x) (publishWebsite x)
     (priority x) (source x) (sourceUser x).

(** Agreement on every field other than [publishAt], [columnId] and the
    store-maintained [updatedAt]. *)
Definition sameContent (x y : t) : Prop :=
  id x = id y /\ title x = title y /\ description x = description y /\
  assigneeId x = assigneeId y /\ createdAt x = createdAt y /\
  publishTelegram x = publishTelegram y /\ publishVkOk x = publishVkOk y /\
  publishWebsite x = publishWebsite y /\ priority x = priority y /\
  source x = source y /\ sourceUser x = sourceUser y.
End Task.

(** The database: the two tables the call touches, and the history of the
    [db.task.update] calls executed so far (most recent first). *)
Record Db : Type := mkDb {
  users : list User.t;
  tasks : list Task.t;
  taskUpdates : list (string * Task.data)
}.

(** What the call reads from outside the store. *)
Record Env : Type := mkEnv {
  auth : option string;   (* getAuth: the user id when authenticated *)
  now : Z;                (* new Date() *)
  dbNow : Z;              (* the clock behind @default(now()) and @updatedAt *)
  LocalTZA : Z            (* offset of local time from UTC *)
}.

(* ------------------------------------------------------------------ *)
(** ** Effects: store state and thrown errors *)

Inductive Error : Type :=
| UserUnavailable   (* createUserIfNotExists rethrows *)
| NotFound          (* the task id does not resolve *)
| NoAvailableSlot   (* the horizon is exhausted *)
| RecordNotFound.   (* db.task.update on a missing row *)

Inductive Outcome (A : Type) : Type :=
| Returned (a : A)
| Thrown (e : Error).
Arguments Returned {A} a.
Arguments Thrown {A} e.

(** A throw keeps the store as it is at that point: nothing is rolled back. *)
Definition M (A : Type) : Type := Db -> Outcome A * Db.

Definition ret {A} (a : A) : M A := fun db => (Returned a, db).
Definition throw {A} (e : Error) : M A := fun db => (Thrown e, db).
Definition bind {A B} (c : M A) (k : A -> M B) : M B :=
  fun db =>
    match c db with
    | (Returned a, db') => k a db'
    | (Thrown e, db') => (Thrown e, db')
    end.

Notation "x <- c ;; k" := (bind c (fun x => k))
  (at level 61, c at next level, right associativity).

(* ------------------------------------------------------------------ *)
(** ** Store operations *)

(** Replace the first row with the given id. *)
Fixpoint replaceTask (i : string) (x' : Task.t) (l : list Task.t) : list Task.t :=
  match l with
  | [] => []
  | x :: r => if String.eqb (Task.id x) i then x' :: r else x :: replaceTask i x' r
  end.

Module db.
Module user.
Definition findUnique (i : string) : M (option User.t) :=
      fun s => (Returned (find (fun u => String.eqb (User.id u) i) (users s)), s).
Definition create (u : User.t) : M User.t :=
      fun s => (Returned u, mkDb (users s ++ [u]) (tasks s) (taskUpdates s)).
End user.

Module task.
(** [findUnique({ where: { id } })] *)
Definition findUnique (i : string) : M (option Task.t) :=
      fun s => (Returned (find (fun x => String.eqb (Task.id x) i) (tasks s)), s).

(** The filter [{ publishAt: d, columnId: null }]. *)
Definition inPlanAt (d : Z) (x : Task.t) : bool :=
      match Task.publishAt x, Task.columnId x with
      | Some p, None => p =? d
      | _, _ => false
      end.

(** [findFirst({ where: { publishAt: d, columnId: null } })] *)
Definition findFirst (d : Z) : M (option Task.t) :=
      fun s => (Returned (find (inPlanAt d) (tasks s)), s).

(** [update({ where: { id }, data })] *)
Definition update (stamp : Z) (i : string) (d : Task.data) : M Task.t :=
      fun s =>
        match find (fun x => String.eqb (Task.id x) i) (tasks s) with
        | None => (Thrown RecordNotFound, s)
        | Some x =>
            let x' := Task.apply stamp d x in
            (Returned x',
             mkDb (users s) (replaceTask i x' (tasks s)) ((i, d) :: taskUpdates s))
        end.
End task.
End db.

(* ------------------------------------------------------------------ *)
(** ** The API functions *)

(** [input?.role || "EMPLOYEE"] *)
Definition roleOrDefault (role : option string) : string :=
  match role with
  | Some r => if String.eqb r "" then "EMPLOYEE"%string else r
  | None => "EMPLOYEE"%string
  end.

Definition createUserIfNotExists (env : Env) (role : option string) : M User.t :=
  match auth env with
  | None => throw UserUnavailable
  | Some userId =>
      user <- db.user.findUnique userId ;;
      match user with
      | Some u => ret u
      | None =>
          db.user.create
            (User.mk userId None None None (roleOrDefault role) (dbNow env) (dbNow env))
      end
  end.

Record Input : Type := mkInput {
  taskId : string;
  removeFromKanban : option bool   (* None when the property is omitted *)
}.

(** Truthiness of an optional boolean property. *)
Definition truthy (b : option bool) : bool :=
  match b with Some true => true | _ => false end.

Definition timeSlots : list Z := [9; 13; 15; 17].

(** [dayOffset = 0, 1, ..., 29] *)
Definition dayOffsets : list Z := map Z.of_nat (seq 0 30).

Section Scheduler.
Variable env : Env.
Variable input : Input.

Let tza := LocalTZA env.

(** The inner [for (const hour of timeSlots)] loop, from [hours] on.
      [Some] is a [return] out of the function, [None] falls through. *)
Fixpoint trySlots (task : Task.t) (date : Z) (hours : list Z)
    : M (option Task.t) :=
    match hours with
    | [] => ret None
    | hour :: rest =>
        let scheduleDate := JsDate.setHours tza date hour 0 0 0 in
        existingTask <- db.task.findFirst scheduleDate ;;
        match existingTask with
        | None =>
            updatedTask <-
              db.task.update (dbNow env) (Task.id task)
                (Task.mkData
                   (Some (Some scheduleDate))
                   (Some (if truthy (removeFromKanban input)
                          then None else Task.columnId task))) ;;
            ret (Some updatedTask)
        | Some _ => trySlots task date rest
        end
    end.

(** The outer [for (let dayOffset ...)] loop, from [offsets] on. *)
Fixpoint scanDays (task : Task.t) (today : Z) (offsets : list Z)
    : M (option Task.t) :=
    match offsets with
    | [] => ret None
    | dayOffset :: rest =>
        let date :=
          JsDate.setDate tza today (JsDate.getDate tza today + dayOffset) in
        if (JsDate.getDay tza date =? 0) || (JsDate.getDay tza date =? 6)
        then scanDays task today rest
        else
          r <- trySlots task date timeSlots ;;
          match r with
          | Some updatedTask => ret (Some updatedTask)
          | None => scanDays task today rest
          end
    end.

Definition schedulePublication : M Task.t :=
    _ <- createUserIfNotExists env None ;;
    task <- db.task.findUnique (taskId input) ;;
    match task with
    | None => throw NotFound
    | Some task =>
        match Task.publishAt task with
        | Some _ =>
            if truthy (removeFromKanban input)
            then
              _ <- db.task.update (dbNow env) (Task.id task)
                     (Task.mkData None (Some None)) ;;
              ret task
            else ret task
        | None =>
            let today := JsDate.setHours tza (now env) 9 0 0 0 in
            r <- scanDays task today dayOffsets ;;
            match r with
            | Some updatedTask => ret updatedTask
            | None => throw NoAvailableSlot
            end
        end
    end.
End Scheduler.

(* ------------------------------------------------------------------ *)
(** ** The slot grid, as a specification-level description *)

(** Day number (local time) of the day on which the call runs. *)
Definition localDay (env : Env) : Z :=
  JsDate.Day (JsDate.LocalTime (LocalTZA env) (now env)).

(** The instant [hour]:00:00.000 local time, [k] days after today. *)
Definition slotInstant (env : Env) (k hour : Z) : Z :=
  JsDate.UTC (LocalTZA env)
    (JsDate.MakeDate (localDay env + k) (JsDate.MakeTime hour 0 0 0)).

(** Weekday (0 = Sunday, ..., 6 = Saturday) of the day [k] days after today. *)
Definition weekdayOf (env : Env) (k : Z) : Z := (localDay env + k + 4) mod 7.

Definition businessDay (env : Env) (k : Z) : bool :=
  negb ((weekdayOf env k =? 0) || (weekdayOf env k =? 6)).

(** A content-plan task (null column) is published exactly at [d]. *)
Definition occupied (s : Db) (d : Z) : bool :=
  match find (db.task.inPlanAt d) (tasks s) with
  | Some _ => true
  | None => false
  end.

(** Slot [(k', h')] is tried before slot [(k, h)]: days outer, hours inner. *)
Definition earlier (k' h' k h : Z) : Prop := k' < k \/ (k' = k /\ h' < h).

(** [(k, h)] is the first free slot of the horizon. *)
Definition firstFree (env : Env) (s : Db) (k h : Z) : Prop :=
  0 <= k < 30 /\ In h timeSlots /\ businessDay env k = true /\
  occupied s (slotInstant env k h) = false /\
  forall k' h', 0 <= k' -> In h' timeSlots -> businessDay env k' = true ->
                earlier k' h' k h -> occupied s (slotInstant env k' h') = true.

(** Every slot of every business day of the horizon is taken. *)
Definition horizonFull (env : Env) (s : Db) : Prop :=
  forall k h, 0 <= k < 30 -> In h timeSlots -> businessDay env k = true ->
              occupied s (slotInstant env k h) = true.

(** No slot of the horizon is taken. *)
Definition horizonEmpty (env : Env) (s : Db) : Prop :=
  forall k h, 0 <= k < 30 -> In h timeSlots ->
              occupied s (slotInstant env k h) = false.

(** The row stored under an id. *)
Definition stored (s : Db) (i : string) : option Task.t :=
  find (fun x => String.eqb (Task.id x) i) (tasks s).

(** The store after the user lookup that opens every API call. *)
Definition afterUser (env : Env) (s : Db) : Db :=
  snd (createUserIfNotExists env None s).

(** The [data] written by the slot search. *)
Definition slotData (input : Input) (task : Task.t) (d : Z) : Task.data :=
  Task.mkData (Some (Some d))
    (Some (if truthy (removeFromKanban input) then None else Task.columnId task)).

(** The [data] written on the explicit-time path. *)
Definition detachData : Task.data := Task.mkData None (Some None).

(** The body of the [if (!existingTask)] branch: write the slot, return. *)
Definition assignSlot (env : Env) (input : Input) (task : Task.t) (d : Z)
  : M (option Task.t) :=
  updatedTask <- db.task.update (dbNow env) (Task.id task) (slotData input task d) ;;
  ret (Some updatedTask).

(** The store after one [db.task.update] of row [i] with [d]. *)
Definition written (env : Env) (s : Db) (i : string) (d : Task.data) (x : Task.t)
  : Db :=
  mkDb (users (afterUser env s))
       (replaceTask i (Task.apply (dbNow env) d x) (tasks s))
       ((i, d) :: taskUpdates s).

(** The variable [today] of the source: today at 09:00 local time. *)
Definition todayAt9 (env : Env) : Z :=
  JsDate.setHours (LocalTZA env) (now env) 9 0 0 0.

(** The variable [date] of the source at a given [dayOffset]. *)
Definition dateAt (env : Env) (k : Z) : Z :=
  JsDate.setDate (LocalTZA env) (todayAt9 env)
    (JsDate.getDate (LocalTZA env) (todayAt9 env) + k).

(* ------------------------------------------------------------------ *)
(** ** Example data *)

(** Monday 2024-01-01, 18:00 local time in a zone three hours east of UTC. *)
Definition exEnv : Env :=
  mkEnv (Some "u1"%string) 1704121200000 1704121200321 10800000.

Definition exTask (i : string) (col : option string) (p : option Z) : Task.t :=
  Task.mk i "Post"%string (Some ""%string) None col
          1704000000000 1704000000000 p true true true "green"%string None None.

(** Two unscheduled cards on the board column "C"; nothing in the plan. *)
Definition exBoard : Db :=
  mkDb [] [exTask "a" (Some "C"%string) None; exTask "b" (Some "C"%string) None] [].

(** Card "a" is unscheduled; "p1" sits in the content plan on Monday 09:00;
    "k1" is a board card that carries the Monday 13:00 timestamp. *)
Definition exPlan : Db :=
  mkDb []
       [exTask "a" (Some "C"%string) None;
        exTask "p1" None (Some 1704088800000);
        exTask "k1" (Some "C"%string) (Some 1704103200000)]
       [].

(** Saturday 2024-01-06, 10:00 local time, three hours east of UTC. *)
Definition exSaturday : Env :=
  mkEnv (Some "u1"%string) 1704524400000 1704524400321 10800000.





(** Card "c" on column "C", with an explicit time: Tuesday 2024-01-09,
    10:00 local time. *)
Definition exScheduled : Db :=
  mkDb [] [exTask "c" (Some "C"%string) (Some 1704783600000)] [].

(** Card "c" with an explicit time on Saturday 2024-01-06, 10:30 local. *)
Definition exWeekend : Db :=
  mkDb [] [exTask "c" (Some "C"%string) (Some 1704526200000)] [].

(** Card "c" with an explicit time on Monday 09:00, an instant on which
    the content-plan task "p1" is published already. *)
Definition exClash : Db :=
  mkDb []
       [exTask "c" (Some "C"%string) (Some 1704088800000);
        exTask "p1" None (Some 1704088800000)]
       [].

(* ------------------------------------------------------------------ *)
(** ** Database health (the module-level state of the API file) *)

Module Health.

Inductive Status : Type := unknown | healthy | unhealthy | missing.

Definition Status_eqb (a b : Status) : bool :=
  match a, b with
  | unknown, unknown | healthy, healthy
  | unhealthy, unhealthy | missing, missing => true
  | _, _ => false
  end.

(** The three module-level variables. *)
Record State : Type := mk {
  dbHealthStatus : Status;
  lastHealthCheck : Z;
  consecutiveFailures : Z
}.

Definition initial : State := mk unknown 0 0.

Definition HEALTH_CHECK_INTERVAL : Z := 30000.
Definition MAX_CONSECUTIVE_FAILURES : Z := 3.

(** What [db.$queryRaw`SELECT 1`] does when it is issued: it answers, or
    it throws an error whose [message] is a string or is absent. *)
Inductive Probe : Type :=
| Answered
| Failed (message : option string).

(** [s.includes(sub)] *)
Definition includes (s sub : string) : bool :=
  match String.index 0 sub s with Some _ => true | None => false end.

(** The test of the [catch] block for a missing database. *)
Definition isMissing (message : option string) : bool :=
  match message with
  | Some m =>
      includes m "404" || includes m "not found"
      || includes m "could not find database"
  | None => false
  end.

(** [checkDatabaseHealth()], run at clock reading [now]; [probe] is the
    behaviour of the query should it be issued. *)
Definition checkDatabaseHealth (now : Z) (probe : Probe) (st : State)
  : bool * State :=
  if (now - lastHealthCheck st <? HEALTH_CHECK_INTERVAL)
     && negb (Status_eqb (dbHealthStatus st) unknown)
  then (Status_eqb (dbHealthStatus st) healthy, st)
  else
    match probe with
    | Answered => (true, mk healthy now 0)
    | Failed message =>
        (false,
         mk (if isMissing message then missing else unhealthy)
            now (consecutiveFailures st + 1))
    end.

(** [safeDatabaseOperation(operation, fallbackValue)]: the operation runs
    against the store only when the health check passes; a throw of the
    operation is swallowed and the fallback returned. *)
Definition safeDatabaseOperation {A : Type} (now : Z) (probe : Probe)
           (operation : M A) (fallbackValue : A) (w : State * Db)
  : A * (State * Db) :=
  let (isHealthy, st') := checkDatabaseHealth now probe (fst w) in
  if negb isHealthy then (fallbackValue, (st', snd w))
  else
    match operation (snd w) with
    | (Returned a, s') => (a, (st', s'))
    | (Thrown _, s') => (fallbackValue, (st', s'))
    end.

Module Report.
Record diagnostics : Type := mkDiagnostics {
  canRetry : bool;
  requiresSupport : bool;
  message : string
}.

Record t : Type := mk {
  status : Status;
  healthy : bool;
  lastCheck : Z;
  consecutiveFailures : Z;
  needsInfrastructureSupport : bool;
  diagnostics_ : diagnostics
}.
End Report.

(** [getDatabaseHealth()] *)
Definition getDatabaseHealth (now : Z) (probe : Probe) (st : State)
  : Report.t * State :=
  let (isHealthy, st') := checkDatabaseHealth now probe st in
  (Report.mk
     (dbHealthStatus st')
     isHealthy
     (lastHealthCheck st')
     (consecutiveFailures st')
     (Status_eqb (dbHealthStatus st') missing)
     (Report.mkDiagnostics
        (Status_eqb (dbHealthStatus st') unhealthy
         && (consecutiveFailures st' <? MAX_CONSECUTIVE_FAILURES))
        (Status_eqb (dbHealthStatus st') missing
         || (consecutiveFailures st' >=? MAX_CONSECUTIVE_FAILURES))
        (if Status_eqb (dbHealthStatus st') missing
         then "База данных отсутствует. Обратитесь в службу поддержки Adaptive."
         else if Status_eqb (dbHealthStatus st') unhealthy
              then "Временные проблемы с подключением к базе данных."
              else "База данных работает нормально.")),
   st').

(** The state after a series of health checks, oldest first. *)
Definition run (calls : list (Z * Probe)) (st : State) : State :=
  fold_left (fun st c => snd (checkDatabaseHealth (fst c) (snd c) st)) calls st.

(** A series of guarded operations, oldest first: the values they return
    and the final state. *)
Fixpoint runSafe {A : Type} (calls : list (Z * Probe * M A * A))
         (w : State * Db) : list A * (State * Db) :=
  match calls with
  | [] => ([], w)
  | (now, probe, operation, fallbackValue) :: rest =>
      let (a, w') := safeDatabaseOperation now probe operation fallbackValue w in
      let (l, w'') := runSafe rest w' in
      (a :: l, w'')
  end.

End Health.

(** The relation between the status and the failure counter that every
    check keeps. *)
Definition healthInv (st : Health.State) : Prop :=
  match Health.dbHealthStatus st with
  | Health.unknown => st = Health.initial
  | Health.healthy => Health.consecutiveFailures st = 0
  | Health.unhealthy | Health.missing => 1 <= Health.consecutiveFailures st
  end.

(* ------------------------------------------------------------------ *)
(** ** The content plan *)

(** The instant a row contributes to the content plan: its publishAt when
    it has one and sits on no column. *)
Definition planInstant (x : Task.t) : list Z :=
  match Task.publishAt x, Task.columnId x with
  | Some p, None => [p]
  | _, _ => []
  end.

(** The instants held by the content plan, in table order. *)
Definition planInstants (l : list Task.t) : list Z := flat_map planInstant l.

(** No two tasks of the content plan are published at the same instant. *)
Definition planDistinct (s : Db) : Prop := NoDup (planInstants (tasks s)).

(* ------------------------------------------------------------------ *)
(** ** API functions under the health guard

    In this part the guard of [safeDatabaseOperation] is explicit: the
    state is the health state paired with the store, [probe] is what the
    connectivity query does if it is issued, and every reading of
    [Date.now()] within one call is [now env]. *)

(** The operation [createUserIfNotExists] hands to the guard. *)
Definition createUserOperation (env : Env) (userId : string)
           (role : option string) : M User.t :=
  user <- db.user.findUnique userId ;;
  match user with
  | Some u => ret u
  | None =>
      db.user.create
        (User.mk userId None None None (roleOrDefault role) (dbNow env) (dbNow env))
  end.

Module Guarded.
(** [createUserIfNotExists(input)] *)
Definition createUserIfNotExists (env : Env) (probe : Health.Probe)
           (role : option string) (w : Health.State * Db)
  : Outcome User.t * (Health.State * Db) :=
  match auth env with
  | None => (Thrown UserUnavailable, w)
  | Some userId =>
      let (u, w') :=
        Health.safeDatabaseOperation (now env) probe
          (createUserOperation env userId role)
          (User.mk userId None None None (roleOrDefault role) (now env) (now env))
          w in
      (Returned u, w')
  end.
End Guarded.

(** The filter [{ publishAt: { not: null }, columnId: null }]. *)
Definition inPlan (x : Task.t) : bool :=
  match Task.publishAt x, Task.columnId x with
  | Some _, None => true
  | _, _ => false
  end.

(** The order of [orderBy: { publishAt: "asc" }]; null sorts last. *)
Definition publishAt_leb (x y : Task.t) : bool :=
  match Task.publishAt x, Task.publishAt y with
  | Some p, Some q => p <=? q
  | Some _, None => true
  | None, Some _ => false
  | None, None => true
  end.

Fixpoint insertByPublishAt (x : Task.t) (l : list Task.t) : list Task.t :=
  match l with
  | [] => [x]
  | y :: r => if publishAt_leb x y then x :: y :: r else y :: insertByPublishAt x r
  end.

Fixpoint sortByPublishAt (l : list Task.t) : list Task.t :=
  match l with
  | [] => []
  | x :: r => insertByPublishAt x (sortByPublishAt r)
  end.

(** [db.task.findMany] of the content plan, ordered by publishAt. *)
Definition findManyInPlan : M (list Task.t) :=
  fun s => (Returned (sortByPublishAt (filter inPlan (tasks s))), s).

(** The sample row returned when the database is unavailable. *)
Definition sampleContentTask (env : Env) : Task.t :=
  Task.mk "sample-content-1" "Пример публикации"
          (Some "Это пример задачи в контент-плане. База данных недоступна."%string)
          None None (now env) (now env)
          (Some (now env + 24 * 60 * 60 * 1000))
          true false true "green" None None.

Definition listContentPlanTasks (env : Env) (probe : Health.Probe)
           (w : Health.State * Db) : list Task.t * (Health.State * Db) :=
  match Guarded.createUserIfNotExists env probe None w with
  | (Thrown _, w') => ([], w')
  | (Returned _, w') =>
      Health.safeDatabaseOperation (now env) probe findManyInPlan
                                   [sampleContentTask env] w'
  end.

(** Rows are identified by their primary key. *)
Definition uniqueIds (s : Db) : Prop := NoDup (map Task.id (tasks s)).

(** Wednesday and Monday in the plan, stored in that order, and a board
    card with a time of its own. *)
Definition exUnordered : Db :=
  mkDb []
       [exTask "w" None (Some 1704261600000);
        exTask "k1" (Some "C"%string) (Some 1704103200000);
        exTask "m" None (Some 1704088800000)]
       [].

(* ------------------------------------------------------------------ *)
(** ** The board: columns, attachments and the manager-only operations *)

Module Column.
Record t : Type := mk {
  id : string;
  name : string;
  order : Z;
  createdAt : Z;
  updatedAt : Z
}.
End Column.

Module Attachment.
Record t : Type := mk {
  id : string;
  filename : string;
  fileUrl : string;
  fileType : string;
  fileSize : Z;
  taskId : string;
  uploaderId : string;
  createdAt : Z;
  updatedAt : Z
}.
End Attachment.

(** The store with the column and attachment tables beside users and tasks. *)
Record Store : Type := mkStore {
  base : Db;
  columns : list Column.t;
  attachments : list Attachment.t
}.

Inductive ApiError : Type :=
| Sched (e : Error)      (* the errors of the scheduler part, same messages *)
| Unauthenticated        (* getAuth({ required: true }) throws *)
| ManagersOnly
| ReadyColumnNotFound
| ColumnHasTasks
| AttachmentNotFound
| NotPermitted.

Definition B (A : Type) : Type := Store -> (ApiError + A) * Store.

Definition retB {A} (a : A) : B A := fun S => (inr a, S).
Definition throwB {A} (e : ApiError) : B A := fun S => (inl e, S).
Definition bindB {A C} (c : B A) (k : A -> B C) : B C :=
  fun S =>
    match c S with
    | (inr a, S') => k a S'
    | (inl e, S') => (inl e, S')
    end.

Notation "x <~ c ;; k" := (bindB c (fun x => k))
  (at level 61, c at next level, right associativity).

(** An operation on users and tasks, run inside the larger store. *)
Definition liftDb {A} (c : M A) : B A :=
  fun S =>
    match c (base S) with
    | (Returned a, s') => (inr a, mkStore s' (columns S) (attachments S))
    | (Thrown e, s') => (inl (Sched e), mkStore s' (columns S) (attachments S))
    end.

(** [getAuth({ required: true })] *)
Definition getAuth (env : Env) : B string :=
  match auth env with
  | Some userId => retB userId
  | None => throwB Unauthenticated
  end.

(** [currentUser?.role !== "MANAGER"] *)
Definition notManager (currentUser : option User.t) : bool :=
  match currentUser with
  | Some u => negb (String.eqb (User.role u) "MANAGER")
  | None => true
  end.

(** [db.column.findFirst({ orderBy: { order: "desc" } })] *)
Fixpoint highestOrderColumn (l : list Column.t) : option Column.t :=
  match l with
  | [] => None
  | c :: r =>
      match highestOrderColumn r with
      | Some m => if Column.order c <? Column.order m then Some m else Some c
      | None => Some c
      end
  end.

Fixpoint replaceColumn (i : string) (c' : Column.t) (l : list Column.t)
  : list Column.t :=
  match l with
  | [] => []
  | c :: r =>
      if String.eqb (Column.id c) i then c' :: r else c :: replaceColumn i c' r
  end.

Fixpoint removeColumn (i : string) (l : list Column.t) : list Column.t :=
  match l with
  | [] => []
  | c :: r => if String.eqb (Column.id c) i then r else c :: removeColumn i r
  end.

Fixpoint removeTask (i : string) (l : list Task.t) : list Task.t :=
  match l with
  | [] => []
  | x :: r => if String.eqb (Task.id x) i then r else x :: removeTask i r
  end.

Fixpoint removeAttachment (i : string) (l : list Attachment.t)
  : list Attachment.t :=
  match l with
  | [] => []
  | a :: r =>
      if String.eqb (Attachment.id a) i then r else a :: removeAttachment i r
  end.

Fixpoint replaceUser (i : string) (u' : User.t) (l : list User.t) : list User.t :=
  match l with
  | [] => []
  | u :: r => if String.eqb (User.id u) i then u' :: r else u :: replaceUser i u' r
  end.

Module dbx.
(** [db.column.findFirst({ orderBy: { order: "desc" } })] *)
Definition column_findFirstByOrderDesc : B (option Column.t) :=
  fun S => (inr (highestOrderColumn (columns S)), S).

(** [db.column.findFirst({ where: { name } })] *)
Definition column_findFirstByName (n : string) : B (option Column.t) :=
  fun S => (inr (find (fun c => String.eqb (Column.name c) n) (columns S)), S).

Definition column_count : B nat := fun S => (inr (List.length (columns S)), S).

Definition column_create (c : Column.t) : B Column.t :=
  fun S => (inr c, mkStore (base S) (columns S ++ [c]) (attachments S)).

(** [db.column.update({ where: { id }, data: { name } })] *)
Definition column_updateName (stamp : Z) (i n : string) : B Column.t :=
  fun S =>
    match find (fun c => String.eqb (Column.id c) i) (columns S) with
    | None => (inl (Sched RecordNotFound), S)
    | Some c =>
        let c' := Column.mk (Column.id c) n (Column.order c)
                            (Column.createdAt c) stamp in
        (inr c', mkStore (base S) (replaceColumn i c' (columns S)) (attachments S))
    end.

Definition column_delete (i : string) : B Column.t :=
  fun S =>
    match find (fun c => String.eqb (Column.id c) i) (columns S) with
    | None => (inl (Sched RecordNotFound), S)
    | Some c => (inr c, mkStore (base S) (removeColumn i (columns S)) (attachments S))
    end.

(** [db.task.count({ where: { columnId } })] *)
Definition task_countInColumn (i : string) : B nat :=
  fun S =>
    (inr (List.length
            (filter (fun x => match Task.columnId x with
                              | Some c => String.eqb c i
                              | None => false
                              end)
                    (tasks (base S)))),
     S).

(** [db.task.delete({ where: { id } })]; the attachments of the task go
    with it ([onDelete: Cascade]). *)
Definition task_delete (i : string) : B Task.t :=
  fun S =>
    match find (fun x => String.eqb (Task.id x) i) (tasks (base S)) with
    | None => (inl (Sched RecordNotFound), S)
    | Some x =>
        (inr x,
         mkStore (mkDb (users (base S)) (removeTask i (tasks (base S)))
                       (taskUpdates (base S)))
                 (columns S)
                 (filter (fun a => negb (String.eqb (Attachment.taskId a) i))
                         (attachments S)))
    end.

Definition attachment_findUnique (i : string) : B (option Attachment.t) :=
  fun S =>
    (inr (find (fun a => String.eqb (Attachment.id a) i) (attachments S)), S).

Definition attachment_delete (i : string) : B Attachment.t :=
  fun S =>
    match find (fun a => String.eqb (Attachment.id a) i) (attachments S) with
    | None => (inl (Sched RecordNotFound), S)
    | Some a =>
        (inr a, mkStore (base S) (columns S) (removeAttachment i (attachments S)))
    end.

(** [db.user.update({ where: { id }, data: { role } })] *)
Definition user_updateRole (stamp : Z) (i r : string) : B User.t :=
  fun S =>
    match find (fun u => String.eqb (User.id u) i) (users (base S)) with
    | None => (inl (Sched RecordNotFound), S)
    | Some u =>
        let u' := User.mk (User.id u) (User.name u) (User.email u) (User.phone u)
                          r (User.createdAt u) stamp in
        (inr u',
         mkStore (mkDb (replaceUser i u' (users (base S))) (tasks (base S))
                       (taskUpdates (base S)))
                 (columns S) (attachments S))
    end.
End dbx.

(** [(highestOrder?.order || 0)] *)
Definition orderOrZero (highestOrder : option Column.t) : Z :=
  match highestOrder with
  | Some c => if Column.order c =? 0 then 0 else Column.order c
  | None => 0
  end.

(** [createColumn({ name })]; [newId] is the id the store generates. *)
Definition createColumn (env : Env) (newId : string) (name : string)
  : B Column.t :=
  userId <~ getAuth env ;;
  currentUser <~ liftDb (db.user.findUnique userId) ;;
  if notManager currentUser then throwB ManagersOnly
  else
    highestOrder <~ dbx.column_findFirstByOrderDesc ;;
    let newOrder := orderOrZero highestOrder + 1 in
    dbx.column_create (Column.mk newId name newOrder (dbNow env) (dbNow env)).

Definition updateColumn (env : Env) (id name : string) : B Column.t :=
  userId <~ getAuth env ;;
  currentUser <~ liftDb (db.user.findUnique userId) ;;
  if notManager currentUser then throwB ManagersOnly
  else dbx.column_updateName (dbNow env) id name.

Definition deleteColumn (env : Env) (id : string) : B Column.t :=
  userId <~ getAuth env ;;
  currentUser <~ liftDb (db.user.findUnique userId) ;;
  if notManager currentUser then throwB ManagersOnly
  else
    tasksCount <~ dbx.task_countInColumn id ;;
    if (0 <? tasksCount)%nat then throwB ColumnHasTasks
    else dbx.column_delete id.

Definition readyColumnName : string := "Готово к публикации".

Definition returnTaskToKanban (env : Env) (taskId : string) : B Task.t :=
  userId <~ getAuth env ;;
  currentUser <~ liftDb (db.user.findUnique userId) ;;
  if notManager currentUser then throwB ManagersOnly
  else
    task <~ liftDb (db.task.findUnique taskId) ;;
    match task with
    | None => throwB (Sched NotFound)
    | Some _ =>
        readyForPublicationColumn <~ dbx.column_findFirstByName readyColumnName ;;
        match readyForPublicationColumn with
        | None => throwB ReadyColumnNotFound
        | Some col =>
            liftDb (db.task.update (dbNow env) taskId
                      (Task.mkData None (Some (Some (Column.id col)))))
        end
    end.

Definition deleteContentPlanTask (env : Env) (id : string) : B Task.t :=
  userId <~ getAuth env ;;
  currentUser <~ liftDb (db.user.findUnique userId) ;;
  if notManager currentUser then throwB ManagersOnly
  else dbx.task_delete id.

Definition updateUserRole (env : Env) (userId role : string) : B User.t :=
  authUserId <~ getAuth env ;;
  currentUser <~ liftDb (db.user.findUnique authUserId) ;;
  if notManager currentUser then throwB ManagersOnly
  else dbx.user_updateRole (dbNow env) userId role.

Definition deleteTask (env : Env) (id : string) : B Task.t :=
  _ <~ liftDb (createUserIfNotExists env None) ;;
  task <~ liftDb (db.task.findUnique id) ;;
  match task with
  | None => throwB (Sched NotFound)
  | Some _ => dbx.task_delete id
  end.

(** [deleteAttachment({ id })]; the value returned is [{ success: true }]. *)
Definition deleteAttachment (env : Env) (id : string) : B unit :=
  userId <~ getAuth env ;;
  attachment <~ dbx.attachment_findUnique id ;;
  match attachment with
  | None => throwB AttachmentNotFound
  | Some a =>
      currentUser <~ liftDb (db.user.findUnique userId) ;;
      if negb (String.eqb (Attachment.uploaderId a) userId)
         && notManager currentUser
      then throwB NotPermitted
      else
        _ <~ dbx.attachment_delete id ;;
        retB tt
  end.

(** [_seedInitialData()]: [None] is the bare [return] taken when columns
    exist; [i1] .. [i4] are the ids the store generates for the four
    columns created otherwise. *)
Definition _seedInitialData (env : Env) (i1 i2 i3 i4 : string)
  : B (option (list Column.t)) :=
  columnsCount <~ dbx.column_count ;;
  if (0 <? columnsCount)%nat then retB None
  else
    c1 <~ dbx.column_create
            (Column.mk i1 "Задачи" 1 (dbNow env) (dbNow env)) ;;
    c2 <~ dbx.column_create
            (Column.mk i2 "В работе" 2 (dbNow env) (dbNow env)) ;;
    c3 <~ dbx.column_create
            (Column.mk i3 "Готово для проверки" 3 (dbNow env) (dbNow env)) ;;
    c4 <~ dbx.column_create
            (Column.mk i4 "Готово к публикации" 4 (dbNow env) (dbNow env)) ;;
    retB (Some [c1; c2; c3; c4]).

(** The three statements that open every manager-only operation,
    followed by the rest [k] of the operation. *)
Definition managerGate {A} (env : Env) (k : B A) : B A :=
  userId <~ getAuth env ;;
  currentUser <~ liftDb (db.user.findUnique userId) ;;
  if notManager currentUser then throwB ManagersOnly else k.

(** The caller is a stored user with the role "MANAGER". *)
Definition isManagerCaller (env : Env) (S : Store) : bool :=
  match auth env with
  | Some userId =>
      match find (fun u => String.eqb (User.id u) userId) (users (base S)) with
      | Some u => String.eqb (User.role u) "MANAGER"
      | None => false
      end
  | None => false
  end.

(* ------------------------------------------------------------------ *)
(** ** The Telegram webhook: title of the card made from a message

    A JavaScript string is the list of its UTF-16 code units. *)

Module Webhook.

Definition str : Type := list Z.

Definition space : Z := 32.

(** [s.split(" ")] *)
Fixpoint split (s : str) : list str :=
  match s with
  | [] => [[]]
  | c :: r =>
      if c =? space then [] :: split r
      else
        match split r with
        | w :: ws => (c :: w) :: ws
        | [] => [[c]]
        end
  end.

(** [words.join(" ")] *)
Fixpoint join (ws : list str) : str :=
  match ws with
  | [] => []
  | w :: ws' =>
      match ws' with
      | [] => w
      | _ :: _ => w ++ space :: join ws'
      end
  end.

(** ["..."] *)
Definition dots : str := [46; 46; 46].

(** ["Новая задача"] *)
Definition defaultText : str :=
  [1053; 1086; 1074; 1072; 1103; 32; 1079; 1072; 1076; 1072; 1095; 1072].

(** [message.text || "Новая задача"] *)
Definition messageTextOf (text : option str) : str :=
  match text with
  | Some (c :: r) => c :: r
  | _ => defaultText
  end.

(** The statements that compute [title] from [messageText]. *)
Definition title (messageText : str) : str :=
  if (50 <? List.length messageText)%nat then
    let words := split messageText in
    let title := join (firstn 5 words) in
    let title :=
      if (List.length title <? 10)%nat && (5 <? List.length words)%nat
      then join (firstn 10 words) else title in
    if (50 <? List.length title)%nat then firstn 47 title ++ dots else title
  else messageText.

End Webhook.

(* ------------------------------------------------------------------ *)
(** ** The content-plan page of the client (ContentPlanPage)

    [tza] is the offset of the browser's zone.  A task on the client
    carries its publishAt as an ISO string; [new Date(task.publishAt)] is
    the instant it denotes. *)

Module Ui.

(** Year, month (0 = January) and day of the month of a day number. *)
Definition civilFromDay (d : Z) : Z * Z * Z :=
  let z := d + 719468 in
  let era := z / 146097 in
  let doe := z - era * 146097 in
  let yoe := (doe - doe / 1460 + doe / 36524 - doe / 146096) / 365 in
  let y := yoe + era * 400 in
  let doy := doe - (365 * yoe + yoe / 4 - yoe / 100) in
  let mp := (5 * doy + 2) / 153 in
  let dd := doy - (153 * mp + 2) / 5 + 1 in
  let m := if mp <? 10 then mp + 3 else mp - 9 in
  (if m <=? 2 then y + 1 else y, m - 1, dd).

Definition getFullYear (tza t : Z) : Z :=
  fst (fst (civilFromDay (JsDate.Day (JsDate.LocalTime tza t)))).
Definition getMonth (tza t : Z) : Z :=
  snd (fst (civilFromDay (JsDate.Day (JsDate.LocalTime tza t)))).

(** [`${n}`] for a non-negative integer. *)
Definition decimal (n : Z) : string :=
  NilZero.string_of_uint (N.to_uint (Z.to_N n)).

(** [s.padStart(2, "0")] *)
Definition padStart2 (s : string) : string :=
  if (String.length s <? 2)%nat then String.append "0" s else s.

(** The initial value of [currentDate]: Monday of the current week. *)
Definition initialCurrentDate (tza now : Z) : Z :=
  let day := JsDate.getDay tza now in
  let diff := JsDate.getDate tza now - day + (if day =? 0 then -6 else 1) in
  let date := JsDate.setDate tza now diff in
  JsDate.setHours tza date 0 0 0 0.

(** [handlePrevPeriod] and [handleNextPeriod] in the week view. *)
Definition prevWeek (tza currentDate : Z) : Z :=
  JsDate.setDate tza currentDate (JsDate.getDate tza currentDate - 7).
Definition nextWeek (tza currentDate : Z) : Z :=
  JsDate.setDate tza currentDate (JsDate.getDate tza currentDate + 7).

(** [periodDates] in the week view: [i = 0, ..., 6]. *)
Definition weekDates (tza currentDate : Z) : list Z :=
  map (fun i => JsDate.setDate tza currentDate (JsDate.getDate tza currentDate + i))
      [0; 1; 2; 3; 4; 5; 6].

Definition isWeekend (tza date : Z) : bool :=
  let day := JsDate.getDay tza date in
  (day =? 0) || (day =? 6).

(** The rows of the grid: 9:00, 9:30, ..., 17:30, 18:00. *)
Fixpoint slotsFrom (hour : Z) (n : nat) : list string :=
  match n with
  | O => []
  | S n' =>
      String.append (decimal hour) ":00"
      :: (if hour <? 18 then [String.append (decimal hour) ":30"] else [])
      ++ slotsFrom (hour + 1) n'
  end.

Definition timeSlots : list string := slotsFrom 9 10.

Inductive ViewMode : Type := day | week | month.

Definition sameDate (tza a b : Z) : bool :=
  (JsDate.getDate tza a =? JsDate.getDate tza b)
  && (getMonth tza a =? getMonth tza b)
  && (getFullYear tza a =? getFullYear tza b).

(** The period test of [filteredTasks]. *)
Definition inPeriod (tza : Z) (viewMode : ViewMode) (currentDate : Z)
           (task : Task.t) : bool :=
  match Task.publishAt task with
  | None => false
  | Some taskDate =>
      match viewMode with
      | day => sameDate tza taskDate currentDate
      | week =>
          let startOfWeek := currentDate in
          let endOfWeek :=
            JsDate.setHours tza
              (JsDate.setDate tza currentDate (JsDate.getDate tza currentDate + 6))
              23 59 59 999 in
          (startOfWeek <=? taskDate) && (taskDate <=? endOfWeek)
      | month =>
          (getMonth tza taskDate =? getMonth tza currentDate)
          && (getFullYear tza taskDate =? getFullYear tza currentDate)
      end
  end.

(** The platform test of [filteredTasks]. *)
Definition onPlatform (selectedPlatformFilter : list string) (task : Task.t)
  : bool :=
  let includes p := existsb (String.eqb p) selectedPlatformFilter in
  if includes "telegram"%string && Task.publishTelegram task then true
  else if includes "vkok"%string && Task.publishVkOk task then true
  else if includes "website"%string && Task.publishWebsite task then true
  else false.

Definition filteredTasks (tza : Z) (contentPlanTasks : list Task.t)
           (viewMode : ViewMode) (currentDate : Z)
           (selectedPlatformFilter : list string) : list Task.t :=
  let filtered := filter (inPeriod tza viewMode currentDate) contentPlanTasks in
  if (0 <? List.length selectedPlatformFilter)%nat
  then filter (onPlatform selectedPlatformFilter) filtered
  else filtered.

(** [`${hours}:${minutes.toString().padStart(2, "0")}`] *)
Definition taskTimeSlot (tza taskDate : Z) : string :=
  String.append (decimal (JsDate.getHours tza taskDate))
    (String.append ":" (padStart2 (decimal (JsDate.getMinutes tza taskDate)))).

Definition getTasksForTimeSlot (tza : Z) (filtered : list Task.t)
           (date : Z) (timeSlot : string) : list Task.t :=
  filter (fun task =>
            match Task.publishAt task with
            | None => false
            | Some taskDate =>
                sameDate tza taskDate date
                && String.eqb (taskTimeSlot tza taskDate) timeSlot
            end)
         filtered.

(** The local times that have a row in the grid. *)
Definition onGrid (h m : Z) : bool :=
  (9 <=? h) && (h <=? 18) && ((m =? 0) || ((m =? 30) && (h <? 18))).

(** A check, over all hours and minutes of a day, that a time slot label
    is a row of the grid only for the times of [onGrid]. *)
Definition labelsChecked : bool :=
  forallb (fun h =>
    forallb (fun m =>
      implb (existsb (String.eqb
                        (String.append (decimal h)
                           (String.append ":" (padStart2 (decimal m)))))
                     timeSlots)
            (onGrid h m))
      (map Z.of_nat (seq 0 60)))
    (map Z.of_nat (seq 0 24)).

End Ui.

(* ------------------------------------------------------------------ *)
(** ** getTaskAttachments and its validation of the input *)

Module Attachments.





Inductive Failure : Type :=
| UserFailed       (* createUserIfNotExists throws *)
| InputRequired
| TaskIdRequired
| TaskIdInvalid
| FetchFailed (taskId : string) (message : option string).

(** The messages of the errors thrown. *)
Definition message (f : Failure) : string :=
  match f with
  | UserFailed =>
      "Не удалось создать или получить пользователя. Проверьте подключение к базе данных."
  | InputRequired => "Параметр input обязателен для получения вложений задачи"
  | TaskIdRequired => "Параметр taskId обязателен для получения вложений задачи"
  | TaskIdInvalid => "Параметр taskId должен быть непустой строкой"
  | FetchFailed taskId m =>
      String.append "Не удалось получить вложения для задачи "
        (String.append taskId
           (String.append ": "
              match m with Some x => x | None => "Неизвестная ошибка"%string end))
  end.




End Attachments.

(** A store with a manager "boss", an employee "u1", two columns and the
    board card "a". *)
Definition exStore : Store :=
  mkStore
    (mkDb [User.mk "boss" None None None "MANAGER" 0 0;
           User.mk "u1" None None None "EMPLOYEE" 0 0]
          [exTask "a" (Some "col1"%string) None]
          [])
    [Column.mk "col1" "Задачи" 1 0 0; Column.mk "col4" "Готово к публикации" 4 0 0]
    [Attachment.mk "att1" "brief.pdf" "https://files/brief.pdf" "application/pdf"
                   1000 "a" "u1" 0 0].

Definition exBoss : Env := mkEnv (Some "boss"%string) 1704121200000 1704121200321 10800000.

(* ------------------------------------------------------------------ *)
(** ** Dates: arithmetic facts *)

Section DateFacts.
Variable tza : Z.

Lemma LocalTime_UTC (x : Z) : JsDate.LocalTime tza (JsDate.UTC tza x) = x.
Proof. unfold JsDate.LocalTime, JsDate.UTC. lia. Qed.

Lemma Day_MakeDate (d t : Z) :
  0 <= t < JsDate.msPerDay -> JsDate.Day (JsDate.MakeDate d t) = d.
Proof.
  intros Ht. unfold JsDate.Day, JsDate.MakeDate.
  symmetry. apply (Z.div_unique _ _ d t); [left; exact Ht | ring].
Qed.

Lemma TimeWithinDay_MakeDate (d t : Z) :
  0 <= t < JsDate.msPerDay -> JsDate.TimeWithinDay (JsDate.MakeDate d t) = t.
Proof.
  intros Ht. unfold JsDate.TimeWithinDay, JsDate.MakeDate.
  symmetry. apply (Z.mod_unique _ _ d t); [left; exact Ht | ring].
Qed.

Lemma hourInDay (h : Z) :
  In h timeSlots -> 0 <= JsDate.MakeTime h 0 0 0 < JsDate.msPerDay.
Proof.
  unfold timeSlots, JsDate.MakeTime, JsDate.msPerDay, JsDate.msPerHour.
  simpl. intros [<-|[<-|[<-|[<-|[]]]]]; lia.
Qed.

(** [date.setDate(today.getDate() + dayOffset)] moves by whole days and
    keeps the time of day, across month and year ends as well. *)
Lemma setDate_getDate_plus (t k : Z) :
  JsDate.setDate tza t (JsDate.getDate tza t + k) =
  JsDate.UTC tza
    (JsDate.MakeDate (JsDate.Day (JsDate.LocalTime tza t) + k)
                     (JsDate.TimeWithinDay (JsDate.LocalTime tza t))).
Proof.
  unfold JsDate.setDate, JsDate.getDate, JsDate.MakeDayInMonthOf.
  f_equal. f_equal. ring.
Qed.

Lemma TimeWithinDay_range (t : Z) :
  0 <= JsDate.TimeWithinDay t < JsDate.msPerDay.
Proof. unfold JsDate.TimeWithinDay, JsDate.msPerDay. apply Z.mod_pos_bound. lia. Qed.

Lemma Day_setHours (t h : Z) :
  0 <= JsDate.MakeTime h 0 0 0 < JsDate.msPerDay ->
  JsDate.Day (JsDate.LocalTime tza (JsDate.setHours tza t h 0 0 0)) =
  JsDate.Day (JsDate.LocalTime tza t).
Proof.
  intros Hh. unfold JsDate.setHours. rewrite LocalTime_UTC.
  now apply Day_MakeDate.
Qed.
End DateFacts.

Section GridFacts.
Variable env : Env.
Let tza := LocalTZA env.

Lemma Day_dateAt (k : Z) :
  JsDate.Day (JsDate.LocalTime tza (dateAt env k)) = localDay env + k.
Proof.
  unfold dateAt. fold tza. rewrite setDate_getDate_plus, LocalTime_UTC.
  rewrite Day_MakeDate by apply TimeWithinDay_range.
  unfold todayAt9. fold tza. rewrite Day_setHours; [reflexivity|].
  unfold JsDate.MakeTime, JsDate.msPerDay, JsDate.msPerHour. lia.
Qed.

Lemma getDay_dateAt (k : Z) : JsDate.getDay tza (dateAt env k) = weekdayOf env k.
Proof.
  unfold JsDate.getDay, JsDate.WeekDay. rewrite Day_dateAt. reflexivity.
Qed.

Lemma setHours_dateAt (k h : Z) :
  JsDate.setHours tza (dateAt env k) h 0 0 0 = slotInstant env k h.
Proof.
  unfold JsDate.setHours at 1. rewrite Day_dateAt. reflexivity.
Qed.

Lemma weekend_dateAt (k : Z) :
  (JsDate.getDay tza (dateAt env k) =? 0) || (JsDate.getDay tza (dateAt env k) =? 6)
  = negb (businessDay env k).
Proof.
  rewrite getDay_dateAt. unfold businessDay. now rewrite negb_involutive.
Qed.

(** A slot lies on the day it was built for, at its hour sharp. *)
Lemma slotInstant_local (k h : Z) :
  In h timeSlots ->
  JsDate.LocalTime tza (slotInstant env k h) =
  JsDate.MakeDate (localDay env + k) (h * JsDate.msPerHour).
Proof.
  intros _. unfold slotInstant. fold tza. rewrite LocalTime_UTC.
  unfold JsDate.MakeTime. f_equal. ring.
Qed.

Lemma slotInstant_inj (k h k' h' : Z) :
  In h timeSlots -> In h' timeSlots ->
  slotInstant env k h = slotInstant env k' h' -> k = k' /\ h = h'.
Proof.
  intros Hh Hh' E.
  assert (E' : JsDate.MakeDate (localDay env + k) (JsDate.MakeTime h 0 0 0) =
               JsDate.MakeDate (localDay env + k') (JsDate.MakeTime h' 0 0 0)).
  { unfold slotInstant, JsDate.UTC in E. lia. }
  pose proof (hourInDay h Hh) as R. pose proof (hourInDay h' Hh') as R'.
  assert (Ek : k = k').
  { apply (f_equal JsDate.Day) in E'. rewrite !Day_MakeDate in E' by assumption. lia. }
  split; [exact Ek|]. subst k'.
  unfold JsDate.MakeDate, JsDate.MakeTime, JsDate.msPerHour in E'. lia.
Qed.

(** Among today and the two days after it there is a business day. *)
Lemma firstBusinessDay :
  exists k, 0 <= k < 3 /\ businessDay env k = true /\
            forall j, 0 <= j < k -> businessDay env j = false.
Proof.
  unfold businessDay, weekdayOf.
  set (d := localDay env).
  assert (Hw : 0 <= (d + 4) mod 7 < 7) by (apply Z.mod_pos_bound; lia).
  destruct (Z.eq_dec ((d + 4) mod 7) 0) as [E0|N0].
  - exists 1. split; [lia|]. split.
    + replace ((d + 1 + 4) mod 7) with 1 by (Z.div_mod_to_equations; lia). reflexivity.
    + intros j Hj. assert (j = 0) by lia. subst j.
      replace (d + 0 + 4) with (d + 4) by ring. rewrite E0. reflexivity.
  - destruct (Z.eq_dec ((d + 4) mod 7) 6) as [E6|N6].
    + exists 2. split; [lia|]. split.
      * replace ((d + 2 + 4) mod 7) with 1 by (Z.div_mod_to_equations; lia). reflexivity.
      * intros j Hj. assert (Hj' : j = 0 \/ j = 1) by lia. destruct Hj' as [-> | ->].
        -- replace (d + 0 + 4) with (d + 4) by ring. rewrite E6. reflexivity.
        -- replace ((d + 1 + 4) mod 7) with 0 by (Z.div_mod_to_equations; lia). reflexivity.
    + exists 0. split; [lia|]. split.
      * replace (d + 0 + 4) with (d + 4) by ring.
        destruct (Z.eqb_spec ((d + 4) mod 7) 0); [contradiction|].
        destruct (Z.eqb_spec ((d + 4) mod 7) 6); [contradiction|]. reflexivity.
      * intros j Hj. lia.
Qed.
End GridFacts.

(* ------------------------------------------------------------------ *)
(** ** The store: facts about lookup and replacement *)

Lemma stored_id (s : Db) (i : string) (x : Task.t) :
  stored s i = Some x -> Task.id x = i.
Proof.
  unfold stored. intros H. apply find_some in H. destruct H as [_ H].
  now apply String.eqb_eq.
Qed.

Lemma stored_In (s : Db) (i : string) (x : Task.t) :
  stored s i = Some x -> In x (tasks s).
Proof. unfold stored. intros H. now apply find_some in H. Qed.

Lemma find_replace_same (i : string) (x x' : Task.t) (l : list Task.t) :
  Task.id x' = i ->
  find (fun y => String.eqb (Task.id y) i) l = Some x ->
  find (fun y => String.eqb (Task.id y) i) (replaceTask i x' l) = Some x'.
Proof.
  intros Hid. induction l as [|y l IH]; simpl; [discriminate|].
  destruct (String.eqb (Task.id y) i) eqn:E; simpl.
  - intros _. rewrite Hid, String.eqb_refl. reflexivity.
  - rewrite E. exact IH.
Qed.

Lemma find_replace_other (i j : string) (x' : Task.t) (l : list Task.t) :
  Task.id x' = i -> j <> i ->
  find (fun y => String.eqb (Task.id y) j) (replaceTask i x' l) =
  find (fun y => String.eqb (Task.id y) j) l.
Proof.
  intros Hid Hne. induction l as [|y l IH]; simpl; [reflexivity|].
  destruct (String.eqb (Task.id y) i) eqn:E; simpl.
  - apply String.eqb_eq in E.
    assert (E1 : String.eqb (Task.id x') j = false)
      by (apply String.eqb_neq; congruence).
    assert (E2 : String.eqb (Task.id y) j = false)
      by (apply String.eqb_neq; congruence).
    now rewrite E1, E2.
  - destruct (String.eqb (Task.id y) j); [reflexivity | exact IH].
Qed.

Lemma replace_missing (i : string) (x' : Task.t) (l : list Task.t) :
  find (fun y => String.eqb (Task.id y) i) l = None -> replaceTask i x' l = l.
Proof.
  induction l as [|y l IH]; simpl; [reflexivity|].
  destruct (String.eqb (Task.id y) i); [discriminate|].
  intros H. now rewrite IH.
Qed.

(** Replacing a row by a related one relates the tables row by row. *)
Lemma replace_Forall2 (R : Task.t -> Task.t -> Prop) (i : string)
      (x x' : Task.t) (l : list Task.t) :
  (forall y, R y y) -> R x x' ->
  find (fun y => String.eqb (Task.id y) i) l = Some x ->
  Forall2 R l (replaceTask i x' l).
Proof.
  intros Hrefl Hxx'. induction l as [|y l IH]; simpl; [discriminate|].
  destruct (String.eqb (Task.id y) i).
  - intros [= ->]. constructor; [exact Hxx'|].
    clear IH. induction l; constructor; auto.
  - intros H. constructor; auto.
Qed.

(** Every row of the table after a replacement is the new row or an old one. *)
Lemma In_replace (i : string) (x' y : Task.t) (l : list Task.t) :
  In y (replaceTask i x' l) -> y = x' \/ In y l.
Proof.
  induction l as [|z l IH]; simpl; [tauto|].
  destruct (String.eqb (Task.id z) i); simpl; intuition.
Qed.

Lemma occupied_true_iff (s : Db) (d : Z) :
  occupied s d = true <->
  exists x, In x (tasks s) /\ Task.columnId x = None /\ Task.publishAt x = Some d.
Proof.
  unfold occupied. split.
  - destruct (find _ _) as [x|] eqn:E; [intros _|discriminate].
    apply find_some in E. destruct E as [Hin Hp]. exists x. split; [exact Hin|].
    unfold db.task.inPlanAt in Hp.
    destruct (Task.publishAt x) as [p|]; [|discriminate].
    destruct (Task.columnId x); [discriminate|].
    apply Z.eqb_eq in Hp. now subst.
  - intros (x & Hin & Hc & Hp).
    destruct (find _ _) as [y|] eqn:E; [reflexivity|].
    apply (find_none _ _ E) in Hin. unfold db.task.inPlanAt in Hin.
    rewrite Hp, Hc, Z.eqb_refl in Hin. discriminate.
Qed.

Lemma occupied_false_iff (s : Db) (d : Z) :
  occupied s d = false <->
  forall x, In x (tasks s) -> Task.columnId x = None -> Task.publishAt x <> Some d.
Proof.
  split.
  - intros H x Hin Hc Hp.
    assert (T : occupied s d = true) by (apply occupied_true_iff; eauto).
    congruence.
  - intros H. destruct (occupied s d) eqn:E; [|reflexivity].
    apply occupied_true_iff in E. destruct E as (x & Hin & Hc & Hp).
    exfalso. exact (H x Hin Hc Hp).
Qed.

(* ------------------------------------------------------------------ *)
(** ** The user lookup *)

Lemma createUser_unauth (env : Env) (r : option string) (s : Db) :
  auth env = None -> createUserIfNotExists env r s = (Thrown UserUnavailable, s).
Proof. intros H. unfold createUserIfNotExists. now rewrite H. Qed.

Lemma createUser_auth (env : Env) (r : option string) (s : Db) (uid : string) :
  auth env = Some uid ->
  exists u s', createUserIfNotExists env r s = (Returned u, s') /\
               tasks s' = tasks s /\ taskUpdates s' = taskUpdates s.
Proof.
  intros H. unfold createUserIfNotExists. rewrite H.
  unfold bind, db.user.findUnique, db.user.create, ret.
  destruct (find _ (users s)) as [u|]; eauto.
Qed.

Lemma tasks_afterUser (env : Env) (s : Db) : tasks (afterUser env s) = tasks s.
Proof.
  unfold afterUser. destruct (auth env) as [uid|] eqn:E.
  - destruct (createUser_auth env None s uid E) as (u & s' & -> & Ht & _). exact Ht.
  - now rewrite createUser_unauth.
Qed.

Lemma taskUpdates_afterUser (env : Env) (s : Db) :
  taskUpdates (afterUser env s) = taskUpdates s.
Proof.
  unfold afterUser. destruct (auth env) as [uid|] eqn:E.
  - destruct (createUser_auth env None s uid E) as (u & s' & -> & _ & Hu). exact Hu.
  - now rewrite createUser_unauth.
Qed.

Lemma occupied_afterUser (env : Env) (s : Db) (d : Z) :
  occupied (afterUser env s) d = occupied s d.
Proof. unfold occupied. now rewrite tasks_afterUser. Qed.

(* ------------------------------------------------------------------ *)
(** ** The two loops *)

Lemma timeSlots_before (h1 h2 : list Z) (h h' : Z) :
  timeSlots = h1 ++ h :: h2 -> In h' timeSlots -> h' < h -> In h' h1.
Proof.
  unfold timeSlots. intros E Hin Hlt.
  destruct h1 as [|a [|b [|c [|d h1]]]]; simpl in E; inversion E; subst;
    simpl in Hin |- *; try lia; try tauto.
Qed.

Lemma timeSlots_In_split (h1 h2 : list Z) (h : Z) :
  timeSlots = h1 ++ h :: h2 -> In h timeSlots.
Proof. intros ->. apply in_or_app. right. now left. Qed.

Section Loops.
Variable env : Env.
Variable input : Input.
Variable task : Task.t.

(** A [return] inside the inner loop leaves the outer loop as well. *)
Lemma assignSlot_return (c : M (option Task.t)) (d : Z) (k : M (option Task.t))
      (s : Db) :
  c s = assignSlot env input task d s ->
  bind c (fun r => match r with Some u => ret (Some u) | None => k end) s
  = assignSlot env input task d s.
Proof.
  intros H. unfold bind at 1. rewrite H.
  unfold assignSlot, bind, ret.
  destruct (db.task.update _ _ _ s) as [[u|e] s']; reflexivity.
Qed.

Lemma trySlots_cons (date h : Z) (rest : list Z) (s : Db) :
  trySlots env input task date (h :: rest) s =
  match find (db.task.inPlanAt (JsDate.setHours (LocalTZA env) date h 0 0 0))
             (tasks s) with
  | Some _ => trySlots env input task date rest s
  | None => assignSlot env input task (JsDate.setHours (LocalTZA env) date h 0 0 0) s
  end.
Proof.
  cbn [trySlots]. unfold bind at 1. unfold db.task.findFirst.
  destruct (find _ (tasks s)); reflexivity.
Qed.

Lemma scanDays_cons (k : Z) (rest : list Z) (s : Db) :
  scanDays env input task (todayAt9 env) (k :: rest) s =
  if businessDay env k
  then bind (trySlots env input task (dateAt env k) timeSlots)
            (fun r => match r with
                      | Some u => ret (Some u)
                      | None => scanDays env input task (todayAt9 env) rest
                      end) s
  else scanDays env input task (todayAt9 env) rest s.
Proof.
  cbn [scanDays]. fold (dateAt env k). rewrite weekend_dateAt.
  destruct (businessDay env k); reflexivity.
Qed.

(** The inner loop stops at the first hour whose slot is free. *)
Lemma trySlots_spec (date : Z) (hours : list Z) (s : Db) :
  (Forall (fun h => occupied s (JsDate.setHours (LocalTZA env) date h 0 0 0) = true)
          hours /\
   trySlots env input task date hours s = (Returned None, s))
  \/
  (exists h1 h h2,
      hours = h1 ++ h :: h2 /\
      Forall (fun h' => occupied s (JsDate.setHours (LocalTZA env) date h' 0 0 0) = true)
             h1 /\
      occupied s (JsDate.setHours (LocalTZA env) date h 0 0 0) = false /\
      trySlots env input task date hours s =
      assignSlot env input task (JsDate.setHours (LocalTZA env) date h 0 0 0) s).
Proof.
  induction hours as [|h rest IH].
  - left. split; [constructor | reflexivity].
  - rewrite !trySlots_cons.
    destruct (find (db.task.inPlanAt (JsDate.setHours (LocalTZA env) date h 0 0 0))
                   (tasks s)) as [y|] eqn:E.
    + assert (O : occupied s (JsDate.setHours (LocalTZA env) date h 0 0 0) = true)
        by (unfold occupied; now rewrite E).
      destruct IH as [[Hall Heq] | (h1 & h0 & h2 & Hsplit & Hall & Hfree & Heq)].
      * left. split; [constructor; assumption | exact Heq].
      * right. exists (h :: h1), h0, h2. repeat split; try assumption.
        -- now rewrite Hsplit.
        -- constructor; assumption.
    + right. exists [], h, rest. repeat split.
      * constructor.
      * unfold occupied. now rewrite E.
Qed.

(** The outer loop over the offsets [a, a+1, ..., a+n-1]. *)
Lemma scanDays_spec (n a : nat) (s : Db) :
  ((forall k h, Z.of_nat a <= k < Z.of_nat (a + n) -> In h timeSlots ->
                businessDay env k = true ->
                occupied s (slotInstant env k h) = true) /\
   scanDays env input task (todayAt9 env) (map Z.of_nat (seq a n)) s
   = (Returned None, s))
  \/
  (exists k h,
      Z.of_nat a <= k < Z.of_nat (a + n) /\ In h timeSlots /\
      businessDay env k = true /\
      occupied s (slotInstant env k h) = false /\
      (forall k' h', Z.of_nat a <= k' -> In h' timeSlots ->
                     businessDay env k' = true -> earlier k' h' k h ->
                     occupied s (slotInstant env k' h') = true) /\
      scanDays env input task (todayAt9 env) (map Z.of_nat (seq a n)) s
      = assignSlot env input task (slotInstant env k h) s).
Proof.
  revert a. induction n as [|n IH]; intros a.
  - left. split; [intros; lia | reflexivity].
  - cbn [seq map]. rewrite !scanDays_cons.
    destruct (businessDay env (Z.of_nat a)) eqn:B.
    + destruct (trySlots_spec (dateAt env (Z.of_nat a)) timeSlots s)
        as [[Hall Heq] | (h1 & h & h2 & Hsplit & Hall & Hfree & Heq)].
      * (* the day is full: go on with the next one *)
        unfold bind. rewrite Heq.
        rewrite Forall_forall in Hall.
        destruct (IH (S a)) as [[Hfull Hscan] | (k & h & Hk & Hh & Hb & Hfree & Hprev & Hscan)].
        -- left. split; [|exact Hscan].
           intros k h Hk Hh Hb.
           destruct (Z.eq_dec k (Z.of_nat a)) as [->|Hne].
           ++ rewrite <- setHours_dateAt. now apply Hall.
           ++ apply Hfull; try assumption. lia.
        -- right. exists k, h. repeat split; try assumption; try lia.
           intros k' h' Hk' Hh' Hb' He.
           destruct (Z.eq_dec k' (Z.of_nat a)) as [->|Hne].
           ++ rewrite <- setHours_dateAt. now apply Hall.
           ++ apply Hprev; try assumption. lia.
      * (* a free slot on this day *)
        right. exists (Z.of_nat a), h.
        rewrite setHours_dateAt in Hfree.
        rewrite Forall_forall in Hall.
        repeat split; try assumption; try lia.
        -- now apply (timeSlots_In_split h1 h2).
        -- intros k' h' Hk' Hh' Hb' [Hlt | [-> Hlt]]; [lia|].
           rewrite <- setHours_dateAt. apply Hall.
           now apply (timeSlots_before h1 h2 h).
        -- rewrite <- setHours_dateAt. now apply assignSlot_return.
    + (* weekend: skipped *)
      destruct (IH (S a)) as [[Hfull Hscan] | (k & h & Hk & Hh & Hb & Hfree & Hprev & Hscan)].
      * left. split; [|exact Hscan].
        intros k h Hk Hh Hb.
        destruct (Z.eq_dec k (Z.of_nat a)) as [->|Hne]; [congruence|].
        apply Hfull; try assumption. lia.
      * right. exists k, h. repeat split; try assumption; try lia.
        intros k' h' Hk' Hh' Hb' He.
        destruct (Z.eq_dec k' (Z.of_nat a)) as [->|Hne]; [congruence|].
        apply Hprev; try assumption. lia.
Qed.
End Loops.

(* ------------------------------------------------------------------ *)
(** ** The four paths through [schedulePublication] *)

Section Paths.
Variable env : Env.
Variable input : Input.

Lemma update_afterUser (s : Db) (i : string) (d : Task.data) (x : Task.t) :
  stored s i = Some x ->
  db.task.update (dbNow env) i d (afterUser env s)
  = (Returned (Task.apply (dbNow env) d x), written env s i d x).
Proof.
  intros H. unfold db.task.update, written.
  rewrite tasks_afterUser, taskUpdates_afterUser.
  unfold stored in H. now rewrite H.
Qed.

(** Path 0: the user cannot be obtained; the task store is not reached. *)
Lemma schedule_unauth (s : Db) :
  auth env = None ->
  schedulePublication env input s = (Thrown UserUnavailable, s).
Proof.
  intros H. unfold schedulePublication. unfold bind at 1.
  now rewrite createUser_unauth.
Qed.

Lemma schedule_auth (s : Db) (uid : string) :
  auth env = Some uid ->
  schedulePublication env input s =
  match stored s (taskId input) with
  | None => (Thrown NotFound, afterUser env s)
  | Some task =>
      match Task.publishAt task with
      | Some _ =>
          if truthy (removeFromKanban input)
          then (Returned task, written env s (taskId input) detachData task)
          else (Returned task, afterUser env s)
      | None =>
          match scanDays env input task (todayAt9 env) dayOffsets (afterUser env s) with
          | (Returned (Some updatedTask), s') => (Returned updatedTask, s')
          | (Returned None, s') => (Thrown NoAvailableSlot, s')
          | (Thrown e, s') => (Thrown e, s')
          end
      end
  end.
Proof.
  intros H. unfold schedulePublication. unfold bind at 1.
  destruct (createUser_auth env None s uid H) as (u & s1 & E & Ht & Hu).
  assert (Hs1 : afterUser env s = s1) by (unfold afterUser; now rewrite E).
  rewrite E. unfold bind at 1. unfold db.task.findUnique at 1.
  rewrite Ht. fold (stored s (taskId input)).
  destruct (stored s (taskId input)) as [task|] eqn:Est; [|now rewrite Hs1].
  pose proof (stored_id _ _ _ Est) as Hid.
  destruct (Task.publishAt task) as [p|].
  - destruct (truthy (removeFromKanban input)); [|now rewrite Hs1].
    unfold bind. rewrite <- Hs1, Hid, (update_afterUser s _ _ task Est).
    reflexivity.
  - rewrite Hs1. fold (todayAt9 env). unfold bind at 1.
    destruct (scanDays env input task (todayAt9 env) dayOffsets s1)
      as [[[r|]|e] s']; reflexivity.
Qed.

(** Path 1: the id does not resolve. *)
Lemma schedule_notFound (s : Db) (uid : string) :
  auth env = Some uid -> stored s (taskId input) = None ->
  schedulePublication env input s = (Thrown NotFound, afterUser env s).
Proof. intros H E. rewrite (schedule_auth s uid H), E. reflexivity. Qed.

(** Path 2: the task carries an explicit time. *)
Lemma schedule_explicit (s : Db) (uid : string) (task : Task.t) (p : Z) :
  auth env = Some uid -> stored s (taskId input) = Some task ->
  Task.publishAt task = Some p ->
  schedulePublication env input s =
  (Returned task,
   if truthy (removeFromKanban input)
   then written env s (taskId input) detachData task
   else afterUser env s).
Proof.
  intros H E P. rewrite (schedule_auth s uid H), E, P.
  destruct (truthy (removeFromKanban input)); reflexivity.
Qed.

(** Path 3: the slot search. *)
Lemma schedule_search (s : Db) (uid : string) (task : Task.t) :
  auth env = Some uid -> stored s (taskId input) = Some task ->
  Task.publishAt task = None ->
  (horizonFull env s /\
   schedulePublication env input s = (Thrown NoAvailableSlot, afterUser env s))
  \/
  (exists k h,
      firstFree env s k h /\
      schedulePublication env input s =
      (Returned (Task.apply (dbNow env) (slotData input task (slotInstant env k h)) task),
       written env s (taskId input) (slotData input task (slotInstant env k h)) task)).
Proof.
  intros H E P. rewrite (schedule_auth s uid H), E, P.
  pose proof (stored_id _ _ _ E) as Hid.
  destruct (scanDays_spec env input task 30 0 (afterUser env s))
    as [[Hfull Hscan] | (k & h & Hk & Hh & Hb & Hfree & Hprev & Hscan)];
    change (map Z.of_nat (seq 0 30)) with dayOffsets in Hscan; rewrite Hscan.
  - left. split; [|reflexivity].
    intros k h Hk Hh Hb. rewrite <- (occupied_afterUser env). apply Hfull; auto.
  - right. exists k, h. split.
    + repeat split; try assumption; try lia.
      * now rewrite <- (occupied_afterUser env).
      * intros k' h' Hk' Hh' Hb' He. rewrite <- (occupied_afterUser env).
        apply Hprev; auto.
    + unfold assignSlot, bind, ret.
      rewrite Hid, (update_afterUser s _ _ task E). reflexivity.
Qed.
End Paths.

(** The first free slot is unique. *)
Lemma firstFree_unique (env : Env) (s : Db) (k h k' h' : Z) :
  firstFree env s k h -> firstFree env s k' h' -> k = k' /\ h = h'.
Proof.
  intros (Hk & Hh & Hb & Hf & Hp) (Hk' & Hh' & Hb' & Hf' & Hp').
  assert (N1 : ~ earlier k h k' h').
  { intros He. rewrite (Hp' k h) in Hf; try assumption; [discriminate | lia]. }
  assert (N2 : ~ earlier k' h' k h).
  { intros He. rewrite (Hp k' h') in Hf'; try assumption; [discriminate | lia]. }
  unfold earlier in N1, N2. lia.
Qed.

Lemma firstFree_not_full (env : Env) (s : Db) (k h : Z) :
  firstFree env s k h -> ~ horizonFull env s.
Proof.
  intros (Hk & Hh & Hb & Hf & _) Hfull.
  rewrite (Hfull k h Hk Hh Hb) in Hf. discriminate.
Qed.

(* ------------------------------------------------------------------ *)
(** ** Consequences of the path lemmas *)

Lemma stored_written_same (env : Env) (s : Db) (i : string) (d : Task.data)
      (x : Task.t) :
  stored s i = Some x ->
  stored (written env s i d x) i = Some (Task.apply (dbNow env) d x).
Proof.
  intros H. unfold stored, written; cbn [tasks].
  apply (find_replace_same i x); [|exact H].
  cbn. now apply (stored_id s).
Qed.

Lemma stored_written_other (env : Env) (s : Db) (i j : string) (d : Task.data)
      (x : Task.t) :
  stored s i = Some x -> j <> i ->
  stored (written env s i d x) j = stored s j.
Proof.
  intros H Hne. unfold stored, written; cbn [tasks].
  apply find_replace_other; [|exact Hne].
  cbn. now apply (stored_id s).
Qed.

Lemma stored_afterUser (env : Env) (s : Db) (i : string) :
  stored (afterUser env s) i = stored s i.
Proof. unfold stored. now rewrite tasks_afterUser. Qed.

(** The slot search, when the first free slot is known. *)
Lemma schedule_search_at (env : Env) (input : Input) (s : Db) (uid : string)
      (task : Task.t) (k h : Z) :
  auth env = Some uid -> stored s (taskId input) = Some task ->
  Task.publishAt task = None -> firstFree env s k h ->
  schedulePublication env input s =
  (Returned (Task.apply (dbNow env) (slotData input task (slotInstant env k h)) task),
   written env s (taskId input) (slotData input task (slotInstant env k h)) task).
Proof.
  intros H E P F.
  destruct (schedule_search env input s uid task H E P)
    as [[Hfull _] | (k0 & h0 & F0 & Heq)].
  - exfalso. exact (firstFree_not_full _ _ _ _ F Hfull).
  - destruct (firstFree_unique _ _ _ _ _ _ F F0) as [<- <-]. exact Heq.
Qed.

(** Two readings of the clock on the same local day see the same grid. *)
Lemma same_day_same_grid (env env' : Env) :
  LocalTZA env' = LocalTZA env -> localDay env' = localDay env ->
  (forall k h, slotInstant env' k h = slotInstant env k h) /\
  (forall k, businessDay env' k = businessDay env k).
Proof.
  intros Hz Hd. split.
  - intros k h. unfold slotInstant. now rewrite Hz, Hd.
  - intros k. unfold businessDay, weekdayOf. now rewrite Hd.
Qed.

Lemma firstFree_same_day (env env' : Env) (s : Db) (k h : Z) :
  LocalTZA env' = LocalTZA env -> localDay env' = localDay env ->
  firstFree env s k h -> firstFree env' s k h.
Proof.
  intros Hz Hd (Hk & Hh & Hb & Hf & Hp).
  destruct (same_day_same_grid env env' Hz Hd) as [Hs Hbd].
  repeat split; try assumption; try lia.
  - now rewrite Hbd.
  - now rewrite Hs.
  - intros k' h' Hk' Hh' Hb' He. rewrite Hs. rewrite Hbd in Hb'. now apply Hp.
Qed.

(** On an empty horizon the first free slot is 09:00 of the first
    business day. *)
Lemma firstFree_empty (env : Env) (s : Db) (k : Z) :
  horizonEmpty env s -> 0 <= k < 30 -> businessDay env k = true ->
  (forall j, 0 <= j < k -> businessDay env j = false) ->
  firstFree env s k 9.
Proof.
  intros He Hk Hb Hfirst. repeat split; try assumption; try lia.
  - unfold timeSlots. simpl. tauto.
  - apply He; [exact Hk | unfold timeSlots; simpl; tauto].
  - intros k' h' Hk' Hh' Hb' [Hlt | [-> Hlt]].
    + rewrite Hfirst in Hb' by lia. discriminate.
    + unfold timeSlots in Hh'. simpl in Hh'. lia.
Qed.

Lemma columnId_slotData (env : Env) (input : Input) (task : Task.t) (d : Z) :
  Task.columnId (Task.apply (dbNow env) (slotData input task d) task) =
  if truthy (removeFromKanban input) then None else Task.columnId task.
Proof. reflexivity. Qed.

Lemma publishAt_slotData (env : Env) (input : Input) (task : Task.t) (d : Z) :
  Task.publishAt (Task.apply (dbNow env) (slotData input task d) task) = Some d.
Proof. reflexivity. Qed.

Lemma occupied_written_inv (env : Env) (s : Db) (i : string) (d : Task.data)
      (x : Task.t) (d' : Z) :
  occupied (written env s i d x) d' = true ->
  (Task.columnId (Task.apply (dbNow env) d x) = None /\
   Task.publishAt (Task.apply (dbNow env) d x) = Some d')
  \/ occupied s d' = true.
Proof.
  intros H. apply occupied_true_iff in H. destruct H as (y & Hin & Hc & Hp).
  unfold written in Hin; cbn [tasks] in Hin.
  apply In_replace in Hin. destruct Hin as [-> | Hin].
  - left. now split.
  - right. apply occupied_true_iff. eauto.
Qed.

Lemma occupied_written_new (env : Env) (s : Db) (i : string) (d : Task.data)
      (x : Task.t) (d' : Z) :
  stored s i = Some x ->
  Task.columnId (Task.apply (dbNow env) d x) = None ->
  Task.publishAt (Task.apply (dbNow env) d x) = Some d' ->
  occupied (written env s i d x) d' = true.
Proof.
  intros H Hc Hp. apply occupied_true_iff.
  exists (Task.apply (dbNow env) d x). repeat split; try assumption.
  apply (stored_In _ i). now apply stored_written_same.
Qed.

(* ------------------------------------------------------------------ *)
(** ** The properties of the scheduler *)

(** C1, as stated, fails: two unscheduled cards that stay on their board
    column are scheduled one after the other against an empty horizon, and
    the second receives the 09:00 slot of the first, not 13:00. *)
Lemma C1_second_task_gets_0900_too :
  horizonEmpty exEnv exBoard /\ businessDay exEnv 0 = true /\
  stored exBoard "a" = Some (exTask "a" (Some "C"%string) None) /\
  stored exBoard "b" = Some (exTask "b" (Some "C"%string) None) /\
  exists tA s1 tB s2,
    schedulePublication exEnv (mkInput "a" None) exBoard = (Returned tA, s1) /\
    schedulePublication exEnv (mkInput "b" None) s1 = (Returned tB, s2) /\
    Task.publishAt tA = Some (slotInstant exEnv 0 9) /\
    Task.publishAt tB = Some (slotInstant exEnv 0 9) /\
    Task.publishAt tB <> Some (slotInstant exEnv 0 13).
Proof.
  split.
  { intros k h _ _. apply occupied_false_iff.
    intros x [<-|[<-|[]]] _; discriminate. }
  split; [reflexivity|]. split; [reflexivity|]. split; [reflexivity|].
  eexists. eexists. eexists. eexists.
  split; [vm_compute; reflexivity|].
  split; [vm_compute; reflexivity|].
  split; [reflexivity|]. split; [reflexivity|].
  vm_compute. discriminate.
Qed.

(** C1, amended.  For a task with null publishAt the call either finds the
    horizon full, or assigns the first free slot of the traversal
    (30 days from today, days outer, 09:00 / 13:00 / 15:00 / 17:00 inner,
    weekends skipped) and persists it.  Two unscheduled tasks scheduled one
    after the other on the same day against an empty horizon get 09:00 and
    13:00 of the first business day when the first task is in the content
    plan after its call; when the first task stays on a board column, it
    does not occupy its slot and the second task gets the same 09:00. *)
Theorem C1_first_free_slot_in_traversal
        (env : Env) (input : Input) (s : Db) (uid : string) (task : Task.t) :
  auth env = Some uid ->
  stored s (taskId input) = Some task ->
  Task.publishAt task = None ->
  ((horizonFull env s /\
    schedulePublication env input s = (Thrown NoAvailableSlot, afterUser env s))
   \/
   (exists k h t' s',
       firstFree env s k h /\
       schedulePublication env input s = (Returned t', s') /\
       Task.publishAt t' = Some (slotInstant env k h) /\
       stored s' (taskId input) = Some t'))
  /\
  (forall (envB : Env) (inputB : Input) (uidB : string) (taskB : Task.t),
      auth envB = Some uidB ->
      LocalTZA envB = LocalTZA env -> localDay envB = localDay env ->
      taskId inputB <> taskId input ->
      stored s (taskId inputB) = Some taskB ->
      Task.publishAt taskB = None ->
      horizonEmpty env s ->
      exists k tA s1 tB s2,
        0 <= k < 3 /\ businessDay env k = true /\
        (forall j, 0 <= j < k -> businessDay env j = false) /\
        schedulePublication env input s = (Returned tA, s1) /\
        schedulePublication envB inputB s1 = (Returned tB, s2) /\
        Task.publishAt tA = Some (slotInstant env k 9) /\
        stored s2 (taskId input) = Some tA /\
        stored s2 (taskId inputB) = Some tB /\
        (Task.columnId task = None \/ removeFromKanban input = Some true ->
         Task.publishAt tB = Some (slotInstant env k 13)) /\
        (Task.columnId task <> None /\ removeFromKanban input <> Some true ->
         Task.publishAt tB = Some (slotInstant env k 9))).
Proof.
  intros H E P. split.
  - destruct (schedule_search env input s uid task H E P)
      as [Hfull | (k & h & F & Heq)]; [left; exact Hfull | right].
    exists k, h. eexists. eexists. split; [exact F|]. split; [exact Heq|].
    split; [reflexivity|]. now apply stored_written_same.
  - intros envB inputB uidB taskB HB Hz Hd Hne EB PB Hempty.
    destruct (firstBusinessDay env) as (k & Hk & Hb & Hfirst).
    destruct (same_day_same_grid env envB Hz Hd) as [Hslot Hbus].
    assert (FA : firstFree env s k 9) by (apply firstFree_empty; auto; lia).
    pose proof (schedule_search_at env input s uid task k 9 H E P FA) as RA.
    set (dA := slotData input task (slotInstant env k 9)) in *.
    set (tA := Task.apply (dbNow env) dA task) in *.
    set (s1 := written env s (taskId input) dA task) in *.
    assert (EB1 : stored s1 (taskId inputB) = Some taskB).
    { unfold s1. rewrite (stored_written_other env s _ _ dA task E Hne). exact EB. }
    assert (EA1 : stored s1 (taskId input) = Some tA)
      by (apply stored_written_same; exact E).
    assert (In9 : In 9 timeSlots) by (unfold timeSlots; simpl; tauto).
    assert (In13 : In 13 timeSlots) by (unfold timeSlots; simpl; tauto).
    (* the first free slot of the second call *)
    assert (FB : exists h, firstFree envB s1 k h /\
                 (Task.columnId task = None \/ removeFromKanban input = Some true
                  -> h = 13) /\
                 (Task.columnId task <> None /\ removeFromKanban input <> Some true
                  -> h = 9)).
    { destruct (Task.columnId tA) as [c|] eqn:CA.
      - (* the first task stays on the board *)
        exists 9. split; [|split].
        + apply (firstFree_same_day env envB); auto.
          apply firstFree_empty; auto; [|lia].
          intros k' h' Hk' Hh'.
          destruct (occupied s1 (slotInstant env k' h')) eqn:O; [|reflexivity].
          apply occupied_written_inv in O. fold tA in O.
          destruct O as [[O _] | O]; [congruence|].
          rewrite (Hempty k' h' Hk' Hh') in O. discriminate.
        + intros Hplan. exfalso. unfold tA, dA in CA.
          rewrite columnId_slotData in CA.
          destruct Hplan as [Hc | Hr]; [|rewrite Hr in CA; discriminate].
          destruct (truthy (removeFromKanban input)); congruence.
        + reflexivity.
      - (* the first task is in the content plan *)
        exists 13. split; [|split].
        + apply (firstFree_same_day env envB); auto.
          repeat split; try assumption; try lia.
          * destruct (occupied s1 (slotInstant env k 13)) eqn:O; [|reflexivity].
            apply occupied_written_inv in O. fold tA in O.
            destruct O as [[_ O] | O].
            -- unfold tA, dA in O. rewrite publishAt_slotData in O.
               injection O as O.
               apply slotInstant_inj in O; [lia | exact In9 | exact In13].
            -- rewrite (Hempty k 13) in O by (auto; lia). discriminate.
          * intros k' h' Hk' Hh' Hb' [Hlt | [-> Hlt]].
            -- rewrite Hfirst in Hb' by lia. discriminate.
            -- assert (h' = 9) by (unfold timeSlots in Hh'; simpl in Hh'; lia).
               subst h'. apply occupied_written_new; [exact E | exact CA | reflexivity].
        + reflexivity.
        + intros [Hc Hr]. exfalso. unfold tA, dA in CA.
          rewrite columnId_slotData in CA.
          destruct (removeFromKanban input) as [[|]|]; cbn in CA; congruence. }
    destruct FB as (h & FB & Hplan & Hboard).
    pose proof (schedule_search_at envB inputB s1 uidB taskB k h HB EB1 PB FB) as RB.
    exists k, tA, s1. eexists. eexists.
    split; [exact Hk|]. split; [exact Hb|]. split; [exact Hfirst|].
    split; [exact RA|]. split; [exact RB|]. split; [reflexivity|].
    split.
    { rewrite (stored_written_other envB s1 _ _ _ taskB EB1) by congruence.
      exact EA1. }
    split; [now apply stored_written_same|].
    split.
    + intros Hp. rewrite publishAt_slotData, Hslot, (Hplan Hp). reflexivity.
    + intros Hp. rewrite publishAt_slotData, Hslot, (Hboard Hp). reflexivity.
Qed.

Lemma exBoard_empty (env : Env) : horizonEmpty env exBoard.
Proof.
  intros k h _ _. apply occupied_false_iff.
  intros x [<-|[<-|[]]] _; discriminate.
Qed.

Lemma C1_first_free_slot_in_traversal_witness :
  exists k tA s1 tB s2,
    0 <= k < 3 /\ businessDay exEnv k = true /\
    schedulePublication exEnv (mkInput "a" (Some true)) exBoard = (Returned tA, s1) /\
    schedulePublication exEnv (mkInput "b" None) s1 = (Returned tB, s2) /\
    Task.publishAt tA = Some (slotInstant exEnv k 9) /\
    Task.publishAt tB = Some (slotInstant exEnv k 13).
Proof.
  destruct (C1_first_free_slot_in_traversal
              exEnv (mkInput "a" (Some true)) exBoard "u1"
              (exTask "a" (Some "C"%string) None) eq_refl eq_refl eq_refl)
    as [_ Hseq].
  destruct (Hseq exEnv (mkInput "b" None) "u1"%string
                 (exTask "b" (Some "C"%string) None)
                 eq_refl eq_refl eq_refl ltac:(discriminate) eq_refl eq_refl
                 (exBoard_empty exEnv))
    as (k & tA & s1 & tB & s2 & Hk & Hb & _ & RA & RB & PA & _ & _ & Hplan & _).
  exists k, tA, s1, tB, s2.
  repeat split; try assumption; try lia.
  apply Hplan. right. reflexivity.
Defined.

(** The local-time fields of a grid slot. *)
Lemma slot_fields (env : Env) (k h : Z) :
  In h timeSlots ->
  JsDate.getHours (LocalTZA env) (slotInstant env k h) = h /\
  JsDate.getMinutes (LocalTZA env) (slotInstant env k h) = 0 /\
  JsDate.getSeconds (LocalTZA env) (slotInstant env k h) = 0 /\
  JsDate.getMilliseconds (LocalTZA env) (slotInstant env k h) = 0 /\
  JsDate.getDay (LocalTZA env) (slotInstant env k h) = weekdayOf env k.
Proof.
  intros Hh.
  unfold JsDate.getHours, JsDate.getMinutes, JsDate.getSeconds,
    JsDate.getMilliseconds, JsDate.getDay.
  rewrite (slotInstant_local env k h Hh).
  assert (Hr : 0 <= h * JsDate.msPerHour < JsDate.msPerDay).
  { pose proof (hourInDay h Hh) as R. unfold JsDate.MakeTime in R. lia. }
  repeat split.
  - unfold JsDate.HourFromTime, JsDate.MakeDate, JsDate.msPerDay, JsDate.msPerHour.
    replace ((localDay env + k) * 86400000 + h * 3600000)
      with ((h + (localDay env + k) * 24) * 3600000) by ring.
    rewrite Z.div_mul by lia. rewrite Z.mod_add by lia.
    apply Z.mod_small. unfold timeSlots in Hh. simpl in Hh. lia.
  - unfold JsDate.MinFromTime, JsDate.MakeDate, JsDate.msPerDay, JsDate.msPerHour,
      JsDate.msPerMinute.
    replace ((localDay env + k) * 86400000 + h * 3600000)
      with ((0 + ((localDay env + k) * 24 + h) * 60) * 60000) by ring.
    rewrite Z.div_mul by lia. rewrite Z.mod_add by lia. reflexivity.
  - unfold JsDate.SecFromTime, JsDate.MakeDate, JsDate.msPerDay, JsDate.msPerHour,
      JsDate.msPerSecond.
    replace ((localDay env + k) * 86400000 + h * 3600000)
      with ((0 + ((localDay env + k) * 1440 + h * 60) * 60) * 1000) by ring.
    rewrite Z.div_mul by lia. rewrite Z.mod_add by lia. reflexivity.
  - unfold JsDate.msFromTime, JsDate.MakeDate, JsDate.msPerDay, JsDate.msPerHour,
      JsDate.msPerSecond.
    replace ((localDay env + k) * 86400000 + h * 3600000)
      with (0 + ((localDay env + k) * 86400 + h * 3600) * 1000) by ring.
    rewrite Z.mod_add by lia. reflexivity.
  - unfold JsDate.WeekDay. rewrite Day_MakeDate by exact Hr. reflexivity.
Qed.

(** C2.  When the slot search succeeds, the chosen instant is free in the
    store the call started from: no task with null column has exactly that
    publishAt.  The instant is a grid hour with zero minutes, seconds and
    milliseconds (local time); the occupancy query compares instants for
    equality and matches only tasks with null column, so a task on a board
    column never occupies a slot. *)
Theorem C2_chosen_slot_is_free
        (env : Env) (input : Input) (s s' : Db) (task t' : Task.t) :
  stored s (taskId input) = Some task ->
  Task.publishAt task = None ->
  schedulePublication env input s = (Returned t', s') ->
  exists d,
    Task.publishAt t' = Some d /\ stored s' (taskId input) = Some t' /\
    (forall x, In x (tasks s) -> Task.columnId x = None ->
               Task.publishAt x <> Some d) /\
    In (JsDate.getHours (LocalTZA env) d) timeSlots /\
    JsDate.getMinutes (LocalTZA env) d = 0 /\
    JsDate.getSeconds (LocalTZA env) d = 0 /\
    JsDate.getMilliseconds (LocalTZA env) d = 0 /\
    (forall d', fst (db.task.findFirst d' s) = Returned None <->
                forall x, In x (tasks s) ->
                          Task.publishAt x = Some d' -> Task.columnId x <> None).
Proof.
  intros E P R.
  destruct (auth env) as [uid|] eqn:H;
    [|rewrite (schedule_unauth env input s H) in R; discriminate].
  destruct (schedule_search env input s uid task H E P)
    as [[_ Heq] | (k & h & F & Heq)]; rewrite Heq in R; [discriminate|].
  injection R as <- <-.
  destruct F as (Hk & Hh & Hb & Hf & _).
  destruct (slot_fields env k h Hh) as (FH & FM & FS & FMs & _).
  exists (slotInstant env k h).
  split; [reflexivity|]. split; [now apply stored_written_same|].
  split; [now apply occupied_false_iff|].
  split; [now rewrite FH|]. split; [exact FM|]. split; [exact FS|].
  split; [exact FMs|].
  intros d'. unfold db.task.findFirst; cbn [fst]. split.
  - intros Hnone x Hin Hp Hc.
    assert (O : occupied s d' = true) by (apply occupied_true_iff; eauto).
    unfold occupied in O. injection Hnone as Hnone. rewrite Hnone in O. discriminate.
  - intros Hall. destruct (find (db.task.inPlanAt d') (tasks s)) as [y|] eqn:Ef;
      [|reflexivity].
    exfalso.
    assert (O : occupied s d' = true) by (unfold occupied; now rewrite Ef).
    apply occupied_true_iff in O. destruct O as (x & Hin & Hc & Hp).
    exact (Hall x Hin Hp Hc).
Qed.

Lemma C2_chosen_slot_is_free_witness :
  exists t' s' d,
    schedulePublication exEnv (mkInput "a" None) exPlan = (Returned t', s') /\
    Task.publishAt t' = Some d /\ d = 1704103200000 /\
    (forall x, In x (tasks exPlan) -> Task.columnId x = None ->
               Task.publishAt x <> Some d) /\
    JsDate.getMinutes (LocalTZA exEnv) d = 0.
Proof.
  destruct (schedulePublication exEnv (mkInput "a" None) exPlan)
    as [[t'|e] s'] eqn:R; [|vm_compute in R; discriminate].
  destruct (C2_chosen_slot_is_free exEnv (mkInput "a" None) exPlan s'
              (exTask "a" (Some "C"%string) None) t' eq_refl eq_refl R)
    as (d & Hp & _ & Hfree & _ & Hmin & _).
  exists t', s', d. repeat split; try assumption.
  vm_compute in R. injection R as <- _. cbn in Hp. congruence.
Defined.

(** C3.  Whatever the store and the instant of the call, a slot chosen by
    the slot search lies on a day that is neither Sunday (0) nor
    Saturday (6). *)
Theorem C3_chosen_slot_not_on_weekend
        (env : Env) (input : Input) (s s' : Db) (task t' : Task.t) :
  stored s (taskId input) = Some task ->
  Task.publishAt task = None ->
  schedulePublication env input s = (Returned t', s') ->
  exists d,
    Task.publishAt t' = Some d /\ stored s' (taskId input) = Some t' /\
    JsDate.getDay (LocalTZA env) d <> 0 /\
    JsDate.getDay (LocalTZA env) d <> 6.
Proof.
  intros E P R.
  destruct (auth env) as [uid|] eqn:H;
    [|rewrite (schedule_unauth env input s H) in R; discriminate].
  destruct (schedule_search env input s uid task H E P)
    as [[_ Heq] | (k & h & F & Heq)]; rewrite Heq in R; [discriminate|].
  injection R as <- <-.
  destruct F as (Hk & Hh & Hb & _ & _).
  destruct (slot_fields env k h Hh) as (_ & _ & _ & _ & FD).
  exists (slotInstant env k h).
  split; [reflexivity|]. split; [now apply stored_written_same|].
  rewrite FD. unfold businessDay in Hb.
  destruct (Z.eqb_spec (weekdayOf env k) 0); [discriminate|].
  destruct (Z.eqb_spec (weekdayOf env k) 6); [discriminate|].
  split; assumption.
Qed.

Lemma C3_chosen_slot_not_on_weekend_witness :
  JsDate.getDay (LocalTZA exSaturday) (now exSaturday) = 6 /\
  exists t' s' d,
    schedulePublication exSaturday (mkInput "a" None) exPlan = (Returned t', s') /\
    Task.publishAt t' = Some d /\
    JsDate.getDay (LocalTZA exSaturday) d <> 0 /\
    JsDate.getDay (LocalTZA exSaturday) d <> 6.
Proof.
  split; [reflexivity|].
  destruct (schedulePublication exSaturday (mkInput "a" None) exPlan)
    as [[t'|e] s'] eqn:R; [|vm_compute in R; discriminate].
  destruct (C3_chosen_slot_not_on_weekend exSaturday (mkInput "a" None) exPlan s'
              (exTask "a" (Some "C"%string) None) t' eq_refl eq_refl R)
    as (d & Hp & _ & H0 & H6).
  exists t', s', d. repeat split; assumption.
Defined.






(** C5, at the failing input.  With removeFromKanban = true on a task with
    an explicit time, the column is cleared in the store, but the task the
    call returns is the row as loaded before the update and still carries
    column "C". *)
Theorem C5_returned_task_keeps_its_column :
  exists t' s' x,
    schedulePublication exEnv (mkInput "c" (Some true)) exScheduled
    = (Returned t', s') /\
    stored s' "c" = Some x /\ Task.columnId x = None /\
    Task.columnId t' = Some "C"%string /\
    t' = exTask "c" (Some "C"%string) (Some 1704783600000).
Proof.
  eexists. eexists. eexists.
  split; [vm_compute; reflexivity|].
  split; [vm_compute; reflexivity|].
  repeat split.
Qed.

(** C6.  A task whose publishAt is set keeps exactly that publishAt in the
    store across a call, whatever removeFromKanban is and however the call
    ends. *)
Theorem C6_explicit_publishAt_unchanged
        (env : Env) (input : Input) (s : Db) (task : Task.t) (p : Z) :
  stored s (taskId input) = Some task ->
  Task.publishAt task = Some p ->
  exists x,
    stored (snd (schedulePublication env input s)) (taskId input) = Some x /\
    Task.publishAt x = Some p.
Proof.
  intros E P.
  destruct (auth env) as [uid|] eqn:H.
  - rewrite (schedule_explicit env input s uid task p H E P). cbn [snd].
    destruct (truthy (removeFromKanban input)).
    + eexists. split; [now apply stored_written_same | exact P].
    + exists task. split; [now rewrite stored_afterUser | exact P].
  - rewrite (schedule_unauth env input s H). cbn [snd]. eauto.
Qed.

Lemma C6_explicit_publishAt_unchanged_witness :
  (exists x, stored (snd (schedulePublication exEnv (mkInput "c" (Some true))
                                              exScheduled)) "c" = Some x /\
             Task.publishAt x = Some 1704783600000) /\
  (exists x, stored (snd (schedulePublication exEnv (mkInput "c" None)
                                              exScheduled)) "c" = Some x /\
             Task.publishAt x = Some 1704783600000).
Proof.
  split.
  - exact (C6_explicit_publishAt_unchanged exEnv (mkInput "c" (Some true))
             exScheduled (exTask "c" (Some "C"%string) (Some 1704783600000))
             1704783600000 eq_refl eq_refl).
  - exact (C6_explicit_publishAt_unchanged exEnv (mkInput "c" None)
             exScheduled (exTask "c" (Some "C"%string) (Some 1704783600000))
             1704783600000 eq_refl eq_refl).
Defined.

(** C7.  After a successful call on a task that was on column "C", the
    stored column is null when removeFromKanban is true, and is still "C"
    when removeFromKanban is false or omitted; on the explicit-time path
    and on the slot-search path alike. *)
Theorem C7_removeFromKanban_semantics
        (env : Env) (input : Input) (s s' : Db) (task t' : Task.t) (c : string) :
  stored s (taskId input) = Some task ->
  Task.columnId task = Some c ->
  schedulePublication env input s = (Returned t', s') ->
  exists x,
    stored s' (taskId input) = Some x /\
    (removeFromKanban input = Some true -> Task.columnId x = None) /\
    (removeFromKanban input = Some false \/ removeFromKanban input = None ->
     Task.columnId x = Some c).
Proof.
  intros E C R.
  destruct (auth env) as [uid|] eqn:H;
    [|rewrite (schedule_unauth env input s H) in R; discriminate].
  destruct (Task.publishAt task) as [p|] eqn:P.
  - rewrite (schedule_explicit env input s uid task p H E P) in R.
    injection R as <- <-.
    destruct (removeFromKanban input) as [[|]|]; cbn [truthy].
    + eexists. split; [now apply stored_written_same|].
      split; [reflexivity|]. intros [?|?]; discriminate.
    + exists task. split; [now rewrite stored_afterUser|].
      split; [discriminate | intros _; exact C].
    + exists task. split; [now rewrite stored_afterUser|].
      split; [discriminate | intros _; exact C].
  - destruct (schedule_search env input s uid task H E P)
      as [[_ Heq] | (k & h & F & Heq)]; rewrite Heq in R; [discriminate|].
    injection R as <- <-.
    eexists. split; [now apply stored_written_same|].
    rewrite columnId_slotData.
    destruct (removeFromKanban input) as [[|]|]; cbn [truthy].
    + split; [reflexivity|]. intros [?|?]; discriminate.
    + split; [discriminate | intros _; exact C].
    + split; [discriminate | intros _; exact C].
Qed.

Lemma C7_removeFromKanban_semantics_witness :
  (exists x, stored (snd (schedulePublication exEnv (mkInput "a" (Some true)) exPlan))
                    "a" = Some x /\ Task.columnId x = None) /\
  (exists x, stored (snd (schedulePublication exEnv (mkInput "a" None) exPlan))
                    "a" = Some x /\ Task.columnId x = Some "C"%string) /\
  (exists x, stored (snd (schedulePublication exEnv (mkInput "c" (Some true))
                                              exScheduled))
                    "c" = Some x /\ Task.columnId x = None) /\
  (exists x, stored (snd (schedulePublication exEnv (mkInput "c" (Some false))
                                              exScheduled))
                    "c" = Some x /\ Task.columnId x = Some "C"%string).
Proof.
  split; [|split; [|split]].
  - destruct (schedulePublication exEnv (mkInput "a" (Some true)) exPlan)
      as [[t'|e] s'] eqn:R; [|vm_compute in R; discriminate].
    destruct (C7_removeFromKanban_semantics exEnv (mkInput "a" (Some true)) exPlan s'
                (exTask "a" (Some "C"%string) None) t' "C" eq_refl eq_refl R)
      as (x & Hx & Hrm & _).
    exists x. split; [exact Hx | now apply Hrm].
  - destruct (schedulePublication exEnv (mkInput "a" None) exPlan)
      as [[t'|e] s'] eqn:R; [|vm_compute in R; discriminate].
    destruct (C7_removeFromKanban_semantics exEnv (mkInput "a" None) exPlan s'
                (exTask "a" (Some "C"%string) None) t' "C" eq_refl eq_refl R)
      as (x & Hx & _ & Hkeep).
    exists x. split; [exact Hx | apply Hkeep; now right].
  - destruct (schedulePublication exEnv (mkInput "c" (Some true)) exScheduled)
      as [[t'|e] s'] eqn:R; [|vm_compute in R; discriminate].
    destruct (C7_removeFromKanban_semantics exEnv (mkInput "c" (Some true)) exScheduled s'
                (exTask "c" (Some "C"%string) (Some 1704783600000)) t' "C"
                eq_refl eq_refl R)
      as (x & Hx & Hrm & _).
    exists x. split; [exact Hx | now apply Hrm].
  - destruct (schedulePublication exEnv (mkInput "c" (Some false)) exScheduled)
      as [[t'|e] s'] eqn:R; [|vm_compute in R; discriminate].
    destruct (C7_removeFromKanban_semantics exEnv (mkInput "c" (Some false)) exScheduled s'
                (exTask "c" (Some "C"%string) (Some 1704783600000)) t' "C"
                eq_refl eq_refl R)
      as (x & Hx & _ & Hkeep).
    exists x. split; [exact Hx | apply Hkeep; now left].
Defined.

Lemma sameContent_refl (x : Task.t) : Task.sameContent x x.
Proof. unfold Task.sameContent. repeat split. Qed.

Lemma sameContent_apply (stamp : Z) (d : Task.data) (x : Task.t) :
  Task.sameContent x (Task.apply stamp d x).
Proof. unfold Task.sameContent. repeat split. Qed.

Lemma Forall2_sameContent_refl (l : list Task.t) : Forall2 Task.sameContent l l.
Proof. induction l; constructor; auto using sameContent_refl. Qed.

Lemma written_frame (env : Env) (s : Db) (i : string) (d : Task.data) (x : Task.t) :
  stored s i = Some x ->
  Forall2 Task.sameContent (tasks s) (tasks (written env s i d x)) /\
  (forall j, j <> i -> stored (written env s i d x) j = stored s j) /\
  taskUpdates (written env s i d x) = (i, d) :: taskUpdates s.
Proof.
  intros H. split; [|split].
  - unfold written; cbn [tasks].
    apply (replace_Forall2 Task.sameContent i x);
      [apply sameContent_refl | apply sameContent_apply | exact H].
  - intros j Hj. now apply stored_written_other.
  - reflexivity.
Qed.

Lemma afterUser_frame (env : Env) (s : Db) (i : string) :
  Forall2 Task.sameContent (tasks s) (tasks (afterUser env s)) /\
  (forall j, j <> i -> stored (afterUser env s) j = stored s j) /\
  taskUpdates (afterUser env s) = taskUpdates s.
Proof.
  split; [|split].
  - rewrite tasks_afterUser. apply Forall2_sameContent_refl.
  - intros j _. apply stored_afterUser.
  - apply taskUpdates_afterUser.
Qed.

(** C8, as stated, fails twice.  A successful call on a task with an
    explicit time and removeFromKanban omitted performs no update at all;
    and an update also rewrites the row's updatedAt, a field that is
    neither publishAt nor the column. *)
Lemma C8_success_without_update_and_updatedAt :
  (exists t' s',
      schedulePublication exEnv (mkInput "c" None) exScheduled = (Returned t', s') /\
      taskUpdates s' = taskUpdates exScheduled /\ tasks s' = tasks exScheduled)
  /\
  (exists t' s' x x',
      schedulePublication exEnv (mkInput "c" (Some true)) exScheduled
      = (Returned t', s') /\
      stored exScheduled "c" = Some x /\ stored s' "c" = Some x' /\
      Task.updatedAt x = 1704000000000 /\ Task.updatedAt x' = dbNow exEnv /\
      Task.updatedAt x' <> Task.updatedAt x).
Proof.
  split.
  - eexists. eexists. split; [vm_compute; reflexivity|]. split; reflexivity.
  - eexists. eexists. eexists. eexists.
    split; [vm_compute; reflexivity|].
    split; [reflexivity|]. split; [vm_compute; reflexivity|].
    split; [reflexivity|]. split; [reflexivity|].
    vm_compute. discriminate.
Qed.

(** C8, amended.  A failing call performs no update of the task store.
    A successful call performs exactly one update, except on a task with
    an explicit time when removeFromKanban is false or omitted, where it
    performs none.  In every case each row keeps all its fields other than
    publishAt, the column and the store-maintained updatedAt, and rows
    other than the addressed one are untouched. *)
Theorem C8_updates_and_frame (env : Env) (input : Input) (s : Db) :
  (forall e, fst (schedulePublication env input s) = Thrown e ->
             tasks (snd (schedulePublication env input s)) = tasks s /\
             taskUpdates (snd (schedulePublication env input s)) = taskUpdates s)
  /\
  (forall t', fst (schedulePublication env input s) = Returned t' ->
     exists task,
       stored s (taskId input) = Some task /\
       match Task.publishAt task, truthy (removeFromKanban input) with
       | Some _, false =>
           taskUpdates (snd (schedulePublication env input s)) = taskUpdates s /\
           tasks (snd (schedulePublication env input s)) = tasks s
       | _, _ =>
           exists d,
           taskUpdates (snd (schedulePublication env input s))
           = (taskId input, d) :: taskUpdates s
       end)
  /\
  Forall2 Task.sameContent (tasks s) (tasks (snd (schedulePublication env input s)))
  /\
  (forall j, j <> taskId input ->
             stored (snd (schedulePublication env input s)) j = stored s j).
Proof.
  destruct (auth env) as [uid|] eqn:H.
  2:{ rewrite (schedule_unauth env input s H). cbn [fst snd].
      split; [intros e _; split; reflexivity|].
      split; [intros t'; discriminate|].
      split; [apply Forall2_sameContent_refl | reflexivity]. }
  destruct (stored s (taskId input)) as [task|] eqn:E.
  2:{ rewrite (schedule_notFound env input s uid H E). cbn [fst snd].
      destruct (afterUser_frame env s (taskId input)) as (F1 & F2 & F3).
      split; [intros e _; split; [apply tasks_afterUser | exact F3]|].
      split; [intros t'; discriminate|]. split; assumption. }
  destruct (Task.publishAt task) as [p|] eqn:P.
  - rewrite (schedule_explicit env input s uid task p H E P). cbn [fst snd].
    split; [intros e; discriminate|].
    destruct (truthy (removeFromKanban input)).
    + destruct (written_frame env s (taskId input) detachData task E)
        as (F1 & F2 & F3).
      split; [|split; assumption].
      intros t' _. exists task. split; [reflexivity|]. rewrite P. eauto.
    + destruct (afterUser_frame env s (taskId input)) as (F1 & F2 & F3).
      split; [|split; assumption].
      intros t' _. exists task. split; [reflexivity|]. rewrite P.
      split; [exact F3 | apply tasks_afterUser].
  - destruct (schedule_search env input s uid task H E P)
      as [[_ Heq] | (k & h & F & Heq)]; rewrite Heq; cbn [fst snd].
    + destruct (afterUser_frame env s (taskId input)) as (F1 & F2 & F3).
      split; [intros e _; split; [apply tasks_afterUser | exact F3]|].
      split; [intros t'; discriminate|]. split; assumption.
    + destruct (written_frame env s (taskId input)
                  (slotData input task (slotInstant env k h)) task E)
        as (F1 & F2 & F3).
      split; [intros e; discriminate|].
      split; [|split; assumption].
      intros t' _. exists task. split; [reflexivity|]. rewrite P. eauto.
Qed.

Lemma C8_updates_and_frame_witness :
  List.length (taskUpdates (snd (schedulePublication exEnv (mkInput "a" None) exPlan)))
  = 1%nat /\
  tasks (snd (schedulePublication exEnv (mkInput "zz" None) exPlan)) = tasks exPlan /\
  Forall2 Task.sameContent
          (tasks exPlan)
          (tasks (snd (schedulePublication exEnv (mkInput "a" None) exPlan))).
Proof.
  split; [|split].
  - destruct (proj1 (proj2 (C8_updates_and_frame exEnv (mkInput "a" None) exPlan))
                    (Task.apply (dbNow exEnv)
                       (slotData (mkInput "a" None)
                                 (exTask "a" (Some "C"%string) None) 1704103200000)
                       (exTask "a" (Some "C"%string) None)))
      as (task & Ht & Hupd).
    + vm_compute. reflexivity.
    + injection Ht as <-.
      change (exists d,
                 taskUpdates (snd (schedulePublication exEnv (mkInput "a" None) exPlan))
                 = (taskId (mkInput "a" None), d) :: taskUpdates exPlan) in Hupd.
      destruct Hupd as (d & Hd). rewrite Hd. reflexivity.
  - apply (proj1 (C8_updates_and_frame exEnv (mkInput "zz" None) exPlan) NotFound).
    vm_compute. reflexivity.
  - apply (C8_updates_and_frame exEnv (mkInput "a" None) exPlan).
Defined.

(** The 09:00 slot of today precedes every later instant of today. *)
Lemma todays_0900_before_now (env : Env) :
  9 * JsDate.msPerHour
  < JsDate.TimeWithinDay (JsDate.LocalTime (LocalTZA env) (now env)) ->
  slotInstant env 0 9 < now env.
Proof.
  unfold slotInstant, localDay, JsDate.UTC, JsDate.MakeDate, JsDate.MakeTime,
    JsDate.TimeWithinDay, JsDate.Day.
  set (lt := JsDate.LocalTime (LocalTZA env) (now env)).
  assert (Hlt : now env = lt - LocalTZA env)
    by (unfold lt, JsDate.LocalTime; lia).
  intros Hlate.
  pose proof (Z.div_mod lt JsDate.msPerDay) as Hdm.
  unfold JsDate.msPerDay, JsDate.msPerHour, JsDate.msPerMinute,
    JsDate.msPerSecond in *.
  lia.
Qed.

(** C9.  The scan begins with today's 09:00 slot whatever the time of day:
    on a business day whose 09:00 slot is free that slot is assigned, and
    it precedes the instant of the call whenever the call runs after 09:00.
    Such a call exists: Monday 18:00, empty plan, the task is scheduled for
    09:00 of the same Monday. *)
Theorem C9_slot_may_precede_the_call :
  (forall (env : Env) (input : Input) (s : Db) (uid : string) (task : Task.t),
      auth env = Some uid ->
      stored s (taskId input) = Some task ->
      Task.publishAt task = None ->
      businessDay env 0 = true ->
      occupied s (slotInstant env 0 9) = false ->
      exists t' s',
        schedulePublication env input s = (Returned t', s') /\
        Task.publishAt t' = Some (slotInstant env 0 9) /\
        stored s' (taskId input) = Some t' /\
        (9 * JsDate.msPerHour
         < JsDate.TimeWithinDay (JsDate.LocalTime (LocalTZA env) (now env)) ->
         slotInstant env 0 9 < now env))
  /\
  (exists (env : Env) (input : Input) (s s' : Db) (t' : Task.t) (d : Z),
      schedulePublication env input s = (Returned t', s') /\
      Task.publishAt t' = Some d /\ stored s' (taskId input) = Some t' /\
      d < now env /\
      JsDate.Day (JsDate.LocalTime (LocalTZA env) d) = localDay env /\
      JsDate.getHours (LocalTZA env) d = 9 /\
      JsDate.getHours (LocalTZA env) (now env) = 18).
Proof.
  assert (G : forall (env : Env) (input : Input) (s : Db) (uid : string)
                     (task : Task.t),
             auth env = Some uid ->
             stored s (taskId input) = Some task ->
             Task.publishAt task = None ->
             businessDay env 0 = true ->
             occupied s (slotInstant env 0 9) = false ->
             exists t' s',
               schedulePublication env input s = (Returned t', s') /\
               Task.publishAt t' = Some (slotInstant env 0 9) /\
               stored s' (taskId input) = Some t' /\
               (9 * JsDate.msPerHour
                < JsDate.TimeWithinDay (JsDate.LocalTime (LocalTZA env) (now env)) ->
                slotInstant env 0 9 < now env)).
  { intros env input s uid task H E P Hb Hf.
    assert (F : firstFree env s 0 9).
    { repeat split; try assumption; try lia.
      - unfold timeSlots. simpl. tauto.
      - intros k' h' Hk' Hh' _ [Hlt | [-> Hlt]]; [lia|].
        unfold timeSlots in Hh'. simpl in Hh'. lia. }
    eexists. eexists.
    split; [exact (schedule_search_at env input s uid task 0 9 H E P F)|].
    split; [reflexivity|]. split; [now apply stored_written_same|].
    apply todays_0900_before_now. }
  split; [exact G|].
  destruct (G exEnv (mkInput "a" None) exBoard "u1"%string
              (exTask "a" (Some "C"%string) None)
              eq_refl eq_refl eq_refl eq_refl eq_refl)
    as (t' & s' & R & Hp & Hs & Hlate).
  exists exEnv, (mkInput "a" None), exBoard, s', t', (slotInstant exEnv 0 9).
  split; [exact R|]. split; [exact Hp|]. split; [exact Hs|].
  split; [apply Hlate; vm_compute; reflexivity|].
  split; [reflexivity|]. split; reflexivity.
Qed.

Lemma C9_slot_may_precede_the_call_witness :
  exists t' s',
    schedulePublication exEnv (mkInput "a" None) exBoard = (Returned t', s') /\
    Task.publishAt t' = Some 1704088800000 /\
    1704088800000 < now exEnv.
Proof.
  destruct (proj1 C9_slot_may_precede_the_call
              exEnv (mkInput "a" None) exBoard "u1"%string
              (exTask "a" (Some "C"%string) None)
              eq_refl eq_refl eq_refl eq_refl eq_refl)
    as (t' & s' & R & Hp & _ & Hlate).
  exists t', s'. split; [exact R|]. split; [exact Hp|].
  apply Hlate. vm_compute. reflexivity.
Defined.

(** C10.  On a task with an explicit time the call returns the task and
    keeps that time in the store, for every instant [p]: no weekday test,
    no grid test and no occupancy query is made on this path, and the only
    update it may perform writes the column alone. *)
Theorem C10_explicit_time_kept_verbatim
        (env : Env) (input : Input) (s : Db) (uid : string)
        (task : Task.t) (p : Z) :
  auth env = Some uid ->
  stored s (taskId input) = Some task ->
  Task.publishAt task = Some p ->
  exists s' x,
    schedulePublication env input s = (Returned task, s') /\
    stored s' (taskId input) = Some x /\
    Task.publishAt x = Some p /\
    (taskUpdates s' = taskUpdates s \/
     taskUpdates s' = (taskId input, detachData) :: taskUpdates s) /\
    forall j, j <> taskId input -> stored s' j = stored s j.
Proof.
  intros H E P.
  rewrite (schedule_explicit env input s uid task p H E P).
  destruct (truthy (removeFromKanban input)).
  - eexists. eexists. split; [reflexivity|].
    split; [now apply stored_written_same|]. split; [exact P|].
    split; [now right|]. intros j Hj. now apply stored_written_other.
  - eexists. exists task. split; [reflexivity|].
    split; [now rewrite stored_afterUser|]. split; [exact P|].
    split; [left; apply taskUpdates_afterUser|].
    intros j _. apply stored_afterUser.
Qed.

Lemma C10_explicit_time_kept_verbatim_witness :
  (* a Saturday, off the grid *)
  (JsDate.getDay (LocalTZA exEnv) 1704526200000 = 6 /\
   JsDate.getHours (LocalTZA exEnv) 1704526200000 = 10 /\
   JsDate.getMinutes (LocalTZA exEnv) 1704526200000 = 30 /\
   exists s' x,
     schedulePublication exEnv (mkInput "c" (Some true)) exWeekend
     = (Returned (exTask "c" (Some "C"%string) (Some 1704526200000)), s') /\
     stored s' "c" = Some x /\ Task.publishAt x = Some 1704526200000)
  /\
  (* an instant the content plan holds already *)
  (occupied exClash 1704088800000 = true /\
   exists s' x,
     schedulePublication exEnv (mkInput "c" (Some true)) exClash
     = (Returned (exTask "c" (Some "C"%string) (Some 1704088800000)), s') /\
     stored s' "c" = Some x /\ Task.publishAt x = Some 1704088800000 /\
     occupied s' 1704088800000 = true).
Proof.
  split.
  - split; [reflexivity|]. split; [reflexivity|]. split; [reflexivity|].
    destruct (C10_explicit_time_kept_verbatim
                exEnv (mkInput "c" (Some true)) exWeekend "u1"%string
                (exTask "c" (Some "C"%string) (Some 1704526200000)) 1704526200000
                eq_refl eq_refl eq_refl)
      as (s' & x & R & Hx & Hp & _).
    exists s', x. repeat split; assumption.
  - split; [reflexivity|].
    destruct (C10_explicit_time_kept_verbatim
                exEnv (mkInput "c" (Some true)) exClash "u1"%string
                (exTask "c" (Some "C"%string) (Some 1704088800000)) 1704088800000
                eq_refl eq_refl eq_refl)
      as (s' & x & R & Hx & Hp & _).
    exists s', x. repeat split; try assumption.
    vm_compute in R. injection R as <-. reflexivity.
Defined.

(* ------------------------------------------------------------------ *)
(** ** Database health: what the probe state machine guarantees *)

Section HealthFacts.
Import Health.

Lemma healthInv_step (now : Z) (probe : Probe) (st : State) :
  healthInv st -> healthInv (snd (checkDatabaseHealth now probe st)).
Proof.
  intros I. unfold checkDatabaseHealth.
  destruct ((now - lastHealthCheck st <? HEALTH_CHECK_INTERVAL)
            && negb (Status_eqb (dbHealthStatus st) unknown)); [exact I|].
  destruct probe as [|message]; cbn [snd].
  - reflexivity.
  - assert (0 <= consecutiveFailures st).
    { unfold healthInv in I. destruct (dbHealthStatus st); try lia.
      rewrite I. cbn. lia. }
    unfold healthInv. cbn. destruct (isMissing message); lia.
Qed.

Lemma healthInv_run (calls : list (Z * Probe)) (st : State) :
  healthInv st -> healthInv (run calls st).
Proof.
  unfold run. revert st.
  induction calls as [|c calls IH]; intros st I; cbn [fold_left]; [exact I|].
  apply IH. now apply healthInv_step.
Qed.

(** X1.  Whatever series of health checks has run since start-up: the
    status "healthy" goes with a failure counter of zero, the statuses
    "unhealthy" and "missing" with a counter of at least one, and the
    status is "unknown" only if no query has ever been issued (the state
    is still the initial one). *)
Theorem X1_health_status_and_counter_agree (calls : list (Z * Health.Probe)) :
  (dbHealthStatus (run calls initial) = healthy ->
   consecutiveFailures (run calls initial) = 0) /\
  (dbHealthStatus (run calls initial) = unhealthy \/
   dbHealthStatus (run calls initial) = missing ->
   1 <= consecutiveFailures (run calls initial)) /\
  (dbHealthStatus (run calls initial) = unknown -> run calls initial = initial).
Proof.
  assert (I : healthInv (run calls initial))
    by (apply healthInv_run; reflexivity).
  unfold healthInv in I.
  destruct (dbHealthStatus (run calls initial));
    (split; [|split]); try discriminate; try (intros [?|?]; discriminate);
    intros; assumption.
Qed.

Lemma X1_health_status_and_counter_agree_witness :
  consecutiveFailures
    (run [(1000, Failed (Some "connect ECONNREFUSED"%string));
          (40000, Failed None); (80000, Answered)] initial) = 0 /\
  1 <= consecutiveFailures
         (run [(1000, Failed (Some "HTTP 404"%string)); (40000, Failed None)]
              initial).
Proof.
  split.
  - apply (X1_health_status_and_counter_agree
             [(1000, Failed (Some "connect ECONNREFUSED"%string));
              (40000, Failed None); (80000, Answered)]).
    reflexivity.
  - apply (X1_health_status_and_counter_agree
             [(1000, Failed (Some "HTTP 404"%string)); (40000, Failed None)]).
    left. reflexivity.
Defined.

Lemma safe_in_window {A : Type} (now : Z) (probe : Probe) (operation : M A)
      (fallbackValue : A) (st : State) (s : Db) :
  dbHealthStatus st = unhealthy \/ dbHealthStatus st = missing ->
  now - lastHealthCheck st < HEALTH_CHECK_INTERVAL ->
  safeDatabaseOperation now probe operation fallbackValue (st, s)
  = (fallbackValue, (st, s)).
Proof.
  intros Hst Hw. unfold safeDatabaseOperation, checkDatabaseHealth. cbn [fst snd].
  assert (E : (now - lastHealthCheck st <? HEALTH_CHECK_INTERVAL) = true)
    by (apply Z.ltb_lt; exact Hw).
  rewrite E. destruct Hst as [-> | ->]; reflexivity.
Qed.

(** X2.  After a failed probe, for the next 30 seconds every guarded
    operation returns its fallback value: no query is issued (the answer
    the database would give is irrelevant), the operation is not run, and
    neither the health state nor the store changes. *)
Theorem X2_fallback_window_after_failure
        {A : Type} (calls : list (Z * Health.Probe * M A * A))
        (st : Health.State) (s : Db) :
  dbHealthStatus st = unhealthy \/ dbHealthStatus st = missing ->
  Forall (fun c => fst (fst (fst c)) - lastHealthCheck st < HEALTH_CHECK_INTERVAL)
         calls ->
  runSafe calls (st, s) = (map snd calls, (st, s)).
Proof.
  intros Hst Hall. induction Hall as [|[[[now probe] operation] fb] rest Hc _ IH].
  - reflexivity.
  - cbn [runSafe map snd]. cbn [fst] in Hc.
    rewrite (safe_in_window now probe operation fb st s Hst Hc), IH.
    reflexivity.
Qed.
End HealthFacts.

Lemma X2_fallback_window_after_failure_witness :
  Health.runSafe
    [(2000, Health.Answered, db.task.findUnique "a", None);
     (30999, Health.Answered, db.task.findUnique "b", None)]
    (snd (Health.checkDatabaseHealth 1000 (Health.Failed None) Health.initial),
     exBoard)
  = ([None; None],
     (snd (Health.checkDatabaseHealth 1000 (Health.Failed None) Health.initial),
      exBoard)).
Proof.
  apply (X2_fallback_window_after_failure
           [(2000, Health.Answered, db.task.findUnique "a", None);
            (30999, Health.Answered, db.task.findUnique "b", None)]).
  - left. reflexivity.
  - repeat constructor.
Defined.

Lemma checked_status (now : Z) (probe : Health.Probe) (st : Health.State) :
  Health.dbHealthStatus (snd (Health.checkDatabaseHealth now probe st))
  <> Health.unknown /\
  fst (Health.checkDatabaseHealth now probe st)
  = Health.Status_eqb
      (Health.dbHealthStatus (snd (Health.checkDatabaseHealth now probe st)))
      Health.healthy.
Proof.
  unfold Health.checkDatabaseHealth.
  destruct (now - Health.lastHealthCheck st <? Health.HEALTH_CHECK_INTERVAL);
    cbn [andb].
  - destruct (Health.dbHealthStatus st) eqn:E; cbn [Health.Status_eqb negb fst snd].
    + destruct probe as [|m]; cbn; [split; [discriminate|reflexivity]|].
      destruct (Health.isMissing m); split; (discriminate || reflexivity).
    + rewrite E. split; [discriminate | reflexivity].
    + rewrite E. split; [discriminate | reflexivity].
    + rewrite E. split; [discriminate | reflexivity].
  - destruct probe as [|m]; cbn; [split; [discriminate|reflexivity]|].
    destruct (Health.isMissing m); split; (discriminate || reflexivity).
Qed.

(** X3.  The report of getDatabaseHealth is coherent in every state the
    server can reach: [healthy] is true exactly when the status is
    "healthy", and exactly when neither [canRetry] nor [requiresSupport]
    is raised; the two flags are never raised together, a database that
    is not healthy raises one of them, and [needsInfrastructureSupport]
    implies [requiresSupport]. *)
Theorem X3_health_report_is_coherent
        (calls : list (Z * Health.Probe)) (now : Z) (probe : Health.Probe) :
  let r := fst (Health.getDatabaseHealth now probe (Health.run calls Health.initial)) in
  let d := Health.Report.diagnostics_ r in
  (Health.Report.healthy r = true <-> Health.Report.status r = Health.healthy) /\
  (Health.Report.healthy r = true <->
   Health.Report.canRetry d = false /\ Health.Report.requiresSupport d = false) /\
  (Health.Report.canRetry d && Health.Report.requiresSupport d = false) /\
  (Health.Report.needsInfrastructureSupport r = true ->
   Health.Report.requiresSupport d = true).
Proof.
  set (st := Health.run calls Health.initial).
  assert (I : healthInv (snd (Health.checkDatabaseHealth now probe st)))
    by (apply healthInv_step, healthInv_run; reflexivity).
  destruct (checked_status now probe st) as [Hk Hh].
  unfold Health.getDatabaseHealth.
  destruct (Health.checkDatabaseHealth now probe st) as [isHealthy st'].
  cbn [fst snd] in *. cbv zeta. cbn [Health.Report.healthy Health.Report.status
    Health.Report.diagnostics_ Health.Report.canRetry Health.Report.requiresSupport
    Health.Report.needsInfrastructureSupport].
  unfold healthInv in I. subst isHealthy.
  unfold Health.MAX_CONSECUTIVE_FAILURES.
  destruct (Health.dbHealthStatus st'); cbn [Health.Status_eqb andb orb];
    [contradiction | | | ].
  - rewrite I. cbn. repeat split; intros; try reflexivity; try discriminate.
  - destruct (Z.ltb_spec (Health.consecutiveFailures st') 3) as [L|L];
      destruct (Z.geb_spec (Health.consecutiveFailures st') 3) as [G|G];
      try lia; cbn; repeat split; intros; try discriminate; try reflexivity;
      try tauto.
    + destruct H; discriminate.
    + destruct H; discriminate.
  - cbn. repeat split; intros; try discriminate; try reflexivity.
    destruct H; discriminate.
Qed.

(* ------------------------------------------------------------------ *)
(** ** The user lookup that opens the API calls *)



(* ------------------------------------------------------------------ *)
(** ** The scheduler and the content plan *)

Lemma replace_split (i : string) (x x' : Task.t) (l : list Task.t) :
  find (fun y => String.eqb (Task.id y) i) l = Some x ->
  exists l1 l2, l = l1 ++ x :: l2 /\ replaceTask i x' l = l1 ++ x' :: l2.
Proof.
  induction l as [|y l IH]; cbn; [discriminate|].
  destruct (String.eqb (Task.id y) i).
  - intros [= ->]. exists [], l. split; reflexivity.
  - intros H. destruct (IH H) as (l1 & l2 & -> & E).
    exists (y :: l1), l2. split; [reflexivity|]. cbn. now rewrite E.
Qed.

Lemma In_planInstants (l : list Task.t) (d : Z) :
  In d (planInstants l) <->
  exists x, In x l /\ Task.columnId x = None /\ Task.publishAt x = Some d.
Proof.
  unfold planInstants. rewrite in_flat_map. split.
  - intros (x & Hin & Hd). exists x. split; [exact Hin|].
    unfold planInstant in Hd.
    destruct (Task.publishAt x) as [p|]; [|contradiction].
    destruct (Task.columnId x); [contradiction|].
    destruct Hd as [->|[]]. split; reflexivity.
  - intros (x & Hin & Hc & Hp). exists x. split; [exact Hin|].
    unfold planInstant. rewrite Hp, Hc. now left.
Qed.

Lemma occupied_planInstants (s : Db) (d : Z) :
  occupied s d = true <-> In d (planInstants (tasks s)).
Proof. rewrite occupied_true_iff, In_planInstants. reflexivity. Qed.

Lemma planInstants_split (l1 l2 : list Task.t) (x : Task.t) :
  planInstants (l1 ++ x :: l2)
  = planInstants l1 ++ planInstant x ++ planInstants l2.
Proof. unfold planInstants. rewrite flat_map_app. reflexivity. Qed.

(** X5.  The slot search never double-books: if no two content-plan tasks
    share an instant before a call on a task with null publishAt, none do
    after it. *)
Theorem X5_slot_search_keeps_plan_distinct
        (env : Env) (input : Input) (s s' : Db) (task t' : Task.t) :
  planDistinct s ->
  stored s (taskId input) = Some task ->
  Task.publishAt task = None ->
  schedulePublication env input s = (Returned t', s') ->
  planDistinct s'.
Proof.
  intros D E P R.
  destruct (auth env) as [uid|] eqn:H;
    [|rewrite (schedule_unauth env input s H) in R; discriminate].
  destruct (schedule_search env input s uid task H E P)
    as [[_ Heq] | (k & h & F & Heq)]; rewrite Heq in R; [discriminate|].
  injection R as <- <-.
  destruct F as (_ & _ & _ & Hfree & _).
  unfold planDistinct, written in *; cbn [tasks].
  destruct (replace_split (taskId input) task
              (Task.apply (dbNow env)
                 (slotData input task (slotInstant env k h)) task)
              (tasks s) E) as (l1 & l2 & Hl & ->).
  assert (Hnot : ~ In (slotInstant env k h) (planInstants (tasks s))).
  { rewrite <- occupied_planInstants. congruence. }
  assert (E0 : planInstant task = [])
    by (unfold planInstant; now rewrite P).
  rewrite Hl, planInstants_split, E0 in D, Hnot. cbn [app] in D, Hnot.
  rewrite planInstants_split.
  unfold planInstant. rewrite publishAt_slotData.
  destruct (Task.columnId _); cbn [app]; [exact D|].
  apply (Permutation_NoDup (l := slotInstant env k h
                                   :: planInstants l1 ++ planInstants l2)).
  - apply Permutation_middle.
  - constructor; assumption.
Qed.

Lemma X5_slot_search_keeps_plan_distinct_witness :
  planDistinct exPlan /\
  planDistinct (snd (schedulePublication exEnv (mkInput "a" (Some true)) exPlan)).
Proof.
  assert (D : planDistinct exPlan).
  { unfold planDistinct. cbn. repeat constructor. cbn. tauto. }
  split; [exact D|].
  destruct (schedulePublication exEnv (mkInput "a" (Some true)) exPlan)
    as [[t'|e] s'] eqn:R; [|vm_compute in R; discriminate].
  exact (X5_slot_search_keeps_plan_distinct exEnv (mkInput "a" (Some true)) exPlan
           s' (exTask "a" (Some "C"%string) None) t' D eq_refl eq_refl R).
Defined.

(** X6.  The explicit-time path can double-book: when a board task carries
    a publishAt that a content-plan task holds already and is scheduled
    with removeFromKanban = true, the call succeeds and the content plan
    then holds two tasks at that instant. *)
Theorem X6_explicit_time_can_double_book
        (env : Env) (input : Input) (s : Db) (uid c : string)
        (task : Task.t) (p : Z) :
  auth env = Some uid ->
  stored s (taskId input) = Some task ->
  Task.publishAt task = Some p ->
  Task.columnId task = Some c ->
  removeFromKanban input = Some true ->
  occupied s p = true ->
  exists s',
    schedulePublication env input s = (Returned task, s') /\
    ~ planDistinct s'.
Proof.
  intros H E P C Rk O.
  rewrite (schedule_explicit env input s uid task p H E P), Rk. cbn [truthy].
  eexists. split; [reflexivity|].
  unfold planDistinct, written; cbn [tasks].
  destruct (replace_split (taskId input) task
              (Task.apply (dbNow env) detachData task) (tasks s) E)
    as (l1 & l2 & Hl & ->).
  apply occupied_planInstants in O.
  assert (E0 : planInstant task = [])
    by (unfold planInstant; now rewrite P, C).
  rewrite Hl, planInstants_split, E0 in O. cbn [app] in O.
  rewrite planInstants_split.
  unfold planInstant. cbn [Task.apply Task.publishAt Task.columnId
    detachData Task.setPublishAt Task.setColumnId Task.assign].
  rewrite P. cbn [app].
  intros N. apply NoDup_remove_2 in N. contradiction.
Qed.

Lemma X6_explicit_time_can_double_book_witness :
  planDistinct exClash /\
  exists s',
    schedulePublication exEnv (mkInput "c" (Some true)) exClash
    = (Returned (exTask "c" (Some "C"%string) (Some 1704088800000)), s') /\
    ~ planDistinct s'.
Proof.
  split.
  - unfold planDistinct. cbn. repeat constructor. cbn. tauto.
  - exact (X6_explicit_time_can_double_book
             exEnv (mkInput "c" (Some true)) exClash "u1" "C"
             (exTask "c" (Some "C"%string) (Some 1704088800000)) 1704088800000
             eq_refl eq_refl eq_refl eq_refl eq_refl eq_refl).
Defined.

(** X7.  Scheduling is stable under repetition: once the slot search has
    given a task its time, any later call for that task (another day,
    another caller, any removeFromKanban) succeeds, returns that time and
    leaves it stored; the task is never moved to another slot. *)
Theorem X7_repeated_call_keeps_the_slot
        (env env2 : Env) (input input2 : Input) (s s' : Db)
        (task t' : Task.t) (uid2 : string) :
  stored s (taskId input) = Some task ->
  Task.publishAt task = None ->
  schedulePublication env input s = (Returned t', s') ->
  auth env2 = Some uid2 ->
  taskId input2 = taskId input ->
  exists d t2 s2 x,
    Task.publishAt t' = Some d /\
    schedulePublication env2 input2 s' = (Returned t2, s2) /\
    Task.publishAt t2 = Some d /\
    stored s2 (taskId input2) = Some x /\ Task.publishAt x = Some d.
Proof.
  intros E P R H2 Hid.
  destruct (auth env) as [uid|] eqn:H;
    [|rewrite (schedule_unauth env input s H) in R; discriminate].
  destruct (schedule_search env input s uid task H E P)
    as [[_ Heq] | (k & h & F & Heq)]; rewrite Heq in R; [discriminate|].
  injection R as <- <-.
  set (d := slotInstant env k h).
  set (dat := slotData input task d).
  assert (E' : stored (written env s (taskId input) dat task) (taskId input2)
               = Some (Task.apply (dbNow env) dat task))
    by (rewrite Hid; now apply stored_written_same).
  pose proof (schedule_explicit env2 input2 _ uid2 _ d H2 E' eq_refl) as R2.
  destruct (truthy (removeFromKanban input2)).
  - exists d. eexists. eexists. eexists.
    split; [reflexivity|]. split; [exact R2|]. split; [reflexivity|].
    split; [apply stored_written_same; exact E' | reflexivity].
  - exists d. eexists. eexists. eexists.
    split; [reflexivity|]. split; [exact R2|]. split; [reflexivity|].
    split; [rewrite stored_afterUser; exact E' | reflexivity].
Qed.

Lemma X7_repeated_call_keeps_the_slot_witness :
  exists d t2 s2,
    schedulePublication exSaturday (mkInput "a" (Some true))
      (snd (schedulePublication exEnv (mkInput "a" None) exPlan))
    = (Returned t2, s2) /\
    Task.publishAt t2 = Some d /\
    JsDate.getDay (LocalTZA exEnv) d = 1.
Proof.
  destruct (schedulePublication exEnv (mkInput "a" None) exPlan)
    as [[t'|e] s'] eqn:R; [|vm_compute in R; discriminate].
  destruct (X7_repeated_call_keeps_the_slot
              exEnv exSaturday (mkInput "a" None) (mkInput "a" (Some true))
              exPlan s' (exTask "a" (Some "C"%string) None) t' "u1"%string
              eq_refl eq_refl R eq_refl eq_refl)
    as (d & t2 & s2 & x & Hd & R2 & Hp2 & _).
  exists d, t2, s2. split; [exact R2|]. split; [exact Hp2|].
  vm_compute in R. injection R as <- _. cbn in Hd. injection Hd as <-.
  reflexivity.
Defined.

(* ------------------------------------------------------------------ *)
(** ** The content-plan listing *)

Lemma createUser_is_operation (env : Env) (role : option string) (uid : string) :
  auth env = Some uid ->
  createUserIfNotExists env role = createUserOperation env uid role.
Proof. intros H. unfold createUserIfNotExists. now rewrite H. Qed.

(** A check that follows a check at the same clock reading is answered
    from the cache. *)
Lemma check_twice (now : Z) (probe probe' : Health.Probe) (st : Health.State) :
  Health.checkDatabaseHealth now probe'
    (snd (Health.checkDatabaseHealth now probe st))
  = (fst (Health.checkDatabaseHealth now probe st),
     snd (Health.checkDatabaseHealth now probe st)).
Proof.
  destruct (checked_status now probe st) as [Hk Hh].
  assert (Hl : now - Health.lastHealthCheck
                       (snd (Health.checkDatabaseHealth now probe st))
               < Health.HEALTH_CHECK_INTERVAL
               \/ snd (Health.checkDatabaseHealth now probe st) = st).
  { unfold Health.checkDatabaseHealth.
    destruct ((now - Health.lastHealthCheck st <? Health.HEALTH_CHECK_INTERVAL)
              && negb (Health.Status_eqb (Health.dbHealthStatus st) Health.unknown));
      [now right|].
    left. destruct probe; cbn; unfold Health.HEALTH_CHECK_INTERVAL; lia. }
  rewrite Hh.
  set (st' := snd (Health.checkDatabaseHealth now probe st)) in *.
  assert (C : (now - Health.lastHealthCheck st' <? Health.HEALTH_CHECK_INTERVAL)
              && negb (Health.Status_eqb (Health.dbHealthStatus st') Health.unknown)
              = true).
  { destruct Hl as [Hl | Hl].
    - apply andb_true_intro. split; [now apply Z.ltb_lt|].
      destruct (Health.dbHealthStatus st'); [contradiction| | |]; reflexivity.
    - unfold st' at 1 2. unfold Health.checkDatabaseHealth.
      destruct ((now - Health.lastHealthCheck st <? Health.HEALTH_CHECK_INTERVAL)
                && negb (Health.Status_eqb (Health.dbHealthStatus st) Health.unknown))
        eqn:C0; [exact C0|].
      exfalso. unfold st', Health.checkDatabaseHealth in Hl. rewrite C0 in Hl.
      rewrite <- Hl in C0.
      destruct probe; cbn in C0.
      + replace (now - now) with 0 in C0 by lia. discriminate.
      + replace (now - now) with 0 in C0 by lia.
        destruct (Health.isMissing message); discriminate. }
  unfold Health.checkDatabaseHealth at 1. rewrite C. reflexivity.
Qed.

Lemma insert_perm (x : Task.t) (l : list Task.t) :
  Permutation (x :: l) (insertByPublishAt x l).
Proof.
  induction l as [|y l IH]; cbn; [reflexivity|].
  destruct (publishAt_leb x y); [reflexivity|].
  rewrite perm_swap. now constructor.
Qed.

Lemma sort_perm (l : list Task.t) : Permutation l (sortByPublishAt l).
Proof.
  induction l as [|x l IH]; cbn; [constructor|].
  rewrite <- insert_perm. now constructor.
Qed.




Lemma safe_healthy {A : Type} (now : Z) (probe : Health.Probe) (operation : M A)
      (fallbackValue : A) (st : Health.State) (s : Db) :
  fst (Health.checkDatabaseHealth now probe st) = true ->
  Health.safeDatabaseOperation now probe operation fallbackValue (st, s)
  = match operation s with
    | (Returned a, s') =>
        (a, (snd (Health.checkDatabaseHealth now probe st), s'))
    | (Thrown _, s') =>
        (fallbackValue, (snd (Health.checkDatabaseHealth now probe st), s'))
    end.
Proof.
  intros Hc. unfold Health.safeDatabaseOperation. cbn [fst snd].
  destruct (Health.checkDatabaseHealth now probe st) as [ok st'].
  cbn [fst snd] in *. subst ok. reflexivity.
Qed.

Lemma safe_unhealthy {A : Type} (now : Z) (probe : Health.Probe) (operation : M A)
      (fallbackValue : A) (st : Health.State) (s : Db) :
  fst (Health.checkDatabaseHealth now probe st) = false ->
  Health.safeDatabaseOperation now probe operation fallbackValue (st, s)
  = (fallbackValue, (snd (Health.checkDatabaseHealth now probe st), s)).
Proof.
  intros Hc. unfold Health.safeDatabaseOperation. cbn [fst snd].
  destruct (Health.checkDatabaseHealth now probe st) as [ok st'].
  cbn [fst snd] in *. subst ok. reflexivity.
Qed.



(** The listing when the caller is known and the health check passes. *)
Lemma listContentPlanTasks_healthy
      (env : Env) (probe : Health.Probe) (st : Health.State) (s : Db)
      (uid : string) :
  auth env = Some uid ->
  fst (Health.checkDatabaseHealth (now env) probe st) = true ->
  listContentPlanTasks env probe (st, s)
  = (sortByPublishAt (filter inPlan (tasks s)),
     (snd (Health.checkDatabaseHealth (now env) probe st), afterUser env s)).
Proof.
  intros H Hc. unfold listContentPlanTasks, Guarded.createUserIfNotExists.
  rewrite H, (safe_healthy _ _ _ _ _ _ Hc).
  assert (Ea : afterUser env s = snd (createUserOperation env uid None s)).
  { unfold afterUser. now rewrite (createUser_is_operation env None uid H). }
  destruct (createUser_auth env None s uid H) as (u & s1 & Eu & Ht & _).
  rewrite (createUser_is_operation env None uid H) in Eu.
  rewrite Ea, Eu. cbn [snd].
  pose proof (check_twice (now env) probe probe st) as T.
  rewrite safe_healthy by (now rewrite T).
  rewrite T. cbn [snd]. unfold findManyInPlan. now rewrite Ht.
Qed.

(** The listing when the health check fails. *)
Lemma listContentPlanTasks_unhealthy
      (env : Env) (probe : Health.Probe) (st : Health.State) (s : Db)
      (uid : string) :
  auth env = Some uid ->
  fst (Health.checkDatabaseHealth (now env) probe st) = false ->
  listContentPlanTasks env probe (st, s)
  = ([sampleContentTask env],
     (snd (Health.checkDatabaseHealth (now env) probe st), s)).
Proof.
  intros H Hc. unfold listContentPlanTasks, Guarded.createUserIfNotExists.
  rewrite H, (safe_unhealthy _ _ _ _ _ _ Hc).
  pose proof (check_twice (now env) probe probe st) as T.
  rewrite safe_unhealthy by (now rewrite T).
  now rewrite T.
Qed.


Lemma listing_membership
      (env : Env) (probe : Health.Probe) (st : Health.State) (s : Db)
      (uid : string) :
  auth env = Some uid ->
  fst (Health.checkDatabaseHealth (now env) probe st) = true ->
  forall x, In x (fst (listContentPlanTasks env probe (st, s))) <->
            In x (tasks s) /\ Task.publishAt x <> None /\ Task.columnId x = None.
Proof.
  intros H Hc. rewrite (listContentPlanTasks_healthy env probe st s uid H Hc).
  cbn [fst]. intros x. split.
  - intros Hx. apply (Permutation_in _ (Permutation_sym (sort_perm _))) in Hx.
    apply filter_In in Hx. destruct Hx as [Hx Hp]. split; [exact Hx|].
    unfold inPlan in Hp. destruct (Task.publishAt x); [|discriminate].
    destruct (Task.columnId x); [discriminate|]. split; [discriminate|reflexivity].
  - intros (Hx & Hp & Hcol). apply (Permutation_in _ (sort_perm _)).
    apply filter_In. split; [exact Hx|]. unfold inPlan. rewrite Hcol.
    destruct (Task.publishAt x); [reflexivity | contradiction].
Qed.



Lemma map_id_replace (i : string) (x' : Task.t) (l : list Task.t) :
  Task.id x' = i -> map Task.id (replaceTask i x' l) = map Task.id l.
Proof.
  intros Hid. induction l as [|y l IH]; cbn; [reflexivity|].
  destruct (String.eqb (Task.id y) i) eqn:E; cbn.
  - apply String.eqb_eq in E. congruence.
  - now rewrite IH.
Qed.

Lemma unique_find (l : list Task.t) (y : Task.t) :
  NoDup (map Task.id l) -> In y l ->
  find (fun x => String.eqb (Task.id x) (Task.id y)) l = Some y.
Proof.
  induction l as [|z l IH]; cbn; [tauto|].
  intros N Hin. inversion N as [|? ? Hz Hl]; subst.
  destruct (String.eqb (Task.id z) (Task.id y)) eqn:E.
  - destruct Hin as [-> | Hin]; [reflexivity|].
    exfalso. apply Hz. apply String.eqb_eq in E. rewrite E.
    now apply in_map.
  - destruct Hin as [-> | Hin]; [rewrite String.eqb_refl in E; discriminate|].
    now apply IH.
Qed.

Lemma uniqueIds_written (env : Env) (s : Db) (i : string) (d : Task.data)
      (x : Task.t) :
  stored s i = Some x -> uniqueIds s -> uniqueIds (written env s i d x).
Proof.
  intros E U. unfold uniqueIds, written in *; cbn [tasks].
  rewrite map_id_replace; [exact U|]. cbn. now apply (stored_id s).
Qed.

Lemma uniqueIds_afterUser (env : Env) (s : Db) :
  uniqueIds s -> uniqueIds (afterUser env s).
Proof. unfold uniqueIds. now rewrite tasks_afterUser. Qed.

(** After a successful call the addressed row is stored, has a publishAt,
    and its column is the one removeFromKanban asks for. *)
Lemma schedule_success_row
      (env : Env) (input : Input) (s s' : Db) (task t' : Task.t) :
  stored s (taskId input) = Some task ->
  schedulePublication env input s = (Returned t', s') ->
  exists x,
    stored s' (taskId input) = Some x /\
    Task.publishAt x <> None /\
    Task.columnId x
    = (if truthy (removeFromKanban input) then None else Task.columnId task) /\
    (uniqueIds s -> uniqueIds s').
Proof.
  intros E R.
  destruct (auth env) as [uid|] eqn:H;
    [|rewrite (schedule_unauth env input s H) in R; discriminate].
  destruct (Task.publishAt task) as [p|] eqn:P.
  - rewrite (schedule_explicit env input s uid task p H E P) in R.
    injection R as <- <-.
    destruct (truthy (removeFromKanban input)).
    + eexists. split; [now apply stored_written_same|].
      split; [cbn; rewrite P; discriminate|]. split; [reflexivity|].
      now apply uniqueIds_written.
    + exists task. split; [now rewrite stored_afterUser|].
      split; [rewrite P; discriminate|]. split; [reflexivity|].
      apply uniqueIds_afterUser.
  - destruct (schedule_search env input s uid task H E P)
      as [[_ Heq] | (k & h & F & Heq)]; rewrite Heq in R; [discriminate|].
    injection R as <- <-.
    eexists. split; [now apply stored_written_same|].
    split; [discriminate|]. split; [reflexivity|].
    now apply uniqueIds_written.
Qed.

(** X9.  What the content plan shows after a successful scheduling call:
    with removeFromKanban = true the task is listed; with removeFromKanban
    false or omitted a task that was on a board column is not listed,
    although it now carries a publishAt (ids being unique). *)
Theorem X9_listing_after_scheduling
        (env env2 : Env) (input : Input) (s s' : Db) (task t' : Task.t)
        (probe : Health.Probe) (st : Health.State) (uid2 : string) :
  stored s (taskId input) = Some task ->
  schedulePublication env input s = (Returned t', s') ->
  auth env2 = Some uid2 ->
  fst (Health.checkDatabaseHealth (now env2) probe st) = true ->
  (removeFromKanban input = Some true ->
   exists x, In x (fst (listContentPlanTasks env2 probe (st, s'))) /\
             Task.id x = taskId input /\ stored s' (taskId input) = Some x) /\
  (removeFromKanban input <> Some true -> Task.columnId task <> None ->
   uniqueIds s ->
   forall y, In y (fst (listContentPlanTasks env2 probe (st, s'))) ->
             Task.id y <> taskId input).
Proof.
  intros E R H2 Hc.
  destruct (schedule_success_row env input s s' task t' E R)
    as (x & Hx & Hp & Hcol & Hu).
  pose proof (listing_membership env2 probe st s' uid2 H2 Hc) as Hin.
  split.
  - intros Rk. exists x. rewrite Rk in Hcol. cbn in Hcol.
    split; [|split; [now apply (stored_id s') | exact Hx]].
    apply Hin. split; [now apply (stored_In s' (taskId input))|]. now split.
  - intros Rk Hboard U y Hy Hid.
    apply Hin in Hy. destruct Hy as (Hy & _ & Hyc).
    pose proof (unique_find (tasks s') y (Hu U) Hy) as Hf.
    rewrite Hid in Hf. unfold stored in Hx. rewrite Hx in Hf.
    injection Hf as <-.
    rewrite Hyc in Hcol.
    destruct (removeFromKanban input) as [[|]|]; cbn in Hcol;
      congruence.
Qed.

Lemma X9_listing_after_scheduling_witness :
  (exists x,
      In x (fst (listContentPlanTasks exEnv Health.Answered
                   (Health.initial,
                    snd (schedulePublication exEnv (mkInput "a" (Some true)) exPlan))))
      /\ Task.id x = "a"%string) /\
  (forall y,
      In y (fst (listContentPlanTasks exEnv Health.Answered
                   (Health.initial,
                    snd (schedulePublication exEnv (mkInput "a" None) exPlan)))) ->
      Task.id y <> "a"%string).
Proof.
  split.
  - destruct (schedulePublication exEnv (mkInput "a" (Some true)) exPlan)
      as [[t'|e] s'] eqn:R; [|vm_compute in R; discriminate].
    destruct (proj1 (X9_listing_after_scheduling
                       exEnv exEnv (mkInput "a" (Some true)) exPlan s'
                       (exTask "a" (Some "C"%string) None) t'
                       Health.Answered Health.initial "u1"%string
                       eq_refl R eq_refl eq_refl) eq_refl)
      as (x & Hin & Hid & _).
    exists x. split; assumption.
  - destruct (schedulePublication exEnv (mkInput "a" None) exPlan)
      as [[t'|e] s'] eqn:R; [|vm_compute in R; discriminate].
    apply (proj2 (X9_listing_after_scheduling
                    exEnv exEnv (mkInput "a" None) exPlan s'
                    (exTask "a" (Some "C"%string) None) t'
                    Health.Answered Health.initial "u1"%string
                    eq_refl R eq_refl eq_refl)).
    + discriminate.
    + discriminate.
    + unfold uniqueIds. cbn. repeat constructor; cbn; intuition discriminate.
Defined.

(** X10.  The listing never fails.  For an unauthenticated caller it is
    empty and nothing is read or written.  When the health check does not
    pass it is the single sample task dated one day after the call,
    whatever the store holds, and the store is not touched (the caller's
    user row is not created either). *)
Theorem X10_listing_fallbacks
        (env : Env) (probe : Health.Probe) (st : Health.State) (s : Db) :
  (auth env = None -> listContentPlanTasks env probe (st, s) = ([], (st, s))) /\
  (auth env <> None ->
   fst (Health.checkDatabaseHealth (now env) probe st) = false ->
   fst (listContentPlanTasks env probe (st, s)) = [sampleContentTask env] /\
   Task.publishAt (sampleContentTask env) = Some (now env + 86400000) /\
   snd (snd (listContentPlanTasks env probe (st, s))) = s).
Proof.
  split.
  - intros H. unfold listContentPlanTasks, Guarded.createUserIfNotExists.
    now rewrite H.
  - intros H Hc. destruct (auth env) as [uid|] eqn:Ha; [|contradiction].
    rewrite (listContentPlanTasks_unhealthy env probe st s uid Ha Hc).
    repeat split.
Qed.

Lemma X10_listing_fallbacks_witness :
  fst (listContentPlanTasks exEnv (Health.Failed None) (Health.initial, exPlan))
  = [sampleContentTask exEnv] /\
  listContentPlanTasks (mkEnv None 0 0 0) Health.Answered (Health.initial, exPlan)
  = ([], (Health.initial, exPlan)).
Proof.
  split.
  - apply (proj2 (X10_listing_fallbacks exEnv (Health.Failed None)
                                         Health.initial exPlan)).
    + discriminate.
    + reflexivity.
  - apply (proj1 (X10_listing_fallbacks (mkEnv None 0 0 0) Health.Answered
                                         Health.initial exPlan)).
    reflexivity.
Defined.

(* ------------------------------------------------------------------ *)
(** ** The board operations *)

Lemma gate_closed {A} (env : Env) (k : B A) (S : Store) :
  isManagerCaller env S = false ->
  managerGate env k S = (inl Unauthenticated, S) \/
  managerGate env k S = (inl ManagersOnly, S).
Proof.
  unfold isManagerCaller, managerGate, getAuth. intros H.
  destruct (auth env) as [uid|]; [right | left; reflexivity].
  unfold bindB, retB, liftDb, db.user.findUnique, throwB. cbn.
  destruct S as [b cs at_]. cbn in *.
  destruct (find _ (users b)) as [u|]; cbn; [|reflexivity].
  now rewrite H.
Qed.

Lemma gate_open {A} (env : Env) (k : B A) (S : Store) :
  isManagerCaller env S = true -> managerGate env k S = k S.
Proof.
  unfold isManagerCaller, managerGate, getAuth. intros H.
  destruct (auth env) as [uid|]; [|discriminate].
  unfold bindB, retB, liftDb, db.user.findUnique, throwB. cbn.
  destruct S as [b cs at_]. cbn in *.
  destruct (find _ (users b)) as [u|]; cbn; [|discriminate].
  now rewrite H.
Qed.

(** X11.  The manager-only operations (createColumn, updateColumn,
    deleteColumn, returnTaskToKanban, deleteContentPlanTask,
    updateUserRole) do nothing for anyone else: when the caller is not
    authenticated, has no user row, or has a role other than "MANAGER",
    each of them throws and leaves the whole store as it was. *)
Theorem X11_manager_only_operations
        (env : Env) (S : Store) (i n r newId : string) :
  isManagerCaller env S = false ->
  (exists e, createColumn env newId n S = (inl e, S)) /\
  (exists e, updateColumn env i n S = (inl e, S)) /\
  (exists e, deleteColumn env i S = (inl e, S)) /\
  (exists e, returnTaskToKanban env i S = (inl e, S)) /\
  (exists e, deleteContentPlanTask env i S = (inl e, S)) /\
  (exists e, updateUserRole env i r S = (inl e, S)).
Proof.
  intros H.
  assert (G : forall A (k : B A), exists e, managerGate env k S = (inl e, S)).
  { intros A k. destruct (gate_closed env k S H) as [-> | ->]; eauto. }
  repeat split; apply G.
Qed.

Lemma X11_manager_only_operations_witness :
  (exists e, deleteColumn exEnv "col4" exStore = (inl e, exStore)) /\
  (exists e, updateUserRole exEnv "u1" "MANAGER" exStore = (inl e, exStore)).
Proof.
  destruct (X11_manager_only_operations exEnv exStore "col4" "x" "MANAGER" "new"
                                        eq_refl)
    as (_ & _ & Hd & _).
  destruct (X11_manager_only_operations exEnv exStore "u1" "x" "MANAGER" "new"
                                        eq_refl)
    as (_ & _ & _ & _ & _ & Hu).
  split; assumption.
Defined.

Lemma highestOrderColumn_spec (l : list Column.t) :
  match highestOrderColumn l with
  | None => l = []
  | Some m => In m l /\ forall c, In c l -> Column.order c <= Column.order m
  end.
Proof.
  induction l as [|c l IH]; cbn; [reflexivity|].
  destruct (highestOrderColumn l) as [m|].
  - destruct IH as [Hin Hmax].
    destruct (Z.ltb_spec (Column.order c) (Column.order m)).
    + split; [now right|]. intros c0 [<- | Hc0]; [lia | now apply Hmax].
    + split; [now left|]. intros c0 [<- | Hc0]; [lia|].
      specialize (Hmax c0 Hc0). lia.
  - subst l. split; [now left|]. intros c0 [<- | []]. lia.
Qed.

(** X12.  createColumn, called by a manager, appends one column with the
    given name whose order is strictly greater than the order of every
    existing column (1 on an empty board); existing columns, users and
    tasks are unchanged. *)
Theorem X12_createColumn_goes_last
        (env : Env) (S : Store) (newId name : string) :
  isManagerCaller env S = true ->
  exists c,
    createColumn env newId name S
    = (inr c, mkStore (base S) (columns S ++ [c]) (attachments S)) /\
    Column.id c = newId /\ Column.name c = name /\
    (forall c0, In c0 (columns S) -> Column.order c0 < Column.order c) /\
    (columns S = [] -> Column.order c = 1).
Proof.
  intros H.
  change (createColumn env newId name)
    with (managerGate env
            (highestOrder <~ dbx.column_findFirstByOrderDesc ;;
             dbx.column_create
               (Column.mk newId name (orderOrZero highestOrder + 1)
                          (dbNow env) (dbNow env)))).
  rewrite (gate_open env _ S H).
  unfold bindB, dbx.column_findFirstByOrderDesc, dbx.column_create.
  eexists. split; [reflexivity|]. cbn [Column.id Column.name Column.order].
  split; [reflexivity|]. split; [reflexivity|].
  pose proof (highestOrderColumn_spec (columns S)) as Hs.
  destruct (highestOrderColumn (columns S)) as [m|]; cbn [orderOrZero].
  - destruct Hs as [Hin Hmax]. split.
    + intros c0 Hc0. specialize (Hmax c0 Hc0).
      destruct (Z.eqb_spec (Column.order m) 0); lia.
    + intros E. rewrite E in Hin. contradiction.
  - rewrite Hs. split; [intros c0 []|reflexivity].
Qed.

Lemma X12_createColumn_goes_last_witness :
  exists c,
    fst (createColumn exBoss "col9" "Архив" exStore) = inr c /\
    Column.order c = 5 /\
    forall c0, In c0 (columns exStore) -> Column.order c0 < Column.order c.
Proof.
  destruct (X12_createColumn_goes_last exBoss exStore "col9" "Архив" eq_refl)
    as (c & R & _ & _ & Hlast & _).
  exists c. rewrite R. split; [reflexivity|]. split; [|exact Hlast].
  vm_compute in R. injection R as <-. reflexivity.
Defined.

Lemma filter_nonempty {A : Type} (f : A -> bool) (l : list A) :
  (0 <? List.length (filter f l))%nat = true <-> exists x, In x l /\ f x = true.
Proof.
  split.
  - intros H. destruct (filter f l) as [|x r] eqn:E; [discriminate|].
    exists x. apply filter_In. rewrite E. now left.
  - intros (x & Hin & Hf).
    assert (Hx : In x (filter f l)) by (apply filter_In; now split).
    destruct (filter f l); [contradiction | reflexivity].
Qed.

(** X13.  deleteColumn, called by a manager, refuses a column that still
    holds a task and leaves the store as it is; when it succeeds, the
    column it removed had no task, so no task is left pointing to a
    deleted column, and users, tasks and attachments are unchanged. *)
Theorem X13_deleteColumn_only_when_empty
        (env : Env) (S : Store) (id : string) :
  isManagerCaller env S = true ->
  ((exists x, In x (tasks (base S)) /\ Task.columnId x = Some id) ->
   deleteColumn env id S = (inl ColumnHasTasks, S))
  /\
  (forall c S', deleteColumn env id S = (inr c, S') ->
     Column.id c = id /\ In c (columns S) /\
     S' = mkStore (base S) (removeColumn id (columns S)) (attachments S) /\
     forall x, In x (tasks (base S')) -> Task.columnId x <> Some id).
Proof.
  intros H.
  change (deleteColumn env id)
    with (managerGate env
            (tasksCount <~ dbx.task_countInColumn id ;;
             if (0 <? tasksCount)%nat then throwB ColumnHasTasks
             else dbx.column_delete id)).
  rewrite (gate_open env _ S H).
  unfold bindB, dbx.task_countInColumn, dbx.column_delete, throwB.
  set (inCol := fun x : Task.t =>
                  match Task.columnId x with
                  | Some c => String.eqb c id
                  | None => false
                  end).
  destruct (0 <? List.length (filter inCol (tasks (base S))))%nat eqn:Cnt.
  - split; [reflexivity | discriminate].
  - split.
    + intros (x & Hin & Hc). exfalso.
      assert (T : (0 <? List.length (filter inCol (tasks (base S))))%nat = true).
      { apply filter_nonempty. exists x. split; [exact Hin|].
        unfold inCol. rewrite Hc. apply String.eqb_refl. }
      congruence.
    + intros c S' R.
      destruct (find (fun c0 => String.eqb (Column.id c0) id) (columns S))
        as [c0|] eqn:E; [|discriminate].
      injection R as <- <-. apply find_some in E. destruct E as [Hin Hid].
      split; [now apply String.eqb_eq|]. split; [exact Hin|].
      split; [reflexivity|]. cbn [base tasks].
      intros x Hx Hc.
      assert (T : (0 <? List.length (filter inCol (tasks (base S))))%nat = true).
      { apply filter_nonempty. exists x. split; [exact Hx|].
        unfold inCol. rewrite Hc. apply String.eqb_refl. }
      congruence.
Qed.

Lemma X13_deleteColumn_only_when_empty_witness :
  deleteColumn exBoss "col1" exStore = (inl ColumnHasTasks, exStore) /\
  exists c S',
    deleteColumn exBoss "col4" exStore = (inr c, S') /\
    forall x, In x (tasks (base S')) -> Task.columnId x <> Some "col4"%string.
Proof.
  split.
  - apply (proj1 (X13_deleteColumn_only_when_empty exBoss exStore "col1" eq_refl)).
    exists (exTask "a" (Some "col1"%string) None). split; [now left | reflexivity].
  - destruct (deleteColumn exBoss "col4" exStore) as [[e|c] S'] eqn:R;
      [vm_compute in R; discriminate|].
    exists c, S'. split; [reflexivity|].
    apply (proj2 (X13_deleteColumn_only_when_empty exBoss exStore "col4" eq_refl)
                 c S' R).
Defined.

(** X14.  _seedInitialData is idempotent.  On a board that has a column it
    returns at once and writes nothing.  On a board without columns it
    creates exactly the four default columns with orders 1 to 4; a second
    run then changes nothing, and the column "Готово к публикации" that
    returnTaskToKanban looks up by name exists. *)
Theorem X14_seed_is_idempotent
        (env env' : Env) (S : Store) (i1 i2 i3 i4 j1 j2 j3 j4 : string) :
  (columns S <> [] -> _seedInitialData env i1 i2 i3 i4 S = (inr None, S)) /\
  (columns S = [] ->
   exists cols S',
     _seedInitialData env i1 i2 i3 i4 S = (inr (Some cols), S') /\
     S' = mkStore (base S) cols (attachments S) /\
     map Column.id cols = [i1; i2; i3; i4] /\
     map Column.order cols = [1; 2; 3; 4] /\
     map Column.name cols
     = ["Задачи"%string; "В работе"%string; "Готово для проверки"%string;
        "Готово к публикации"%string] /\
     _seedInitialData env' j1 j2 j3 j4 S' = (inr None, S') /\
     exists c, fst (dbx.column_findFirstByName readyColumnName S') = inr (Some c)
               /\ Column.id c = i4).
Proof.
  destruct S as [b cs at_]. cbn [columns base attachments]. split.
  - intros Hne. unfold _seedInitialData, bindB, dbx.column_count, retB.
    cbn [columns]. destruct cs; [contradiction | reflexivity].
  - intros ->. eexists. eexists.
    split; [reflexivity|]. split; [reflexivity|].
    split; [reflexivity|]. split; [reflexivity|]. split; [reflexivity|].
    split; [reflexivity|]. eexists. split; reflexivity.
Qed.

Lemma X14_seed_is_idempotent_witness :
  _seedInitialData exBoss "n1" "n2" "n3" "n4" exStore = (inr None, exStore) /\
  exists cols S',
    _seedInitialData exBoss "n1" "n2" "n3" "n4" (mkStore exBoard [] [])
    = (inr (Some cols), S') /\
    _seedInitialData exBoss "m1" "m2" "m3" "m4" S' = (inr None, S').
Proof.
  split.
  - apply (proj1 (X14_seed_is_idempotent exBoss exBoss exStore
                    "n1" "n2" "n3" "n4" "m1" "m2" "m3" "m4")).
    discriminate.
  - destruct (proj2 (X14_seed_is_idempotent exBoss exBoss (mkStore exBoard [] [])
                       "n1" "n2" "n3" "n4" "m1" "m2" "m3" "m4") eq_refl)
      as (cols & S' & R & _ & _ & _ & _ & R2 & _).
    exists cols, S'. split; assumption.
Defined.

Lemma replace_replace (i : string) (x' x'' : Task.t) (l : list Task.t) :
  Task.id x' = i ->
  replaceTask i x'' (replaceTask i x' l) = replaceTask i x'' l.
Proof.
  intros Hid. induction l as [|y l IH]; cbn; [reflexivity|].
  destruct (String.eqb (Task.id y) i) eqn:E; cbn.
  - rewrite Hid, String.eqb_refl. reflexivity.
  - rewrite E. now rewrite IH.
Qed.

(** What a manager's returnTaskToKanban does when the task and the
    "ready" column exist. *)
Lemma returnTaskToKanban_ok
      (env : Env) (S : Store) (tid : string) (x : Task.t) (col : Column.t) :
  isManagerCaller env S = true ->
  stored (base S) tid = Some x ->
  find (fun c => String.eqb (Column.name c) readyColumnName) (columns S) = Some col ->
  returnTaskToKanban env tid S
  = (inr (Task.apply (dbNow env) (Task.mkData None (Some (Some (Column.id col)))) x),
     mkStore
       (mkDb (users (base S))
             (replaceTask tid
                (Task.apply (dbNow env)
                   (Task.mkData None (Some (Some (Column.id col)))) x)
                (tasks (base S)))
             ((tid, Task.mkData None (Some (Some (Column.id col))))
                :: taskUpdates (base S)))
       (columns S) (attachments S)).
Proof.
  intros H E C.
  change (returnTaskToKanban env tid)
    with (managerGate env
            (task <~ liftDb (db.task.findUnique tid) ;;
             match task with
             | None => throwB (Sched NotFound)
             | Some _ =>
                 readyForPublicationColumn <~
                   dbx.column_findFirstByName readyColumnName ;;
                 match readyForPublicationColumn with
                 | None => throwB ReadyColumnNotFound
                 | Some col =>
                     liftDb (db.task.update (dbNow env) tid
                               (Task.mkData None (Some (Some (Column.id col)))))
                 end
             end)).
  rewrite (gate_open env _ S H).
  destruct S as [b cs at_]. cbn [base columns attachments] in *.
  unfold stored in E.
  unfold bindB, liftDb, db.task.findUnique, dbx.column_findFirstByName,
    db.task.update, throwB. cbn [base columns attachments].
  rewrite E. cbn [base columns attachments]. rewrite C.
  cbn [base columns attachments]. rewrite E. reflexivity.
Qed.

(** X15.  returnTaskToKanban, called by a manager, puts the task on the
    column named "Готово к публикации" and keeps its publishAt; the task
    thereby leaves the content plan, and every other row, column and
    attachment is untouched.  If the task does not exist, or no column
    has that name, it throws and changes nothing. *)
Theorem X15_returnTaskToKanban
        (env : Env) (S : Store) (tid : string) :
  isManagerCaller env S = true ->
  (stored (base S) tid = None ->
   returnTaskToKanban env tid S = (inl (Sched NotFound), S)) /\
  (stored (base S) tid <> None ->
   find (fun c => String.eqb (Column.name c) readyColumnName) (columns S) = None ->
   returnTaskToKanban env tid S = (inl ReadyColumnNotFound, S)) /\
  (forall x col,
     stored (base S) tid = Some x ->
     find (fun c => String.eqb (Column.name c) readyColumnName) (columns S)
     = Some col ->
     exists x' S' l1 l2,
       returnTaskToKanban env tid S = (inr x', S') /\
       Task.columnId x' = Some (Column.id col) /\
       Task.publishAt x' = Task.publishAt x /\
       columns S' = columns S /\ attachments S' = attachments S /\
       tasks (base S) = l1 ++ x :: l2 /\
       tasks (base S') = l1 ++ x' :: l2 /\
       planInstants (tasks (base S')) = planInstants l1 ++ planInstants l2).
Proof.
  intros H. split; [|split].
  - intros E.
    change (returnTaskToKanban env tid)
      with (managerGate env
              (task <~ liftDb (db.task.findUnique tid) ;;
               match task with
               | None => throwB (Sched NotFound)
               | Some _ =>
                   readyForPublicationColumn <~
                     dbx.column_findFirstByName readyColumnName ;;
                   match readyForPublicationColumn with
                   | None => throwB ReadyColumnNotFound
                   | Some col =>
                       liftDb (db.task.update (dbNow env) tid
                                 (Task.mkData None (Some (Some (Column.id col)))))
                   end
               end)).
    rewrite (gate_open env _ S H).
    destruct S as [b cs at_]. cbn [base] in E. unfold stored in E.
    unfold bindB, liftDb, db.task.findUnique, throwB. cbn [base columns attachments].
    now rewrite E.
  - intros E C.
    change (returnTaskToKanban env tid)
      with (managerGate env
              (task <~ liftDb (db.task.findUnique tid) ;;
               match task with
               | None => throwB (Sched NotFound)
               | Some _ =>
                   readyForPublicationColumn <~
                     dbx.column_findFirstByName readyColumnName ;;
                   match readyForPublicationColumn with
                   | None => throwB ReadyColumnNotFound
                   | Some col =>
                       liftDb (db.task.update (dbNow env) tid
                                 (Task.mkData None (Some (Some (Column.id col)))))
                   end
               end)).
    rewrite (gate_open env _ S H).
    destruct S as [b cs at_]. cbn [base columns] in *. unfold stored in E.
    unfold bindB, liftDb, db.task.findUnique, dbx.column_findFirstByName, throwB.
    cbn [base columns attachments].
    destruct (find _ (tasks b)); [|contradiction].
    cbn [base columns attachments]. now rewrite C.
  - intros x col E C.
    rewrite (returnTaskToKanban_ok env S tid x col H E C).
    destruct (replace_split tid x
                (Task.apply (dbNow env)
                   (Task.mkData None (Some (Some (Column.id col)))) x)
                (tasks (base S)) E) as (l1 & l2 & Hl & Hr).
    eexists. eexists. exists l1, l2.
    split; [reflexivity|]. cbn [base tasks columns attachments].
    split; [reflexivity|]. split; [reflexivity|].
    split; [reflexivity|]. split; [reflexivity|].
    split; [exact Hl|]. split; [exact Hr|].
    rewrite Hr, planInstants_split. unfold planInstant.
    cbn [Task.apply Task.publishAt Task.columnId Task.setPublishAt
         Task.setColumnId Task.assign].
    destruct (Task.publishAt x); reflexivity.
Qed.

Lemma X15_returnTaskToKanban_witness :
  returnTaskToKanban exBoss "zz" exStore = (inl (Sched NotFound), exStore) /\
  exists x' S',
    returnTaskToKanban exBoss "a" exStore = (inr x', S') /\
    Task.columnId x' = Some "col4"%string.
Proof.
  destruct (X15_returnTaskToKanban exBoss exStore "zz" eq_refl) as (Hnf & _ & _).
  destruct (X15_returnTaskToKanban exBoss exStore "a" eq_refl) as (_ & _ & Hok).
  split; [apply Hnf; reflexivity|].
  destruct (Hok (exTask "a" (Some "col1"%string) None)
                (Column.mk "col4" "Готово к публикации" 4 0 0) eq_refl eq_refl)
    as (x' & S' & l1 & l2 & R & Hc & _).
  exists x', S'. split; assumption.
Defined.

(** X16.  Scheduling into the content plan and returning to the board
    compose as follows: after a slot search with removeFromKanban = true
    the task occupies its slot; after a manager's returnTaskToKanban the
    task sits on the "ready" column, still carries the assigned publishAt,
    and the slot is free again for the next search. *)
Theorem X16_returning_frees_the_slot
        (env env2 : Env) (input : Input) (s s' : Db) (task t' : Task.t)
        (S : Store) (col : Column.t) :
  stored s (taskId input) = Some task ->
  Task.publishAt task = None ->
  removeFromKanban input = Some true ->
  schedulePublication env input s = (Returned t', s') ->
  base S = s' ->
  isManagerCaller env2 S = true ->
  find (fun c => String.eqb (Column.name c) readyColumnName) (columns S) = Some col ->
  exists d x S'',
    Task.publishAt t' = Some d /\ occupied s' d = true /\
    returnTaskToKanban env2 (taskId input) S = (inr x, S'') /\
    Task.publishAt x = Some d /\ Task.columnId x = Some (Column.id col) /\
    occupied (base S'') d = false.
Proof.
  intros E P Rk R HS H2 C.
  destruct (auth env) as [uid|] eqn:H;
    [|rewrite (schedule_unauth env input s H) in R; discriminate].
  destruct (schedule_search env input s uid task H E P)
    as [[_ Heq] | (k & h & F & Heq)]; rewrite Heq in R; [discriminate|].
  injection R as <- <-.
  destruct F as (_ & _ & _ & Hfree & _).
  set (d := slotInstant env k h) in *.
  set (t1 := Task.apply (dbNow env) (slotData input task d) task) in *.
  assert (E1 : stored (base S) (taskId input) = Some t1)
    by (rewrite HS; now apply stored_written_same).
  rewrite (returnTaskToKanban_ok env2 S (taskId input) t1 col H2 E1 C).
  exists d. eexists. eexists.
  split; [reflexivity|].
  split.
  { apply occupied_written_new; [exact E | | reflexivity].
    unfold t1. rewrite columnId_slotData, Rk. reflexivity. }
  split; [reflexivity|]. split; [reflexivity|]. split; [reflexivity|].
  cbn [base]. apply occupied_false_iff. cbn [tasks].
  rewrite HS. unfold written; cbn [tasks].
  rewrite replace_replace by (unfold t1; cbn; now apply (stored_id s)).
  intros y Hy Hc Hp. apply In_replace in Hy. destruct Hy as [-> | Hy].
  - cbn in Hc. discriminate.
  - rewrite occupied_false_iff in Hfree. exact (Hfree y Hy Hc Hp).
Qed.

Lemma X16_returning_frees_the_slot_witness :
  exists d x S'',
    occupied (snd (schedulePublication exEnv (mkInput "a" (Some true)) exPlan)) d
    = true /\
    returnTaskToKanban exBoss "a"
      (mkStore (snd (schedulePublication exBoss (mkInput "a" (Some true))
                       (mkDb (users (base exStore)) (tasks exPlan) [])))
               (columns exStore) [])
    = (inr x, S'') /\
    Task.publishAt x = Some d /\ occupied (base S'') d = false.
Proof.
  destruct (schedulePublication exBoss (mkInput "a" (Some true))
              (mkDb (users (base exStore)) (tasks exPlan) []))
    as [[t'|e] s'] eqn:R; [|vm_compute in R; discriminate].
  destruct (X16_returning_frees_the_slot
              exBoss exBoss (mkInput "a" (Some true))
              (mkDb (users (base exStore)) (tasks exPlan) []) s'
              (exTask "a" (Some "C"%string) None) t'
              (mkStore s' (columns exStore) [])
              (Column.mk "col4" "Готово к публикации" 4 0 0)
              eq_refl eq_refl eq_refl R eq_refl)
    as (d & x & S'' & Hd & Ho & Rr & Hp & _ & Hfree).
  - vm_compute in R. injection R as _ <-. reflexivity.
  - reflexivity.
  - exists d, x, S''. cbn [snd]. split; [|split; [exact Rr | split; assumption]].
    vm_compute in R. injection R as <- _. cbn in Hd. injection Hd as <-.
    reflexivity.
Defined.

Lemma find_removeTask_other (i j : string) (l : list Task.t) :
  j <> i ->
  find (fun y => String.eqb (Task.id y) j) (removeTask i l) =
  find (fun y => String.eqb (Task.id y) j) l.
Proof.
  intros Hne. induction l as [|y l IH]; cbn; [reflexivity|].
  destruct (String.eqb (Task.id y) i) eqn:E; cbn.
  - apply String.eqb_eq in E.
    assert (E2 : String.eqb (Task.id y) j = false)
      by (apply String.eqb_neq; congruence).
    now rewrite E2.
  - destruct (String.eqb (Task.id y) j); [reflexivity | exact IH].
Qed.

Lemma find_removeTask_same (i : string) (l : list Task.t) :
  NoDup (map Task.id l) ->
  find (fun y => String.eqb (Task.id y) i) (removeTask i l) = None.
Proof.
  induction l as [|y l IH]; cbn; [reflexivity|].
  intros N. inversion N as [|? ? Hy Hl]; subst.
  destruct (String.eqb (Task.id y) i) eqn:E; cbn.
  - apply String.eqb_eq in E. subst i.
    destruct (find _ l) as [z|] eqn:F; [|reflexivity].
    exfalso. apply find_some in F. destruct F as [Hz Hid].
    apply String.eqb_eq in Hid. apply Hy. rewrite <- Hid. now apply in_map.
  - rewrite E. now apply IH.
Qed.

(** X17.  deleteTask, for an authenticated caller: an id that does not
    resolve gives NotFound and no row or attachment is removed; otherwise
    the row is returned and removed, its attachments are removed with it
    and no other attachment is, every other task stays stored as it was,
    and (ids being unique) the id no longer resolves. *)
Theorem X17_deleteTask
        (env : Env) (S : Store) (id uid : string) :
  auth env = Some uid ->
  (stored (base S) id = None ->
   deleteTask env id S
   = (inl (Sched NotFound),
      mkStore (afterUser env (base S)) (columns S) (attachments S)))
  /\
  (forall x, stored (base S) id = Some x ->
     exists S',
       deleteTask env id S = (inr x, S') /\
       tasks (base S') = removeTask id (tasks (base S)) /\
       columns S' = columns S /\
       (forall a, In a (attachments S') <->
                  In a (attachments S) /\ Attachment.taskId a <> id) /\
       (forall j, j <> id -> stored (base S') j = stored (base S) j) /\
       (uniqueIds (base S) -> stored (base S') id = None)).
Proof.
  intros H.
  destruct (createUser_auth env None (base S) uid H) as (u & s1 & Eu & Ht & Hu).
  assert (Ea : afterUser env (base S) = s1) by (unfold afterUser; now rewrite Eu).
  split.
  - intros E. unfold deleteTask, bindB, liftDb at 1. rewrite Eu.
    unfold liftDb, db.task.findUnique, throwB. cbn [base columns attachments].
    unfold stored in E. rewrite Ht, E. now rewrite Ea.
  - intros x E. unfold deleteTask, bindB, liftDb at 1. rewrite Eu.
    unfold liftDb, db.task.findUnique, dbx.task_delete.
    cbn [base columns attachments].
    unfold stored in E. rewrite Ht, E. cbn [base columns attachments].
    rewrite Ht, E.
    eexists. split; [reflexivity|]. cbn [base tasks columns attachments].
    split; [reflexivity|]. split; [reflexivity|].
    split; [|split].
    + intros a. rewrite filter_In. split; intros [Ha Hb]; (split; [exact Ha|]).
      * intros Hid. rewrite Hid, String.eqb_refl in Hb. discriminate.
      * destruct (String.eqb_spec (Attachment.taskId a) id);
          [contradiction | reflexivity].
    + intros j Hj. unfold stored; cbn [tasks]. now apply find_removeTask_other.
    + intros U. unfold stored; cbn [tasks]. now apply find_removeTask_same.
Qed.

Lemma X17_deleteTask_witness :
  fst (deleteTask exEnv "zz" exStore) = inl (Sched NotFound) /\
  exists S',
    deleteTask exEnv "a" exStore = (inr (exTask "a" (Some "col1"%string) None), S')
    /\ attachments S' = [] /\ stored (base S') "a" = None.
Proof.
  destruct (X17_deleteTask exEnv exStore "zz" "u1" eq_refl) as [Hnf _].
  destruct (X17_deleteTask exEnv exStore "a" "u1" eq_refl) as [_ Hok].
  split; [rewrite Hnf; reflexivity|].
  destruct (Hok (exTask "a" (Some "col1"%string) None) eq_refl)
    as (S' & R & _ & _ & _ & _ & Hgone).
  exists S'. split; [exact R|]. split.
  - vm_compute in R. injection R as <-. reflexivity.
  - apply Hgone. unfold uniqueIds. cbn. repeat constructor. cbn. tauto.
Defined.

(** X18.  deleteAttachment removes an attachment only for its uploader or
    for a manager: any other authenticated caller gets NotPermitted and
    the store is unchanged; for the uploader or a manager the attachment
    is removed and nothing else is touched; an unknown id gives
    AttachmentNotFound. *)
Theorem X18_deleteAttachment_permission
        (env : Env) (S : Store) (id uid : string) :
  auth env = Some uid ->
  (find (fun a => String.eqb (Attachment.id a) id) (attachments S) = None ->
   deleteAttachment env id S = (inl AttachmentNotFound, S))
  /\
  (forall a,
     find (fun a => String.eqb (Attachment.id a) id) (attachments S) = Some a ->
     (Attachment.uploaderId a <> uid /\ isManagerCaller env S = false ->
      deleteAttachment env id S = (inl NotPermitted, S)) /\
     (Attachment.uploaderId a = uid \/ isManagerCaller env S = true ->
      deleteAttachment env id S
      = (inr tt,
         mkStore (base S) (columns S) (removeAttachment id (attachments S))))).
Proof.
  intros H. destruct S as [b cs ats]. cbn [attachments base columns].
  unfold deleteAttachment, getAuth, isManagerCaller. rewrite H.
  unfold bindB, retB, dbx.attachment_findUnique, liftDb, db.user.findUnique,
    dbx.attachment_delete, throwB, notManager.
  cbn [attachments base columns]. split.
  - intros E. now rewrite E.
  - intros a E. rewrite E. cbn [attachments base columns].
    destruct (String.eqb_spec (Attachment.uploaderId a) uid) as [Hu | Hu];
      cbn [negb andb].
    + split; [intros [N _]; contradiction|]. intros _.
      cbn [attachments base columns]. now rewrite E.
    + destruct (find (fun u => String.eqb (User.id u) uid) (users b)) as [u|].
      * destruct (String.eqb (User.role u) "MANAGER"); cbn [negb].
        -- split; [intros [_ N]; discriminate|]. intros _.
           cbn [attachments base columns]. now rewrite E.
        -- split; [reflexivity|]. intros [N | N]; [contradiction | discriminate].
      * split; [reflexivity|]. intros [N | N]; [contradiction | discriminate].
Qed.

Lemma X18_deleteAttachment_permission_witness :
  deleteAttachment (mkEnv (Some "guest"%string) 0 0 0) "att1" exStore
  = (inl NotPermitted, exStore) /\
  deleteAttachment exEnv "att1" exStore
  = (inr tt, mkStore (base exStore) (columns exStore) []) /\
  deleteAttachment exBoss "att1" exStore
  = (inr tt, mkStore (base exStore) (columns exStore) []).
Proof.
  split; [|split].
  - apply (proj2 (X18_deleteAttachment_permission
                    (mkEnv (Some "guest"%string) 0 0 0) exStore "att1" "guest"
                    eq_refl)
                 (Attachment.mk "att1" "brief.pdf" "https://files/brief.pdf"
                                "application/pdf" 1000 "a" "u1" 0 0) eq_refl).
    split; [discriminate | reflexivity].
  - apply (proj2 (X18_deleteAttachment_permission exEnv exStore "att1" "u1" eq_refl)
                 (Attachment.mk "att1" "brief.pdf" "https://files/brief.pdf"
                                "application/pdf" 1000 "a" "u1" 0 0) eq_refl).
    left. reflexivity.
  - apply (proj2 (X18_deleteAttachment_permission exBoss exStore "att1" "boss"
                    eq_refl)
                 (Attachment.mk "att1" "brief.pdf" "https://files/brief.pdf"
                                "application/pdf" 1000 "a" "u1" 0 0) eq_refl).
    right. reflexivity.
Defined.

(* ------------------------------------------------------------------ *)
(** ** The card title of the Telegram webhook *)

Lemma split_nonempty (s : Webhook.str) : Webhook.split s <> [].
Proof.
  destruct s as [|c r]; cbn; [discriminate|].
  destruct (c =? Webhook.space); [discriminate|].
  destruct (Webhook.split r); discriminate.
Qed.

(** The first words of a text, joined again, are a beginning of the text. *)
Lemma join_firstn_split_prefix (s : Webhook.str) (k : nat) :
  exists rest, s = Webhook.join (firstn k (Webhook.split s)) ++ rest.
Proof.
  revert k. induction s as [|c r IH]; intros k.
  - exists []. destruct k as [|k]; cbn; [reflexivity|].
    destruct k; reflexivity.
  - destruct k as [|k]; [exists (c :: r); reflexivity|].
    cbn [Webhook.split].
    destruct (Z.eqb_spec c Webhook.space) as [-> | Hc].
    + cbn [firstn Webhook.join].
      destruct (IH k) as (rest & Hrest).
      destruct (firstn k (Webhook.split r)) as [|w ws] eqn:F.
      * exists (Webhook.space :: r). reflexivity.
      * exists rest. cbn [app]. f_equal. exact Hrest.
    + destruct (IH (S k)) as (rest & Hrest).
      destruct (Webhook.split r) as [|w ws] eqn:Sp;
        [exfalso; exact (split_nonempty r Sp)|].
      cbn [firstn Webhook.join] in *.
      exists rest.
      destruct (firstn k ws); cbn [app]; f_equal; exact Hrest.
Qed.

Lemma firstn_prefix {A : Type} (n : nat) (l rest : list A) :
  (n <= List.length l)%nat -> firstn n (l ++ rest) = firstn n l.
Proof.
  intros H. rewrite firstn_app.
  replace (n - List.length l)%nat with 0%nat by lia.
  cbn. apply app_nil_r.
Qed.

(** X19.  The title the webhook gives a card is never longer than 50
    code units.  It is the message text itself when that has at most 50
    units; otherwise it is a beginning of the text, or the first 47 units
    of the text followed by "...". *)
Theorem X19_webhook_title_is_bounded (messageText : Webhook.str) :
  (List.length (Webhook.title messageText) <= 50)%nat /\
  ((List.length messageText <= 50)%nat -> Webhook.title messageText = messageText) /\
  ((exists rest, messageText = Webhook.title messageText ++ rest) \/
   Webhook.title messageText = firstn 47 messageText ++ Webhook.dots).
Proof.
  unfold Webhook.title.
  destruct (Nat.ltb_spec 50 (List.length messageText)) as [Hlong | Hshort].
  - cbv zeta.
    set (t := if (List.length (Webhook.join (firstn 5 (Webhook.split messageText)))
                  <? 10)%nat
                 && (5 <? List.length (Webhook.split messageText))%nat
              then Webhook.join (firstn 10 (Webhook.split messageText))
              else Webhook.join (firstn 5 (Webhook.split messageText))).
    assert (Hpre : exists rest, messageText = t ++ rest).
    { unfold t. destruct (_ && _); apply join_firstn_split_prefix. }
    destruct (Nat.ltb_spec 50 (List.length t)) as [Ht | Ht].
    + split; [|split; [lia|]].
      * rewrite length_app, length_firstn.
        change (List.length Webhook.dots) with 3%nat. lia.
      * right. destruct Hpre as (rest & Hrest). clearbody t. subst messageText.
        rewrite firstn_prefix by lia. reflexivity.
    + split; [exact Ht|]. split; [lia|]. left. exact Hpre.
  - split; [exact Hshort|]. split; [reflexivity|].
    left. exists []. now rewrite app_nil_r.
Qed.

Lemma X19_webhook_title_is_bounded_witness :
  Webhook.title (Webhook.messageTextOf None) = Webhook.defaultText /\
  List.length (Webhook.title (repeat 1072 20 ++ [32] ++ repeat 1073 40)) = 50%nat.
Proof.
  split.
  - apply (X19_webhook_title_is_bounded (Webhook.messageTextOf None)).
    cbn. lia.
  - reflexivity.
Defined.

(* ------------------------------------------------------------------ *)
(** ** The content-plan page: weeks, cells and what they show *)

Section UiFacts.
Variable tza : Z.

Lemma shift_local (t k : Z) :
  JsDate.LocalTime tza (JsDate.setDate tza t (JsDate.getDate tza t + k))
  = JsDate.MakeDate (JsDate.Day (JsDate.LocalTime tza t) + k)
                    (JsDate.TimeWithinDay (JsDate.LocalTime tza t)).
Proof. rewrite setDate_getDate_plus. apply LocalTime_UTC. Qed.

Lemma Day_shift (t k : Z) :
  JsDate.Day (JsDate.LocalTime tza (JsDate.setDate tza t (JsDate.getDate tza t + k)))
  = JsDate.Day (JsDate.LocalTime tza t) + k.
Proof. rewrite shift_local. apply Day_MakeDate, TimeWithinDay_range. Qed.

Lemma Time_shift (t k : Z) :
  JsDate.TimeWithinDay
    (JsDate.LocalTime tza (JsDate.setDate tza t (JsDate.getDate tza t + k)))
  = JsDate.TimeWithinDay (JsDate.LocalTime tza t).
Proof. rewrite shift_local. apply TimeWithinDay_MakeDate, TimeWithinDay_range. Qed.

Lemma getDay_shift (t k : Z) :
  JsDate.getDay tza (JsDate.setDate tza t (JsDate.getDate tza t + k))
  = (JsDate.getDay tza t + k) mod 7.
Proof.
  unfold JsDate.getDay, JsDate.WeekDay. rewrite Day_shift.
  rewrite Zplus_mod_idemp_l. f_equal. ring.
Qed.

(** X20.  The week shown first by the content-plan page begins on the
    Monday of the current week: the initial [currentDate] is a Monday, at
    local midnight, at most six days before today and never after it.
    Moving to the next or previous week shifts it by exactly seven days,
    so it stays a Monday at midnight. *)
Theorem X20_week_view_starts_on_monday (now : Z) :
  JsDate.getDay tza (Ui.initialCurrentDate tza now) = 1 /\
  JsDate.TimeWithinDay (JsDate.LocalTime tza (Ui.initialCurrentDate tza now)) = 0 /\
  0 <= JsDate.Day (JsDate.LocalTime tza now)
       - JsDate.Day (JsDate.LocalTime tza (Ui.initialCurrentDate tza now)) <= 6 /\
  (forall currentDate,
      JsDate.Day (JsDate.LocalTime tza (Ui.nextWeek tza currentDate))
      = JsDate.Day (JsDate.LocalTime tza currentDate) + 7 /\
      JsDate.Day (JsDate.LocalTime tza (Ui.prevWeek tza currentDate))
      = JsDate.Day (JsDate.LocalTime tza currentDate) - 7 /\
      JsDate.getDay tza (Ui.nextWeek tza currentDate) = JsDate.getDay tza currentDate /\
      JsDate.getDay tza (Ui.prevWeek tza currentDate) = JsDate.getDay tza currentDate /\
      JsDate.TimeWithinDay (JsDate.LocalTime tza (Ui.nextWeek tza currentDate))
      = JsDate.TimeWithinDay (JsDate.LocalTime tza currentDate) /\
      JsDate.TimeWithinDay (JsDate.LocalTime tza (Ui.prevWeek tza currentDate))
      = JsDate.TimeWithinDay (JsDate.LocalTime tza currentDate)).
Proof.
  assert (Hz : 0 <= JsDate.MakeTime 0 0 0 0 < JsDate.msPerDay)
    by (unfold JsDate.MakeTime, JsDate.msPerDay; lia).
  unfold Ui.initialCurrentDate. cbv zeta.
  set (day := JsDate.getDay tza now).
  set (c := if day =? 0 then -6 else 1).
  replace (JsDate.getDate tza now - day + c)
    with (JsDate.getDate tza now + (c - day)) by ring.
  assert (Hday : 0 <= day < 7)
    by (unfold day, JsDate.getDay, JsDate.WeekDay; apply Z.mod_pos_bound; lia).
  split; [|split; [|split]].
  - unfold JsDate.getDay at 1. unfold JsDate.WeekDay.
    rewrite Day_setHours by exact Hz. rewrite Day_shift.
    fold (JsDate.WeekDay (JsDate.LocalTime tza now + 0)).
    assert (E : JsDate.Day (JsDate.LocalTime tza now) + (c - day) + 4
                = (JsDate.Day (JsDate.LocalTime tza now) + 4) + (c - day)) by ring.
    rewrite E.
    assert (Ed : day = (JsDate.Day (JsDate.LocalTime tza now) + 4) mod 7)
      by reflexivity.
    unfold c. destruct (Z.eqb_spec day 0) as [D0 | D0];
      Z.div_mod_to_equations; lia.
  - unfold JsDate.setHours. rewrite LocalTime_UTC.
    now rewrite TimeWithinDay_MakeDate.
  - rewrite Day_setHours by exact Hz. rewrite Day_shift.
    unfold c. destruct (Z.eqb_spec day 0); lia.
  - intros currentDate. unfold Ui.nextWeek, Ui.prevWeek.
    replace (JsDate.getDate tza currentDate - 7)
      with (JsDate.getDate tza currentDate + -7) by ring.
    rewrite !Day_shift, !Time_shift, !getDay_shift.
    assert (Hd : 0 <= JsDate.getDay tza currentDate < 7)
      by (unfold JsDate.getDay, JsDate.WeekDay; apply Z.mod_pos_bound; lia).
    repeat split; try lia; Z.div_mod_to_equations; lia.
Qed.

(** X21.  In the week view the page shows seven consecutive days beginning
    with the day of [currentDate]; when that is a Monday, the days the
    page marks as weekend are exactly the last two. *)
Theorem X21_week_columns (currentDate : Z) :
  map (fun d => JsDate.Day (JsDate.LocalTime tza d)) (Ui.weekDates tza currentDate)
  = map (fun i => JsDate.Day (JsDate.LocalTime tza currentDate) + i)
        [0; 1; 2; 3; 4; 5; 6] /\
  (JsDate.getDay tza currentDate = 1 ->
   map (Ui.isWeekend tza) (Ui.weekDates tza currentDate)
   = [false; false; false; false; false; true; true]).
Proof.
  unfold Ui.weekDates. split.
  - rewrite map_map. cbn [map]. now rewrite !Day_shift.
  - intros Hm. rewrite map_map. cbn [map]. unfold Ui.isWeekend.
    rewrite !getDay_shift, Hm. reflexivity.
Qed.

End UiFacts.

Lemma X21_week_columns_witness :
  map (Ui.isWeekend 10800000)
      (Ui.weekDates 10800000 (Ui.initialCurrentDate 10800000 1704524400000))
  = [false; false; false; false; false; true; true].
Proof.
  apply (X21_week_columns 10800000 (Ui.initialCurrentDate 10800000 1704524400000)).
  reflexivity.
Defined.

Lemma in_range (n : nat) (z : Z) :
  0 <= z < Z.of_nat n -> In z (map Z.of_nat (seq 0 n)).
Proof.
  intros H. apply in_map_iff. exists (Z.to_nat z).
  split; [lia|]. apply in_seq. lia.
Qed.

(** X23.  A cell of the grid shows a task only if the local time of its
    publishAt is on a half hour between 9:00 and 18:00: a task published
    at any other time of day (08:00, 10:15, 18:30, ...) appears in no cell
    of the content-plan grid. *)
Theorem X23_cells_show_grid_times_only
        (tza : Z) (filtered : list Task.t) (date : Z) (timeSlot : string)
        (task : Task.t) (p : Z) :
  In timeSlot Ui.timeSlots ->
  In task (Ui.getTasksForTimeSlot tza filtered date timeSlot) ->
  Task.publishAt task = Some p ->
  9 <= JsDate.getHours tza p <= 18 /\
  (JsDate.getMinutes tza p = 0 \/
   (JsDate.getMinutes tza p = 30 /\ JsDate.getHours tza p < 18)).
Proof.
  intros Hts Hin Hp.
  unfold Ui.getTasksForTimeSlot in Hin. apply filter_In in Hin.
  destruct Hin as [_ Hin]. rewrite Hp in Hin.
  apply andb_prop in Hin. destruct Hin as [_ Hlab].
  apply String.eqb_eq in Hlab. unfold Ui.taskTimeSlot in Hlab.
  set (h := JsDate.getHours tza p) in *.
  set (m := JsDate.getMinutes tza p) in *.
  assert (Hh : 0 <= h < 24)
    by (unfold h, JsDate.getHours, JsDate.HourFromTime; apply Z.mod_pos_bound; lia).
  assert (Hm : 0 <= m < 60)
    by (unfold m, JsDate.getMinutes, JsDate.MinFromTime; apply Z.mod_pos_bound; lia).
  assert (C : Ui.labelsChecked = true) by (vm_compute; reflexivity).
  unfold Ui.labelsChecked in C. rewrite forallb_forall in C.
  specialize (C h (in_range 24 h Hh)). rewrite forallb_forall in C.
  specialize (C m (in_range 60 m Hm)). rewrite Hlab in C.
  assert (Ex : existsb (String.eqb timeSlot) Ui.timeSlots = true).
  { apply existsb_exists. exists timeSlot. split; [exact Hts|].
    apply String.eqb_refl. }
  rewrite Ex in C. cbn [implb] in C. unfold Ui.onGrid in C.
  apply andb_prop in C. destruct C as [C1 C2].
  apply andb_prop in C1. destruct C1 as [C1 C1'].
  apply Z.leb_le in C1. apply Z.leb_le in C1'.
  split; [lia|].
  apply orb_prop in C2. destruct C2 as [C2 | C2].
  - left. now apply Z.eqb_eq.
  - right. apply andb_prop in C2. destruct C2 as [C2 C2'].
    split; [now apply Z.eqb_eq | now apply Z.ltb_lt].
Qed.

Lemma X23_cells_show_grid_times_only_witness :
  In (exTask "m" None (Some 1704088800000))
     (Ui.getTasksForTimeSlot 10800000 (tasks exUnordered) 1704056400000 "9:00") /\
  9 <= JsDate.getHours 10800000 1704088800000 <= 18.
Proof.
  assert (Hin : In (exTask "m" None (Some 1704088800000))
                   (Ui.getTasksForTimeSlot 10800000 (tasks exUnordered)
                                           1704056400000 "9:00"))
    by (vm_compute; tauto).
  split; [exact Hin|].
  apply (X23_cells_show_grid_times_only
           10800000 (tasks exUnordered) 1704056400000 "9:00"
           (exTask "m" None (Some 1704088800000)) 1704088800000).
  - vm_compute. tauto.
  - exact Hin.
  - reflexivity.
Defined.

(** X22.  Every slot the scheduler assigns has a cell in the week view:
    when the browser's zone is the server's, a content-plan task whose
    publishAt is a scheduler slot on one of the seven displayed days has
    a row "9:00", "13:00", "15:00" or "17:00" for its hour and a column
    for its day, and it is shown in that cell exactly when no platform is
    selected in the platform filter or the task is published on one of
    the selected platforms. *)
Theorem X22_scheduled_task_has_its_cell
        (env : Env) (k h i : Z) (contentPlanTasks : list Task.t) (task : Task.t)
        (currentDate : Z) (selectedPlatformFilter : list string) :
  In h timeSlots ->
  In task contentPlanTasks ->
  Task.publishAt task = Some (slotInstant env k h) ->
  JsDate.TimeWithinDay (JsDate.LocalTime (LocalTZA env) currentDate) = 0 ->
  0 <= i <= 6 ->
  localDay env + k = JsDate.Day (JsDate.LocalTime (LocalTZA env) currentDate) + i ->
  In (String.append (Ui.decimal h) ":00") Ui.timeSlots /\
  In (JsDate.setDate (LocalTZA env) currentDate
        (JsDate.getDate (LocalTZA env) currentDate + i))
     (Ui.weekDates (LocalTZA env) currentDate) /\
  (In task
      (Ui.getTasksForTimeSlot (LocalTZA env)
         (Ui.filteredTasks (LocalTZA env) contentPlanTasks Ui.week currentDate
                           selectedPlatformFilter)
         (JsDate.setDate (LocalTZA env) currentDate
            (JsDate.getDate (LocalTZA env) currentDate + i))
         (String.append (Ui.decimal h) ":00"))
   <-> selectedPlatformFilter = []
       \/ Ui.onPlatform selectedPlatformFilter task = true).
Proof.
  intros Hh Hin Hp Hmid Hi Hday.
  set (tza := LocalTZA env) in *.
  destruct (slot_fields env k h Hh) as (FH & FM & _ & _ & _).
  fold tza in FH, FM.
  pose proof (slotInstant_local env k h Hh) as Hloc. fold tza in Hloc.
  pose proof (hourInDay h Hh) as Hr.
  assert (Hr' : 0 <= h * JsDate.msPerHour < JsDate.msPerDay)
    by (unfold JsDate.MakeTime in Hr; lia).
  assert (Dslot : JsDate.Day (JsDate.LocalTime tza (slotInstant env k h))
                  = localDay env + k)
    by (rewrite Hloc; now apply Day_MakeDate).
  assert (Ec : JsDate.LocalTime tza currentDate
               = JsDate.msPerDay * JsDate.Day (JsDate.LocalTime tza currentDate)).
  { pose proof (Z.div_mod (JsDate.LocalTime tza currentDate) JsDate.msPerDay) as Hdm.
    unfold JsDate.TimeWithinDay in Hmid. unfold JsDate.Day.
    rewrite Hmid in Hdm. unfold JsDate.msPerDay in *. lia. }
  set (D := JsDate.Day (JsDate.LocalTime tza currentDate)) in *.
  rewrite Hday in Hloc.
  assert (Hperiod : Ui.inPeriod tza Ui.week currentDate task = true).
  { unfold Ui.inPeriod. rewrite Hp. cbv zeta.
    apply andb_true_intro. split; apply Z.leb_le.
    * unfold JsDate.LocalTime in Ec, Hloc. unfold JsDate.MakeDate in Hloc.
      unfold JsDate.msPerDay, JsDate.msPerHour in *. lia.
    * unfold JsDate.setHours. rewrite (Day_shift tza). fold D.
      unfold JsDate.UTC, JsDate.MakeDate, JsDate.MakeTime.
      unfold JsDate.LocalTime in Hloc. unfold JsDate.MakeDate in Hloc.
      unfold JsDate.msPerDay, JsDate.msPerHour, JsDate.msPerMinute,
        JsDate.msPerSecond in *. lia. }
  split; [|split].
  - unfold timeSlots in Hh. cbn in Hh.
    destruct Hh as [<-|[<-|[<-|[<-|[]]]]]; vm_compute; tauto.
  - unfold Ui.weekDates. apply in_map_iff. exists i. split; [reflexivity|].
    cbn. lia.
  - unfold Ui.getTasksForTimeSlot, Ui.filteredTasks. split.
    + intros Hcell. apply filter_In in Hcell. destruct Hcell as [Hf _].
      destruct selectedPlatformFilter as [|p sel]; [now left|right].
      cbn [List.length Nat.ltb Nat.leb] in Hf.
      apply filter_In in Hf. exact (proj2 Hf).
    + intros Hsel. apply filter_In. split.
      * destruct selectedPlatformFilter as [|p sel].
        -- cbn [List.length Nat.ltb Nat.leb].
           apply filter_In. split; [exact Hin|exact Hperiod].
        -- cbn [List.length Nat.ltb Nat.leb].
           destruct Hsel as [Hsel|Hsel]; [discriminate|].
           apply filter_In. split; [|exact Hsel].
           apply filter_In. split; [exact Hin|exact Hperiod].
      * rewrite Hp. apply andb_true_intro. split.
        -- unfold Ui.sameDate, JsDate.getDate, JsDate.DateFromTime,
             Ui.getMonth, Ui.getFullYear.
           rewrite (Day_shift tza), Dslot, Hday, !Z.eqb_refl. reflexivity.
        -- apply String.eqb_eq. unfold Ui.taskTimeSlot. rewrite FH, FM.
           reflexivity.
Qed.

(** The plan of one week: the task "m" on Monday 09:00 is published on
    Telegram; it is in its cell under the filter "telegram" and under no
    filter. *)
Lemma X22_scheduled_task_has_its_cell_witness :
  In (exTask "m" None (Some 1704088800000))
     (Ui.getTasksForTimeSlot 10800000
        (Ui.filteredTasks 10800000 (tasks exUnordered) Ui.week 1704056400000
                          ["telegram"%string])
        1704056400000 "9:00") /\
  In (exTask "m" None (Some 1704088800000))
     (Ui.getTasksForTimeSlot 10800000
        (Ui.filteredTasks 10800000 (tasks exUnordered) Ui.week 1704056400000 [])
        1704056400000 "9:00").
Proof.
  assert (E : 1704056400000
              = JsDate.setDate (LocalTZA exEnv) 1704056400000
                  (JsDate.getDate (LocalTZA exEnv) 1704056400000 + 0))
    by reflexivity.
  assert (Hm : In (exTask "m" None (Some 1704088800000)) (tasks exUnordered))
    by (cbn; tauto).
  assert (Hh : In 9 timeSlots) by (unfold timeSlots; cbn; tauto).
  split.
  - rewrite E at 2.
    apply (X22_scheduled_task_has_its_cell
             exEnv 0 9 0 (tasks exUnordered)
             (exTask "m" None (Some 1704088800000)) 1704056400000
             ["telegram"%string] Hh Hm eq_refl eq_refl).
    + lia.
    + reflexivity.
    + right. reflexivity.
  - rewrite E at 2.
    apply (X22_scheduled_task_has_its_cell
             exEnv 0 9 0 (tasks exUnordered)
             (exTask "m" None (Some 1704088800000)) 1704056400000
             [] Hh Hm eq_refl eq_refl).
    + lia.
    + reflexivity.
    + left. reflexivity.
Defined.

(* ------------------------------------------------------------------ *)
(** ** getTaskAttachments *)







